(** * Finnie: intent routing, compliance review, portfolio metrics and the
    workflow graph

    A shallow embedding of the orchestration core of the Finnie repository
    ([agents/orchestrator.py], [agents/compliance.py], [agents/portfolio.py],
    [agents/tutor.py], [tools/portfolio_metrics.py], [graph/workflow.py])
    and the theorems that settle the specification's claims against it.

    Conventions of the embedding:
    - a Python [str] is a [string]; its characters are read as code points
      below 256 (Latin-1), which is the whole range of [ascii]; where the
      code matches text case-insensitively, a statement about text that
      lower-casing leaves alone is made for ASCII text, since Python's
      case-insensitive match reaches further beyond Latin-1;
    - a Python exception is a value of [exn]; code that can raise returns
      [result A]; [try]/[except Exception] is [try_except];
    - a Python [dict] with string keys read by [.get]/[in] is a
      [gmap string value]; a dict whose iteration order matters is an
      association list;
    - numbers are exact rationals ([Q]); the pandas values that a division by
      zero produces (NaN, infinities) are kept apart in [fnum].  The
      wrap-around of int64 and the rounding of float64 are not modelled:
      a statement about a computed value is made for whole numbers in the
      range in which the code computes exactly ([exact_frame]). *)

From Stdlib Require Import String Ascii List ZArith NArith QArith Qfield Bool Lia.
From stdpp Require Import gmap strings.

Set Warnings "-register-all".
Local Open Scope string_scope.
Local Open Scope list_scope.

(** ** Exceptions and results *)

Inductive exn : Type :=
| ZeroDivisionError
| KeyError (key : string)
| AttributeError (obj attr : string)
| TypeError (msg : string)
| OtherError (msg : string).

Inductive result (A : Type) : Type :=
| Ok (a : A)
| Raise (e : exn).
Arguments Ok {A} a.
Arguments Raise {A} e.

Definition bind {A B : Type} (m : result A) (k : A -> result B) : result B :=
  match m with
  | Ok a => k a
  | Raise e => Raise e
  end.

(** [try: body except Exception as e: handler e] *)
Definition try_except {A : Type} (body : result A) (handler : exn -> result A)
  : result A :=
  match body with
  | Ok a => Ok a
  | Raise e => handler e
  end.

#[global] Instance result_ret : MRet result := fun _ a => Ok a.
#[global] Instance result_bind : MBind result := fun _ _ k m => bind m k.

(** ** Python strings *)

Module Py.

Definition code (c : ascii) : N := N_of_ascii c.

Definition in_range (lo hi : N) (c : ascii) : bool :=
  ((lo <=? code c) && (code c <=? hi))%N.

(** [str.isspace] on one character, which is also what [str.split()] and the
    regular expression class [\s] use: TAB..CR, FS..US, SPACE, NEL, NBSP. *)
Definition isspace (c : ascii) : bool :=
  in_range 9 13 c || in_range 28 32 c || (code c =? 133)%N || (code c =? 160)%N.

(** [\d]: the decimal digits. *)
Definition isdecimal (c : ascii) : bool := in_range 48 57 c.

(** [\w]: [str.isalnum] or the underscore. *)
Definition isword (c : ascii) : bool :=
  in_range 48 57 c || in_range 65 90 c || in_range 97 122 c || (code c =? 95)%N
  || (code c =? 170)%N || (code c =? 178)%N || (code c =? 179)%N
  || (code c =? 181)%N || (code c =? 185)%N || (code c =? 186)%N
  || in_range 188 190 c || in_range 192 214 c || in_range 216 246 c
  || in_range 248 255 c.

(** [str.lower] on one character. *)
Definition lower_char (c : ascii) : ascii :=
  if in_range 65 90 c || in_range 192 214 c || in_range 216 222 c
  then ascii_of_N (code c + 32)
  else c.

(** [s.lower()] *)
Fixpoint lower (s : string) : string :=
  match s with
  | EmptyString => EmptyString
  | String c s' => String (lower_char c) (lower s')
  end.

(** [s.startswith(p)] *)
Fixpoint startswith (p s : string) : bool :=
  match p, s with
  | EmptyString, _ => true
  | String _ _, EmptyString => false
  | String a p', String b s' => Ascii.eqb a b && startswith p' s'
  end.

(** [p in s] for strings: [p] occurs in [s] as a substring. *)
Fixpoint contains (p s : string) : bool :=
  startswith p s ||
  match s with
  | EmptyString => false
  | String _ s' => contains p s'
  end.

(** [s.split()]: the maximal runs of non-whitespace characters.  [tok] is the
    run being read, if any. *)
Fixpoint split_go (tok : option string) (s : string) : list string :=
  match s with
  | EmptyString =>
      match tok with Some t => [t] | None => [] end
  | String c s' =>
      if isspace c then
        match tok with
        | Some t => t :: split_go None s'
        | None => split_go None s'
        end
      else
        split_go
          (Some (match tok with
                 | Some t => (t ++ String c EmptyString)%string
                 | None => String c EmptyString
                 end)) s'
  end.

Definition split (s : string) : list string := split_go None s.

(** *** [re.sub(p, r, s, flags=re.IGNORECASE)] for a literal pattern

    Every pattern the compliance agent passes to [re.sub] is a non-empty
    literal without metacharacters.  With [re.IGNORECASE] a text character
    matches a pattern character when their lower-case forms agree.  This
    is what Python does on the characters a [string] holds here, those
    below U+0100.  Beyond them Python lets U+017F match "s" and U+0130,
    U+0131 match "i", although [str.lower] keeps them apart; such text is
    outside of the model. *)

Definition eqb_ci (a b : ascii) : bool :=
  Ascii.eqb (lower_char a) (lower_char b).

(** The pattern [p] matches at the start of [s]. *)
Fixpoint match_ci (p s : string) : bool :=
  match p, s with
  | EmptyString, _ => true
  | String _ _, EmptyString => false
  | String a p', String b s' => eqb_ci a b && match_ci p' s'
  end.

(** Left-to-right scan replacing each leftmost, non-overlapping match by
    [r].  [skip] counts the characters of the current match that remain to be
    dropped. *)
Fixpoint re_sub_go (p r : string) (skip : nat) (s : string) : string :=
  match s with
  | EmptyString => EmptyString
  | String c s' =>
      match skip with
      | S k => re_sub_go p r k s'
      | O =>
          if match_ci p s
          then (r ++ re_sub_go p r (String.length p - 1) s')%string
          else String c (re_sub_go p r 0 s')
      end
  end.

Definition re_sub_ignorecase (p r s : string) : string := re_sub_go p r 0 s.

(** *** [re.search] for the patterns of the compliance agent

    Regular expressions over character classes, matched with Brzozowski
    derivatives. *)

Inductive cclass : Type := Space | Word | Digit.

Definition in_class (k : cclass) (c : ascii) : bool :=
  match k with
  | Space => isspace c
  | Word => isword c
  | Digit => isdecimal c
  end.

Inductive regex : Type :=
| Empty                       (* matches nothing *)
| Eps                         (* matches the empty string *)
| Chr (c : ascii)
| Cls (k : cclass)
| Seq (r1 r2 : regex)
| Alt (r1 r2 : regex)
| Star (r : regex).

Fixpoint nullable (r : regex) : bool :=
  match r with
  | Empty => false
  | Eps => true
  | Chr _ => false
  | Cls _ => false
  | Seq r1 r2 => nullable r1 && nullable r2
  | Alt r1 r2 => nullable r1 || nullable r2
  | Star _ => true
  end.

(** Brzozowski derivative: what remains to be matched after reading [c]. *)
Fixpoint deriv (c : ascii) (r : regex) : regex :=
  match r with
  | Empty => Empty
  | Eps => Empty
  | Chr a => if Ascii.eqb a c then Eps else Empty
  | Cls k => if in_class k c then Eps else Empty
  | Seq r1 r2 =>
      if nullable r1
      then Alt (Seq (deriv c r1) r2) (deriv c r2)
      else Seq (deriv c r1) r2
  | Alt r1 r2 => Alt (deriv c r1) (deriv c r2)
  | Star r1 => Seq (deriv c r1) (Star r1)
  end.

(** [re.match(r, s)] as a truth value: some prefix of [s] matches [r]. *)
Fixpoint match_prefix (r : regex) (s : string) : bool :=
  nullable r ||
  match s with
  | EmptyString => false
  | String c s' => match_prefix (deriv c r) s'
  end.

(** [re.search(r, s)] as a truth value: a match starts at some position. *)
Fixpoint search (r : regex) (s : string) : bool :=
  match_prefix r s ||
  match s with
  | EmptyString => false
  | String _ s' => search r s'
  end.

(** A literal, [x+], and the concatenation of a list of pieces. *)
Fixpoint lit (s : string) : regex :=
  match s with
  | EmptyString => Eps
  | String c s' => Seq (Chr c) (lit s')
  end.

Definition plus (k : cclass) : regex := Seq (Cls k) (Star (Cls k)).

Fixpoint seqs (rs : list regex) : regex :=
  match rs with
  | [] => Eps
  | r :: rs' => Seq r (seqs rs')
  end.

End Py.



(** ** Python values held in dictionaries *)

Inductive value : Type :=
| VNone
| VBool (b : bool)
| VNum (q : Q)
| VStr (s : string)
| VList (l : list value)
| VDict (d : gmap string value).

Abbreviation dict := (gmap string value).

(** ** agents/orchestrator.py *)

Module Orchestrator.

Inductive AgentType : Type := TUTOR | PORTFOLIO | MARKET | COMPLIANCE | ONBOARDING.

(** [AgentType.value] *)
Definition agent_value (a : AgentType) : string :=
  match a with
  | TUTOR => "tutor"
  | PORTFOLIO => "portfolio"
  | MARKET => "market"
  | COMPLIANCE => "compliance"
  | ONBOARDING => "onboarding"
  end.

Definition AgentType_eqb (a b : AgentType) : bool :=
  match a, b with
  | TUTOR, TUTOR | PORTFOLIO, PORTFOLIO | MARKET, MARKET
  | COMPLIANCE, COMPLIANCE | ONBOARDING, ONBOARDING => true
  | _, _ => false
  end.

Record AgentState : Type := mkAgentState {
  user_id : string;
  query : string;
  context : dict;
  retrieval : dict;
  market : dict;
  analysis : dict;
  compliance : dict;
  messages : list value;
  current_agent : option AgentType;
  intent : option string;
  confidence : Q
}.

(** [self.intent_keywords], in the insertion order of the dict literal. *)
Definition intent_keywords : list (AgentType * list string) :=
  [ (TUTOR,
      ["explain"; "what is"; "how does"; "learn"; "teach"; "concept";
       "definition"; "meaning"; "tutorial"; "guide"; "help me understand"]);
    (PORTFOLIO,
      ["portfolio"; "analyze"; "holdings"; "performance"; "allocation";
       "rebalance"; "risk"; "diversification"; "sharpe"; "volatility";
       "drawdown"; "returns"; "metrics"]);
    (MARKET,
      ["market"; "price"; "quote"; "news"; "update"; "trend"; "forecast";
       "analysis"; "sector"; "index"; "stocks"; "trading"; "volatility"]);
    (ONBOARDING,
      ["start"; "begin"; "new"; "setup"; "profile"; "goals"; "risk";
       "preferences"; "onboarding"; "introduction"]) ].

(** [sum(1 for keyword in keywords if keyword in query_lower)] *)
Definition keyword_score (keywords : list string) (query_lower : string) : nat :=
  length (List.filter (fun keyword => Py.contains keyword query_lower) keywords).

(** The dict [scores] after the loop over [intent_keywords.items()]. *)
Definition compute_scores (query_lower : string) : list (AgentType * nat) :=
  map (fun '(agent_type, keywords) => (agent_type, keyword_score keywords query_lower))
      intent_keywords.

(** [max(scores, key=scores.get)]: the first key, in iteration order, whose
    score no later key exceeds. *)
Fixpoint max_go (best : AgentType * nat) (rest : list (AgentType * nat))
  : AgentType * nat :=
  match rest with
  | [] => best
  | (a, n) :: rest' =>
      if (snd best <? n)%nat then max_go (a, n) rest' else max_go best rest'
  end.

(** [x / y] on Python ints. *)
Definition true_div (x y : nat) : result Q :=
  match y with
  | O => Raise ZeroDivisionError
  | S _ => Ok (Z.of_nat x # Pos.of_nat y)
  end.

Definition set_routing (a : AgentType) (i : string) (c : Q) (state : AgentState)
  : AgentState :=
  {| user_id := user_id state; query := query state; context := context state;
     retrieval := retrieval state; market := market state;
     analysis := analysis state; compliance := compliance state;
     messages := messages state;
     current_agent := Some a; intent := Some i; confidence := c |}.

(** [OrchestratorAgent.route_query]: the returned agent type together with
    the state object as the call leaves it. *)
Definition route_query (state : AgentState) : result (AgentType * AgentState) :=
  let query_lower := Py.lower (query state) in
  let scores := compute_scores query_lower in
  match scores with
  | first :: others =>
      let '(best_agent, best_score) := max_go first others in
      c ← true_div best_score (length (Py.split query_lower));
      mret (best_agent, set_routing best_agent (agent_value best_agent) c state)
  | [] =>
      mret (TUTOR, set_routing TUTOR "general" (1 # 2) state)
  end.

End Orchestrator.

(** ** agents/compliance.py *)

Module Compliance.

(** [self.disclaimers] *)
Definition disclaimers : list (string * string) :=
  [ ("general", "This information is for educational purposes only and should not be considered as investment advice.");
    ("portfolio", "Portfolio analysis is for educational purposes only. Past performance does not guarantee future results.");
    ("market", "Market data and analysis are for informational purposes only and should not be considered as investment advice.");
    ("trading", "Trading involves risk and may not be suitable for all investors. Please consult with a financial advisor.") ].

(** [self.prohibited_content] *)
Definition prohibited_content : list string :=
  [ "guaranteed returns"; "risk-free"; "sure thing"; "can't lose";
    "guaranteed profit"; "guaranteed income"; "no risk"; "safe bet" ].

(** [self.risk_warnings] *)
Definition risk_warnings : list string :=
  [ "Investing involves risk, including the potential loss of principal.";
    "Past performance does not guarantee future results.";
    "Diversification does not ensure a profit or protect against loss.";
    "Consider your investment objectives and risk tolerance before investing." ].

(** [table[key]] / [key in table] on a dict literal with string keys. *)
Fixpoint lookup_str (key : string) (table : list (string * string)) : option string :=
  match table with
  | [] => None
  | (k, v) :: rest => if String.eqb k key then Some v else lookup_str key rest
  end.

(** [x in xs] on a list of strings. *)
Definition str_in_list (x : string) (xs : list string) : bool :=
  existsb (String.eqb x) xs.

(** The dict [checks] of [_run_compliance_checks]. *)
Record checks : Type := mkChecks {
  approved : bool;
  flags : list string;
  issues : list string
}.

Definition reject (c : checks) : checks :=
  {| approved := false; flags := flags c; issues := issues c |}.

Definition add_flag (flag issue : string) (c : checks) : checks :=
  {| approved := approved c; flags := flags c ++ [flag]; issues := issues c ++ [issue] |}.

Definition advice_indicators : list string :=
  [ "you should"; "you must"; "you need to"; "i recommend you";
    "you ought to"; "you would be wise to"; "you would benefit from" ].

(** [buy\s+\w+], [sell\s+\w+], [invest\s+in\s+\w+], [purchase\s+\w+],
    [avoid\s+\w+] *)
Definition recommendation_patterns : list Py.regex :=
  [ Py.seqs [Py.lit "buy"; Py.plus Py.Space; Py.plus Py.Word];
    Py.seqs [Py.lit "sell"; Py.plus Py.Space; Py.plus Py.Word];
    Py.seqs [Py.lit "invest"; Py.plus Py.Space; Py.lit "in"; Py.plus Py.Space; Py.plus Py.Word];
    Py.seqs [Py.lit "purchase"; Py.plus Py.Space; Py.plus Py.Word];
    Py.seqs [Py.lit "avoid"; Py.plus Py.Space; Py.plus Py.Word] ].

(** [guaranteed\s+\d+%], [promise\s+\d+%], [ensure\s+\d+%],
    [guarantee\s+\d+%], [promised\s+\d+%] *)
Definition return_promises : list Py.regex :=
  map (fun w => Py.seqs [Py.lit w; Py.plus Py.Space; Py.plus Py.Digit; Py.lit "%"])
      [ "guaranteed"; "promise"; "ensure"; "guarantee"; "promised" ].

Definition time_sensitive : list string :=
  [ "today only"; "limited time"; "act now"; "immediate action";
    "urgent"; "time-sensitive"; "expires soon" ].

(** One pass of a [for x in xs: if test(x): update(x)] loop over [checks]. *)
Definition scan {X : Type} (test : X -> bool) (update : X -> checks -> checks)
    (xs : list X) (c : checks) : checks :=
  fold_left (fun acc x => if test x then update x acc else acc) xs c.

(** [ComplianceAgent._run_compliance_checks]; [agent_type] is not read. *)
Definition _run_compliance_checks (response agent_type : string) : checks :=
  let checks0 := {| approved := true; flags := []; issues := [] |} in
  let response_lower := Py.lower response in
  let checks1 :=
    scan (fun prohibited => Py.contains prohibited response_lower)
         (fun prohibited c =>
            add_flag "prohibited_content"
              ("Contains prohibited phrase: '" ++ prohibited ++ "'")%string
              (reject c))
         prohibited_content checks0 in
  let checks2 :=
    scan (fun indicator => Py.contains indicator response_lower)
         (fun _ c =>
            add_flag "personalized_advice" "Contains personalized investment advice" c)
         advice_indicators checks1 in
  let checks3 :=
    scan (fun pattern => Py.search pattern response_lower)
         (fun _ c =>
            add_flag "investment_recommendation"
              "Contains specific investment recommendations" c)
         recommendation_patterns checks2 in
  let checks4 :=
    scan (fun pattern => Py.search pattern response_lower)
         (fun _ c =>
            add_flag "return_promise" "Contains promises of specific returns" (reject c))
         return_promises checks3 in
  scan (fun phrase => Py.contains phrase response_lower)
       (fun _ c => add_flag "time_sensitive" "Contains time-sensitive language" c)
       time_sensitive checks4.

Definition redaction_marker : string := "[content removed for compliance]".

(** [advice_replacements], in the insertion order of the dict literal. *)
Definition advice_replacements : list (string * string) :=
  [ ("you should", "one might consider");
    ("you must", "it's important to understand that");
    ("you need to", "it's worth noting that");
    ("i recommend you", "research suggests that");
    ("you ought to", "it may be beneficial to");
    ("you would be wise to", "it's worth considering that");
    ("you would benefit from", "one might benefit from") ].

(** The first loop of [_sanitize_response]. *)
Definition redact_prohibited (response : string) : string :=
  fold_left (fun sanitized prohibited =>
               Py.re_sub_ignorecase prohibited redaction_marker sanitized)
            prohibited_content response.

(** The second loop of [_sanitize_response]. *)
Definition rewrite_advice (sanitized : string) : string :=
  fold_left (fun acc '(old, new) => Py.re_sub_ignorecase old new acc)
            advice_replacements sanitized.

(** [ComplianceAgent._sanitize_response]; [compliance_checks] is not read. *)
Definition _sanitize_response (response : string) (compliance_checks : checks) : string :=
  rewrite_advice (redact_prohibited response).

(** [ComplianceAgent._generate_disclaimers] *)
Definition _generate_disclaimers (agent_type : string) (compliance_checks : checks)
  : list string :=
  let general :=
    match lookup_str "general" disclaimers with Some d => [d] | None => [] end in
  let specific :=
    match lookup_str agent_type disclaimers with Some d => [d] | None => [] end in
  let advice :=
    if str_in_list "personalized_advice" (flags compliance_checks)
    then ["This response is for educational purposes only and should not be considered as personalized investment advice."]
    else [] in
  let recommendation :=
    if str_in_list "investment_recommendation" (flags compliance_checks)
    then ["Any investment examples are for educational purposes only and should not be considered as recommendations."]
    else [] in
  let promise :=
    if str_in_list "return_promise" (flags compliance_checks)
    then ["No investment can guarantee returns. All investments carry risk."]
    else [] in
  general ++ specific ++ advice ++ recommendation ++ promise.

(** [ComplianceAgent._get_risk_warnings] *)
Definition _get_risk_warnings (agent_type : string) : list string :=
  risk_warnings ++
  (if String.eqb agent_type "portfolio"
   then ["Portfolio analysis is based on historical data and may not reflect future performance."]
   else if String.eqb agent_type "market"
   then ["Market data is subject to change and may not be current at the time of your decision."]
   else if String.eqb agent_type "trading"
   then ["Trading involves substantial risk and may not be suitable for all investors."]
   else []).

Definition VStrs (xs : list string) : value := VList (map VStr xs).

(** [response_text.lower()] needs a [str]: any other value has no [lower]. *)
Definition as_str (v : value) : result string :=
  match v with
  | VStr s => Ok s
  | _ => Raise (AttributeError "object" "lower")
  end.

(** [ComplianceAgent.validate_agent_response] *)
Definition validate_agent_response (agent_response : dict) (agent_type : string)
  : result dict :=
  let response_value := default (VStr "") (agent_response !! "response") in
  response_text ← as_str response_value;
  let compliance_checks := _run_compliance_checks response_text agent_type in
  let disclaimers := _generate_disclaimers agent_type compliance_checks in
  let sanitized_response := _sanitize_response response_text compliance_checks in
  let compliance_metadata : dict :=
    <["disclaimers" := VStrs disclaimers]>
    (<["risk_warnings" := VStrs (_get_risk_warnings agent_type)]>
    (<["compliance_flags" := VStrs (flags compliance_checks)]>
    (<["approved" := VBool (approved compliance_checks)]>
    (<["jurisdiction" := VStr "US"]>
    (<["last_updated" := VStr "2024-01-01"]> ∅))))) in
  mret (<["approved" := VBool (approved compliance_checks)]>
       (<["compliance" := VDict compliance_metadata]>
       (<["response" := VStr sanitized_response]> agent_response))).

End Compliance.


(** ** agents/portfolio.py and tools/portfolio_metrics.py *)

Module Portfolio.

(** *** Numbers as pandas and NumPy hold them

    [Fin q] is a finite number; [PInf], [NInf] and [NaN] are what a division
    by zero leaves in a float64 column (pandas and NumPy do not raise there).
    The sign of a zero is not modelled: a zero divisor counts as [+0].

    A finite number is held exactly.  pandas holds it in an int64 or a
    float64 cell, so its products and sums wrap around at 2^63 or are
    rounded to 53 bits; neither is modelled.  The model agrees with the
    code where the code computes exactly, and the theorems that speak of
    computed values are stated for that range ([exact_frame] below). *)
Inductive fnum : Type := Fin (q : Q) | PInf | NInf | NaN.

Definition inf_of_sign (s : Z) : fnum :=
  match s with
  | Z0 => NaN
  | Zpos _ => PInf
  | Zneg _ => NInf
  end.

Definition fsgn (x : fnum) : Z :=
  match x with
  | Fin q => Z.sgn (Qnum q)
  | PInf => 1
  | NInf => -1
  | NaN => 0
  end.

Definition fadd (x y : fnum) : fnum :=
  match x, y with
  | NaN, _ | _, NaN => NaN
  | Fin a, Fin b => Fin (a + b)
  | PInf, NInf | NInf, PInf => NaN
  | PInf, _ | _, PInf => PInf
  | NInf, _ | _, NInf => NInf
  end.

Definition fneg (x : fnum) : fnum :=
  match x with
  | Fin a => Fin (- a)
  | PInf => NInf
  | NInf => PInf
  | NaN => NaN
  end.

Definition fsub (x y : fnum) : fnum := fadd x (fneg y).

Definition fmul (x y : fnum) : fnum :=
  match x, y with
  | NaN, _ | _, NaN => NaN
  | Fin a, Fin b => Fin (a * b)
  | _, _ => inf_of_sign (fsgn x * fsgn y)
  end.

Definition fdiv (x y : fnum) : fnum :=
  match x, y with
  | NaN, _ | _, NaN => NaN
  | Fin a, Fin b =>
      if Qeq_bool b 0 then inf_of_sign (Z.sgn (Qnum a)) else Fin (a / b)
  | Fin _, _ => Fin 0
  | _, Fin b => if Qeq_bool b 0 then x else inf_of_sign (fsgn x * fsgn y)
  | _, _ => NaN
  end.

(** [x > 0] *)
Definition fgt0 (x : fnum) : bool :=
  match x with
  | Fin q => (0 <? Qnum q)%Z
  | PInf => true
  | _ => false
  end.

Definition is_nan (x : fnum) : bool :=
  match x with NaN => true | _ => false end.

(** Equality of numbers up to the representation of a rational. *)
Definition feq (x y : fnum) : Prop :=
  match x, y with
  | Fin a, Fin b => a == b
  | PInf, PInf | NInf, NInf | NaN, NaN => True
  | _, _ => False
  end.

(** *** Holdings and the data frame built from them *)

Record holding : Type := mkHolding {
  symbol : string;
  quantity : Q;
  cost_basis : Q;
  current_price : option Q;
  market_value : option Q;
  sector : option string
}.

(** [pd.DataFrame(holdings)]: one row per holding.  A [Series] is a column
    of numbers in row order. *)
Definition DataFrame : Type := list holding.
Definition Series : Type := list fnum.

(** [df.empty] / [len(df)] *)
Definition empty (df : DataFrame) : bool :=
  match df with [] => true | _ => false end.

(** [df['quantity']], [df['cost_basis']] *)
Definition col_quantity (df : DataFrame) : Series := map (fun h => Fin (quantity h)) df.
Definition col_cost_basis (df : DataFrame) : Series := map (fun h => Fin (cost_basis h)) df.

(** [a * b] on two columns of one frame: row by row. *)
Fixpoint series_mul (a b : Series) : Series :=
  match a, b with
  | x :: a', y :: b' => fmul x y :: series_mul a' b'
  | _, _ => []
  end.

(** [s / t] and [s ** 2] *)
Definition series_div (s : Series) (t : fnum) : Series := map (fun x => fdiv x t) s.
Definition series_sq (s : Series) : Series := map (fun x => fmul x x) s.

(** [s.sum()] of pandas: missing values (NaN) are skipped, the sum of
    nothing is 0. *)
Definition series_sum (s : Series) : fnum :=
  fold_left fadd (List.filter (fun x => negb (is_nan x)) s) (Fin 0).

(** [(df_holdings['quantity'] * df_holdings['cost_basis']).sum()]: the
    expression bound to [total_value] in [_calculate_portfolio_metrics],
    [_calculate_hhi] and [calculate_metrics]. *)
Definition total_value (df : DataFrame) : fnum :=
  series_sum (series_mul (col_quantity df) (col_cost_basis df)).

(** [(df_holdings['quantity'] * df_holdings['cost_basis']) / total_value] *)
Definition weights (df : DataFrame) : Series :=
  series_div (series_mul (col_quantity df) (col_cost_basis df)) (total_value df).

(** [PortfolioAnalystAgent._calculate_hhi] *)
Definition _calculate_hhi (df_holdings : DataFrame) : fnum :=
  if empty df_holdings then Fin 0
  else series_sum (series_sq (weights df_holdings)).

(** [1 / hhi if hhi > 0 else 0] *)
Definition diversification_ratio_of (hhi : fnum) : fnum :=
  if fgt0 hhi then fdiv (Fin 1) hhi else Fin 0.

(** The entries of the dict returned by
    [PortfolioMetricsCalculator._calculate_diversification_metrics] that are
    computed from [hhi].  The two other entries, [concentration_ratio_top5]
    and [gini_coefficient], are not modelled. *)
Record diversification_metrics : Type := mkDiversification {
  dm_hhi : fnum;
  dm_effective_holdings : fnum;
  dm_diversification_ratio : fnum
}.

(** [PortfolioMetricsCalculator._calculate_diversification_metrics];
    [None] is the empty dict returned for an empty [weights]. *)
Definition _calculate_diversification_metrics (weights : Series) (df_holdings : DataFrame)
  : option diversification_metrics :=
  match weights with
  | [] => None
  | _ =>
      let hhi := series_sum (series_sq weights) in
      Some {| dm_hhi := hhi;
              dm_effective_holdings := diversification_ratio_of hhi;
              dm_diversification_ratio := diversification_ratio_of hhi |}
  end.

(** *** The mock return series and the risk metrics *)

(** The attributes of a [numpy.ndarray].  [expanding] is a method of pandas
    [Series] and [DataFrame]; an array has none of that name. *)
Definition ndarray_attributes : list string :=
  [ "T"; "all"; "any"; "argmax"; "argmin"; "argpartition"; "argsort";
    "astype"; "base"; "byteswap"; "choose"; "clip"; "compress"; "conj";
    "conjugate"; "copy"; "ctypes"; "cumprod"; "cumsum"; "data"; "diagonal";
    "dot"; "dtype"; "dump"; "dumps"; "fill"; "flags"; "flat"; "flatten";
    "getfield"; "imag"; "item"; "itemsize"; "max"; "mean"; "min"; "nbytes";
    "ndim"; "nonzero"; "partition"; "prod"; "put"; "ravel"; "real"; "repeat";
    "reshape"; "resize"; "round"; "searchsorted"; "setfield"; "setflags";
    "shape"; "size"; "sort"; "squeeze"; "std"; "strides"; "sum"; "swapaxes";
    "take"; "tobytes"; "tofile"; "tolist"; "trace"; "transpose"; "var";
    "view" ].

(** Attribute access [array.name] on a [numpy.ndarray]. *)
Definition ndarray_getattr (name : string) : result unit :=
  if Compliance.str_in_list name ndarray_attributes
  then Ok tt
  else Raise (AttributeError "numpy.ndarray" name).

(** [arr.cumprod()] *)
Fixpoint cumprod_go (acc : fnum) (xs : list fnum) : list fnum :=
  match xs with
  | [] => []
  | x :: rest => let a := fmul acc x in a :: cumprod_go a rest
  end.
Definition cumprod (xs : list fnum) : list fnum := cumprod_go (Fin 1) xs.

(** [np.sum], [np.mean]: NaN is not skipped here. *)
Definition np_sum (xs : list fnum) : fnum := fold_left fadd xs (Fin 0).
Definition np_mean (xs : list fnum) : fnum :=
  fdiv (np_sum xs) (Fin (Z.of_nat (length xs) # 1)).

(** The dict returned by [_calculate_portfolio_metrics]. *)
Record metrics : Type := mkMetrics {
  m_total_value : fnum;
  m_num_holdings : nat;
  m_volatility : fnum;
  m_sharpe_ratio : fnum;
  m_max_drawdown : fnum;
  m_var_95 : fnum;
  m_diversification_ratio : fnum;
  m_returns : list fnum;
  m_cumulative_returns : list fnum
}.

(** [self.risk_free_rate] *)
Definition risk_free_rate : fnum := Fin (2 # 100).

Section MockReturns.

(** NumPy's global random generator and the numeric routines whose values
    the embedding does not compute.  [np.random.seed] replaces the global
    state by one that depends on the seed alone; a draw reads the state and
    leaves a new one. *)
Variable rng : Type.
Variable np_random_seed : Z -> rng.
Variable np_random_normal1 : Q -> Q -> rng -> fnum * rng.
Variable np_sqrt : fnum -> fnum.
Variable np_percentile : list fnum -> Q -> fnum.
(** [s.expanding().max()] and [s.min()] of a pandas [Series] *)
Variable expanding_max : list fnum -> list fnum.
Variable series_min : list fnum -> fnum.

(** [np.random.normal(loc, scale, size)]: [size] successive draws. *)
Fixpoint np_random_normal (loc scale : Q) (size : nat) (g : rng)
  : list fnum * rng :=
  match size with
  | O => ([], g)
  | S n =>
      let '(x, g1) := np_random_normal1 loc scale g in
      let '(xs, g2) := np_random_normal loc scale n g1 in
      (x :: xs, g2)
  end.

(** [_generate_mock_returns], the same in both files: the global state [g]
    found on entry is overwritten by [np.random.seed(42)]. *)
Definition _generate_mock_returns (num_holdings days : nat) (g : rng)
  : list fnum * rng :=
  np_random_normal (8 # 10000) (2 # 100) days (np_random_seed 42).

(** [np.std] *)
Definition np_std (xs : list fnum) : fnum :=
  let m := np_mean xs in
  np_sqrt (np_mean (map (fun x => fmul (fsub x m) (fsub x m)) xs)).

(** [(cumulative_returns - peak) / peak] *)
Fixpoint drawdown_of (cumulative peak : list fnum) : list fnum :=
  match cumulative, peak with
  | c :: cs, p :: ps => fdiv (fsub c p) p :: drawdown_of cs ps
  | _, _ => []
  end.

(** [PortfolioAnalystAgent._calculate_portfolio_metrics]; [None] is the
    empty dict returned for an empty frame.  [returns] and
    [cumulative_returns] are NumPy arrays, so the lookup of [expanding]
    goes through [ndarray_getattr]. *)
Definition _calculate_portfolio_metrics (df_holdings : DataFrame) (g : rng)
  : result (option metrics) * rng :=
  if empty df_holdings then (Ok None, g)
  else
    let total := total_value df_holdings in
    let num_holdings := length df_holdings in
    let '(returns, g1) := _generate_mock_returns num_holdings 252 g in
    let volatility := fmul (np_std returns) (np_sqrt (Fin 252)) in
    let sharpe_ratio :=
      if fgt0 volatility
      then fdiv (fsub (fmul (np_mean returns) (Fin 252)) risk_free_rate) volatility
      else Fin 0 in
    let cumulative_returns := cumprod (map (fadd (Fin 1)) returns) in
    (_ ← ndarray_getattr "expanding";
     let peak := expanding_max cumulative_returns in
     let drawdown := drawdown_of cumulative_returns peak in
     let max_drawdown := series_min drawdown in
     let var_95 := np_percentile returns 5 in
     let hhi := _calculate_hhi df_holdings in
     let diversification_ratio := diversification_ratio_of hhi in
     mret (Some {| m_total_value := total;
                   m_num_holdings := num_holdings;
                   m_volatility := volatility;
                   m_sharpe_ratio := sharpe_ratio;
                   m_max_drawdown := max_drawdown;
                   m_var_95 := var_95;
                   m_diversification_ratio := diversification_ratio;
                   m_returns := returns;
                   m_cumulative_returns := cumulative_returns |}),
     g1).

End MockReturns.

End Portfolio.

(** ** graph/workflow.py *)

Module Workflow.

Import Orchestrator.

(** [FinnieState].  Every key is set when [process_query] builds the initial
    state, so the dict is a record; the keys that receive whatever an agent
    returned hold a [value]. *)
Record FinnieState : Type := mkFinnieState {
  user_id : string;
  query : string;
  context : dict;
  retrieval : dict;
  market : value;
  analysis : dict;
  compliance : value;
  messages : list value;
  current_agent : option string;
  intent : option string;
  confidence : Q;
  response : string;
  sources : value;
  approved : value
}.

Definition set_route (a i : option string) (c : Q) (st : FinnieState) : FinnieState :=
  {| user_id := user_id st; query := query st; context := context st;
     retrieval := retrieval st; market := market st; analysis := analysis st;
     compliance := compliance st; messages := messages st;
     current_agent := a; intent := i; confidence := c;
     response := response st; sources := sources st; approved := approved st |}.

Definition set_analysis (a : dict) (st : FinnieState) : FinnieState :=
  {| user_id := user_id st; query := query st; context := context st;
     retrieval := retrieval st; market := market st; analysis := a;
     compliance := compliance st; messages := messages st;
     current_agent := current_agent st; intent := intent st;
     confidence := confidence st;
     response := response st; sources := sources st; approved := approved st |}.

Definition set_sources (v : value) (st : FinnieState) : FinnieState :=
  {| user_id := user_id st; query := query st; context := context st;
     retrieval := retrieval st; market := market st; analysis := analysis st;
     compliance := compliance st; messages := messages st;
     current_agent := current_agent st; intent := intent st;
     confidence := confidence st;
     response := response st; sources := v; approved := approved st |}.

Definition set_market (v : value) (st : FinnieState) : FinnieState :=
  {| user_id := user_id st; query := query st; context := context st;
     retrieval := retrieval st; market := v; analysis := analysis st;
     compliance := compliance st; messages := messages st;
     current_agent := current_agent st; intent := intent st;
     confidence := confidence st;
     response := response st; sources := sources st; approved := approved st |}.

Definition set_compliance (c a : value) (st : FinnieState) : FinnieState :=
  {| user_id := user_id st; query := query st; context := context st;
     retrieval := retrieval st; market := market st; analysis := analysis st;
     compliance := c; messages := messages st;
     current_agent := current_agent st; intent := intent st;
     confidence := confidence st;
     response := response st; sources := sources st; approved := a |}.

Definition set_response (r : string) (st : FinnieState) : FinnieState :=
  {| user_id := user_id st; query := query st; context := context st;
     retrieval := retrieval st; market := market st; analysis := analysis st;
     compliance := compliance st; messages := messages st;
     current_agent := current_agent st; intent := intent st;
     confidence := confidence st;
     response := r; sources := sources st; approved := approved st |}.

(** [state["analysis"][key] = v] *)
Definition set_analysis_item (key : string) (v : value) (st : FinnieState) : FinnieState :=
  set_analysis (<[key := v]> (analysis st)) st.

(** The [AgentState(...)] built at the head of the router and of each
    responder node. *)
Definition agent_state_of (state : FinnieState) : AgentState :=
  {| Orchestrator.user_id := user_id state;
     Orchestrator.query := query state;
     Orchestrator.context := context state;
     Orchestrator.retrieval := retrieval state;
     Orchestrator.market := match market state with VDict d => d | _ => ∅ end;
     Orchestrator.analysis := analysis state;
     Orchestrator.compliance := match compliance state with VDict d => d | _ => ∅ end;
     Orchestrator.messages := messages state;
     Orchestrator.current_agent := None;
     Orchestrator.intent := None;
     Orchestrator.confidence := 0 |}.

(** [d[key]] and [d.get(key, default)] *)
Definition getitem (d : dict) (key : string) : result value :=
  match d !! key with
  | Some v => Ok v
  | None => Raise (KeyError key)
  end.
Definition get (d : dict) (key : string) (dflt : value) : value :=
  default dflt (d !! key).

(** A [try]/[except Exception] whose handler cannot raise. *)
Definition recover {A : Type} (body : result A) (handler : exn -> A) : A :=
  match body with
  | Ok a => a
  | Raise e => handler e
  end.

(** Truth value of an object. *)
Definition truthy (v : value) : bool :=
  match v with
  | VNone => false
  | VBool b => b
  | VNum q => negb (Qeq_bool q 0)
  | VStr s => negb (String.eqb s "")
  | VList l => match l with [] => false | _ => true end
  | VDict d => negb (bool_decide (d = ∅))
  end.

(** The three responders, and the nodes of the graph. *)
Inductive responder : Type := RTutor | RPortfolio | RMarket.
Inductive node : Type := NTutor | NPortfolio | NMarket.

(** The path map given to [add_conditional_edges]. *)
Definition path_map : list (string * node) :=
  [ ("tutor", NTutor); ("portfolio", NPortfolio); ("market", NMarket) ].

Fixpoint lookup_node (key : string) (m : list (string * node)) : option node :=
  match m with
  | [] => None
  | (k, n) :: rest => if String.eqb k key then Some n else lookup_node key rest
  end.

(** [_route_to_agent]: [state.get("current_agent", "tutor")]; the key is
    always present, so the default is never used. *)
Definition _route_to_agent (state : FinnieState) : option string :=
  current_agent state.

(** The conditional edge after the router: the key returned by
    [_route_to_agent] is looked up in the path map; LangGraph raises on a
    key that the map does not hold. *)
Definition dispatch (state : FinnieState) : result node :=
  match _route_to_agent state with
  | Some key =>
      match lookup_node key path_map with
      | Some n => Ok n
      | None => Raise (KeyError key)
      end
  | None => Raise (KeyError "None")
  end.

(** [_router_node] *)
Definition _router_node (state : FinnieState) : FinnieState :=
  recover
    ('(agent_type, agent_state) ← route_query (agent_state_of state);
     mret (set_route (Some (agent_value agent_type))
                     (Orchestrator.intent agent_state)
                     (Orchestrator.confidence agent_state) state))
    (fun _ => set_route (Some "tutor") (Some "general") 0 state).

Section Graph.

(** The [process] methods of the three responder agents: each reads the
    agent state and returns a dict or raises.  [repr] is [str(x)] for an
    object that is not a [str]. *)
Variable tutor_process portfolio_process market_process
  : AgentState -> result dict.
Variable repr : value -> string.

(** [_tutor_node].  The second component lists the responders whose
    processing body ran: none when the guard returns early. *)
Definition _tutor_node (state : FinnieState) : FinnieState * list responder :=
  if negb (bool_decide (current_agent state = Some "tutor")) then (state, [])
  else
    (recover
       (result ← tutor_process (agent_state_of state);
        r ← getitem result "response";
        mret (set_analysis_item "concepts_covered" (get result "concepts_covered" (VList []))
             (set_analysis_item "follow_up_questions" (get result "follow_up_questions" (VList []))
             (set_sources (get result "sources" (VList []))
             (set_analysis_item "response" r state)))))
       (fun _ =>
          set_sources (VList [])
            (set_analysis_item "response"
               (VStr "I'm sorry, I encountered an error processing your educational request. Please try again.")
               state)),
     [RTutor]).

(** [_portfolio_node] *)
Definition _portfolio_node (state : FinnieState) : FinnieState * list responder :=
  if negb (bool_decide (current_agent state = Some "portfolio")) then (state, [])
  else
    (recover
       (result ← portfolio_process (agent_state_of state);
        r ← getitem result "response";
        mret (set_analysis_item "metrics" (get result "metrics" (VDict ∅))
             (set_analysis_item "recommendations" (get result "recommendations" (VList []))
             (set_sources (get result "sources" (VList []))
             (set_analysis_item "response" r state)))))
       (fun _ =>
          set_sources (VList [])
            (set_analysis_item "response"
               (VStr "I'm sorry, I encountered an error analyzing your portfolio. Please try again.")
               state)),
     [RPortfolio]).

(** [_market_node] *)
Definition _market_node (state : FinnieState) : FinnieState * list responder :=
  if negb (bool_decide (current_agent state = Some "market")) then (state, [])
  else
    (recover
       (result ← market_process (agent_state_of state);
        r ← getitem result "response";
        mret (set_analysis_item "news" (get result "news" (VList []))
             (set_market (get result "market_data" (VDict ∅))
             (set_sources (get result "sources" (VList []))
             (set_analysis_item "response" r state)))))
       (fun _ =>
          set_sources (VList [])
            (set_analysis_item "response"
               (VStr "I'm sorry, I encountered an error retrieving market data. Please try again.")
               state)),
     [RMarket]).

(** [_compliance_node] *)
Definition _compliance_node (state : FinnieState) : FinnieState :=
  recover
    (let response := get (analysis state) "response" (VStr "") in
     let agent_type :=
       match current_agent state with
       | Some a => if String.eqb a "" then "general" else a
       | None => "general"
       end in
     compliance_result ←
       Compliance.validate_agent_response {[ "response" := response ]} agent_type;
     c ← getitem compliance_result "compliance";
     r ← getitem compliance_result "response";
     a ← getitem compliance_result "approved";
     mret (set_compliance c a (set_analysis_item "response" r state)))
    (fun _ =>
       set_compliance
         (VDict (<["disclaimers" :=
                     VList [VStr "This response has not been compliance reviewed."]]>
                (<["risk_warnings" :=
                     VList [VStr "Please consult with a financial advisor before making investment decisions."]]>
                 ∅)))
         (VBool false) state).

(** [compliance.get(key)]: needs a dict; a missing key gives [None]. *)
Definition dict_get (v : value) (key : string) : result value :=
  match v with
  | VDict d => Ok (get d key VNone)
  | _ => Raise (AttributeError "object" "get")
  end.

(** The elements a [for] loop draws from an object.  The state only ever
    holds lists here; a string yields its characters. *)
Fixpoint chars (s : string) : list value :=
  match s with
  | EmptyString => []
  | String c s' => VStr (String c EmptyString) :: chars s'
  end.
Definition iterate (v : value) : result (list value) :=
  match v with
  | VList l => Ok l
  | VStr s => Ok (chars s)
  | VDict d => Ok (map (fun kv => VStr kv.1) (map_to_list d))
  | _ => Raise (TypeError "object is not iterable")
  end.

(** The bullet sign of the formatter, U+2022, as its UTF-8 bytes. *)
Definition bullet : string := "•".
Definition newline : string := String (ascii_of_N 10) EmptyString.

(** [f"• {x}\n"] *)
Definition bullet_line (x : value) : string :=
  (bullet ++ " " ++ (match x with VStr s => s | _ => repr x end) ++ newline)%string.

(** [response += text] with a [str] on the left.  None, a boolean, a number
    and a dict raise [TypeError] there.  A list does not: Python extends it
    in place by the characters of the text.  The model raises for a list as
    well, so a reply that is a list is outside of it, and no statement
    below speaks of the final response of such a reply. *)
Definition as_text (v : value) : result string :=
  match v with
  | VStr s => Ok s
  | _ => Raise (TypeError "unsupported operand type(s) for +=")
  end.

(** One of the two blocks of [_responder_node]: when [compliance.get(key)]
    is true, the heading and one bullet line per item are appended. *)
Definition append_block (compliance : value) (key heading : string) (response : value)
  : result value :=
  items ← dict_get compliance key;
  if truthy items then
    text ← as_text response;
    xs ← iterate items;
    mret (VStr (fold_left (fun acc x => (acc ++ bullet_line x)%string) xs
                          (text ++ heading)%string))
  else mret response.

(** [_responder_node].  For a stored reply that is a [str], None, a
    boolean, a number or a dict, [state["response"]] receives a [str].  For
    a list the code stores the extended list, which the model does not
    follow (see [as_text]). *)
Definition _responder_node (state : FinnieState) : FinnieState :=
  recover
    (let response := get (analysis state) "response" (VStr "") in
     let compliance := compliance state in
     r1 ← append_block compliance "disclaimers"
            (newline ++ newline ++ "---" ++ newline ++ "**Important Disclaimers:**" ++ newline)%string
            response;
     r2 ← append_block compliance "risk_warnings"
            (newline ++ "**Risk Warnings:**" ++ newline)%string r1;
     text ← as_text r2;
     mret (set_response text state))
    (fun _ =>
       set_response "I'm sorry, I encountered an error formatting the response. Please try again." state).

Definition run_node (n : node) (state : FinnieState) : FinnieState * list responder :=
  match n with
  | NTutor => _tutor_node state
  | NPortfolio => _portfolio_node state
  | NMarket => _market_node state
  end.

(** [self.graph.invoke(initial_state)]: router, the conditional edge, the
    selected responder node, compliance, responder, END.  The second
    component is the execution log of the responders. *)
Definition graph_invoke (initial_state : FinnieState)
  : result FinnieState * list responder :=
  let s1 := _router_node initial_state in
  match dispatch s1 with
  | Raise e => (Raise e, [])
  | Ok n =>
      let '(s2, log) := run_node n s1 in
      (Ok (_responder_node (_compliance_node s2)), log)
  end.

(** The [FinnieState(...)] of [process_query].  [context or {}]: [None] and
    the empty dict both give the empty dict. *)
Definition initial_state (user_id query : string) (context : option dict) : FinnieState :=
  {| user_id := user_id; query := query;
     context := default ∅ context;
     retrieval := ∅; market := VDict ∅; analysis := ∅; compliance := VDict ∅;
     messages := []; current_agent := None; intent := None; confidence := 0;
     response := ""; sources := VList []; approved := VBool false |}.

Definition opt_str (o : option string) : value :=
  match o with Some s => VStr s | None => VNone end.

(** The dict returned on the normal path of [process_query]. *)
Definition payload_of (result : FinnieState) : dict :=
  <["response" := VStr (response result)]>
  (<["sources" := sources result]>
  (<["agent" := opt_str (current_agent result)]>
  (<["intent" := opt_str (intent result)]>
  (<["confidence" := VNum (confidence result)]>
  (<["approved" := approved result]>
  (<["compliance" := compliance result]>
  (<["analysis" := VDict (analysis result)]> ∅))))))).

(** The dict returned by the [except] branch of [process_query]. *)
Definition error_payload : dict :=
  <["response" := VStr "I'm sorry, I encountered an error processing your request. Please try again."]>
  (<["sources" := VList []]>
  (<["agent" := VStr "error"]>
  (<["intent" := VStr "error"]>
  (<["confidence" := VNum 0]>
  (<["approved" := VBool false]>
  (<["compliance" := VDict ∅]>
  (<["analysis" := VDict ∅]> ∅))))))).

(** [FinnieWorkflow.process_query] *)
Definition process_query (user_id query : string) (context : option dict)
  : result dict :=
  try_except
    (result ← (graph_invoke (initial_state user_id query context)).1;
     mret (payload_of result))
    (fun _ => mret error_payload).

(** The execution-count side channel: the responders whose body ran while
    [process_query] handled the query. *)
Definition executed_responders (user_id query : string) (context : option dict)
  : list responder :=
  (graph_invoke (initial_state user_id query context)).2.

End Graph.

End Workflow.

(** * Inputs and reference definitions used by the theorems *)

(** No keyword phrase of any category occurs in [q]. *)
Definition no_keyword (q : string) : bool :=
  forallb (fun '(_, keywords) =>
             forallb (fun keyword => negb (Py.contains keyword q)) keywords)
          Orchestrator.intent_keywords.

(** Every character of [s] is whitespace; the empty string is included. *)
Fixpoint blank (s : string) : bool :=
  match s with
  | EmptyString => true
  | String c s' => Py.isspace c && blank s'
  end.

(** The agent state [OrchestratorAgent.process_query] and the router node
    build for a query. *)
Definition fresh_state (query : string) : Orchestrator.AgentState :=
  {| Orchestrator.user_id := "user-1"; Orchestrator.query := query;
     Orchestrator.context := ∅; Orchestrator.retrieval := ∅;
     Orchestrator.market := ∅; Orchestrator.analysis := ∅;
     Orchestrator.compliance := ∅; Orchestrator.messages := [];
     Orchestrator.current_agent := None; Orchestrator.intent := None;
     Orchestrator.confidence := 0 |}.

Definition hello_state : Orchestrator.AgentState := fresh_state "Hello there".
Definition empty_query_state : Orchestrator.AgentState := fresh_state "".
Definition blank_query_state : Orchestrator.AgentState :=
  fresh_state (String " " (String (ascii_of_N 9) (String (ascii_of_N 10) " "))).

(** The disclaimers that no flag triggers: the general one, then the one of
    the category when the lookup table has it. *)
Definition general_disclaimer : string :=
  "This information is for educational purposes only and should not be considered as investment advice.".

Definition generic_disclaimers (agent_type : string) : list string :=
  general_disclaimer ::
  match Compliance.lookup_str agent_type Compliance.disclaimers with
  | Some d => [d]
  | None => []
  end.

(** A response in which the advice rewriting completes a prohibited phrase,
    and one that is rejected for a prohibited phrase only. *)
Definition restored_phrase_response : string :=
  "This fund is risk-free. You shouldisk-free your savings.".
Definition risk_free_response : string := "This fund is risk-free.".

(** [_run_compliance_checks] followed by [_sanitize_response], as
    [validate_agent_response] and [process] chain them. *)
Definition sanitized (response agent_type : string) : string :=
  Compliance._sanitize_response response
    (Compliance._run_compliance_checks response agent_type).

(** The value of one holding and the sum the specification names,
    [sum(quantity * cost_basis)]. *)
Definition holding_value (h : Portfolio.holding) : Q :=
  (Portfolio.quantity h * Portfolio.cost_basis h)%Q.

Definition Qsum (qs : list Q) : Q := fold_left Qplus qs 0%Q.

Definition cost_value_sum (df : Portfolio.DataFrame) : Q :=
  Qsum (map holding_value df).

(** The total value as the specification words it: "sum(quantity x
    cost_basis) when market value is absent, else sum(market_value)".  The
    market value is absent when no holding carries one. *)
Definition spec_total_value (df : Portfolio.DataFrame) : Q :=
  if forallb (fun h => match Portfolio.market_value h with
                       | None => true
                       | Some _ => false
                       end) df
  then cost_value_sum df
  else Qsum (flat_map (fun h => match Portfolio.market_value h with
                                | Some v => [v]
                                | None => []
                                end) df).

(** The portfolio weight of a holding, and the sum of the squared weights. *)
Definition weight_of (df : Portfolio.DataFrame) (h : Portfolio.holding) : Q :=
  (holding_value h / cost_value_sum df)%Q.

Definition sum_squared_weights (df : Portfolio.DataFrame) : Q :=
  Qsum (map (fun h => (weight_of df h * weight_of df h)%Q) df).

(** [h] with its market value replaced. *)
Definition with_market_value (mv : option Q) (h : Portfolio.holding)
  : Portfolio.holding :=
  {| Portfolio.symbol := Portfolio.symbol h;
     Portfolio.quantity := Portfolio.quantity h;
     Portfolio.cost_basis := Portfolio.cost_basis h;
     Portfolio.current_price := Portfolio.current_price h;
     Portfolio.market_value := mv;
     Portfolio.sector := Portfolio.sector h |}.

(** The holding of the specification's scenario, the same with a market
    value, a holding received at no cost, and two more holdings worth as much
    as the first. *)
Definition aapl : Portfolio.holding :=
  {| Portfolio.symbol := "AAPL"; Portfolio.quantity := 100;
     Portfolio.cost_basis := 150; Portfolio.current_price := None;
     Portfolio.market_value := None; Portfolio.sector := None |}.

Definition aapl_marked : Portfolio.holding := with_market_value (Some 17500%Q) aapl.


Definition msft : Portfolio.holding :=
  {| Portfolio.symbol := "MSFT"; Portfolio.quantity := 50;
     Portfolio.cost_basis := 300; Portfolio.current_price := None;
     Portfolio.market_value := None; Portfolio.sector := None |}.

Definition goog : Portfolio.holding :=
  {| Portfolio.symbol := "GOOG"; Portfolio.quantity := 120;
     Portfolio.cost_basis := 125; Portfolio.current_price := None;
     Portfolio.market_value := None; Portfolio.sector := None |}.

(** A stand-in for NumPy's generator, used where a theorem is applied to a
    concrete input: the state is a counter and a draw returns
    [loc + scale * (state mod 3 - 1)]. *)
Definition toy_seed (s : Z) : Z := s.
Definition toy_normal1 (loc scale : Q) (g : Z) : Portfolio.fnum * Z :=
  (Portfolio.Fin (loc + scale * inject_Z (g mod 3 - 1))%Q, (g + 1)%Z).
Definition toy_sqrt (x : Portfolio.fnum) : Portfolio.fnum := x.
Definition toy_percentile (xs : list Portfolio.fnum) (p : Q) : Portfolio.fnum :=
  hd Portfolio.NaN xs.
Definition toy_expanding_max (xs : list Portfolio.fnum) : list Portfolio.fnum := xs.
Definition toy_min (xs : list Portfolio.fnum) : Portfolio.fnum := hd Portfolio.NaN xs.

(** The keys of the payload that [process_query] returns. *)
Definition payload_keys : gset string :=
  list_to_set
    [ "response"; "sources"; "agent"; "intent"; "confidence"; "approved";
      "compliance"; "analysis" ].

Definition apology : string :=
  "I'm sorry, I encountered an error processing your request. Please try again.".

(** Responders used where a theorem is applied to a concrete input: one
    that answers with a fixed text and one that raises. *)
Definition canned_agent (text : string) (_ : Orchestrator.AgentState) : result dict :=
  Ok (<["response" := VStr text]> ∅).
Definition failing_agent (_ : Orchestrator.AgentState) : result dict :=
  Raise (OtherError "boom").
Definition toy_repr (_ : value) : string := "<object>".

(** [q] matches, ignoring case, at some position of [s]. *)
Fixpoint occurs_ci (q s : string) : bool :=
  Py.match_ci q s ||
  match s with
  | EmptyString => false
  | String _ s' => occurs_ci q s'
  end.

(** [q] and [t] differ, ignoring case, at a position that both have. *)
Fixpoint clash (q t : string) : bool :=
  match q, t with
  | String a q', String b t' => negb (Py.eqb_ci a b) || clash q' t'
  | _, _ => false
  end.

(** No character of [q] is, ignoring case, the character [c]. *)
Fixpoint avoids (c : ascii) (q : string) : bool :=
  match q with
  | EmptyString => true
  | String a q' => negb (Py.eqb_ci a c) && avoids c q'
  end.

(** [q] clashes with every non-empty suffix of [r]: no match of [q] can
    start inside [r], whatever follows [r]. *)
Fixpoint clashes_inside (q r : string) : bool :=
  match r with
  | EmptyString => true
  | String _ r' => clash q r && clashes_inside q r'
  end.

(** [q] is not empty, has no character equal to the first one of [r] and
    cannot start inside [r]: an occurrence of [q] in a text into which [r]
    was inserted lies wholly outside [r]. *)
Definition separated (q r : string) : bool :=
  match q, r with
  | String _ _, String c _ => avoids c q && clashes_inside q r
  | _, _ => false
  end.

(** [P] holds of [s] and of every suffix of [s]. *)
Fixpoint all_suffixes (P : string -> Prop) (s : string) : Prop :=
  P s /\
  match s with
  | EmptyString => True
  | String _ s' => all_suffixes P s'
  end.

(** The number of whitespace-delimited words of a query, as the router
    counts them. *)
Definition word_count (query : string) : nat :=
  length (Py.split (Py.lower query)).

Definition risk_query_state : Orchestrator.AgentState :=
  fresh_state "What is the risk of my portfolio".

(** ** agents/orchestrator.py: running the selected agent *)

Module OrchestratorAgent.

Import Orchestrator.

Definition set_messages (ms : list value) (state : AgentState) : AgentState :=
  {| user_id := user_id state; query := query state; context := context state;
     retrieval := retrieval state; market := market state;
     analysis := analysis state; compliance := compliance state;
     messages := ms;
     current_agent := current_agent state; intent := intent state;
     confidence := confidence state |}.

Definition opt_str (o : option string) : value :=
  match o with Some s => VStr s | None => VNone end.

(** The dict returned when the selected agent is not registered. *)
Definition not_available (a : AgentType) : dict :=
  <["error" := VStr ("Agent " ++ agent_value a ++ " not available")%string]>
  (<["response" := VStr "I'm sorry, that functionality is not available right now."]> ∅).

(** The dict returned when the agent raised. *)
Definition agent_failed (message : string) : dict :=
  <["error" := VStr message]>
  (<["response" := VStr "I encountered an error processing your request. Please try again."]> ∅).

(** [result.update({"agent": ..., "confidence": ..., "intent": ...})] *)
Definition add_metadata (state : AgentState) (a : AgentType) (result : dict) : dict :=
  <["intent" := opt_str (intent state)]>
  (<["confidence" := VNum (confidence state)]>
  (<["agent" := VStr (agent_value a)]> result)).

Section Registry.

(** [self.agents]: the [process] method of the agent registered for a type,
    if one is.  [str_of_exn] is [str(e)]. *)
Variable agents : AgentType -> option (AgentState -> result dict).
Variable str_of_exn : exn -> string.

(** [OrchestratorAgent.execute_agent].  With no current agent the test
    [None not in self.agents] holds and the message reads
    [state.current_agent.value], which [None] does not have. *)
Definition execute_agent (state : AgentState) : result dict :=
  match current_agent state with
  | None => Raise (AttributeError "NoneType" "value")
  | Some a =>
      match agents a with
      | None => Ok (not_available a)
      | Some process =>
          try_except
            (result ← process state;
             mret (add_metadata state a result))
            (fun e => Ok (agent_failed (str_of_exn e)))
      end
  end.

(** One entry of the message history. *)
Definition user_message (query : string) (state : AgentState) : value :=
  VDict (<["role" := VStr "user"]>
        (<["content" := VStr query]>
        (<["timestamp" := default VNone (context state !! "timestamp")]> ∅))).

Definition assistant_message (reply : dict) (a : option AgentType)
    (state : AgentState) : result value :=
  match a with
  | None => Raise (AttributeError "NoneType" "value")
  | Some a =>
      Ok (VDict (<["role" := VStr "assistant"]>
                (<["content" := default (VStr "") (reply !! "response")]>
                (<["agent" := VStr (agent_value a)]>
                (<["timestamp" := default VNone (context state !! "timestamp")]> ∅)))))
  end.

(** [OrchestratorAgent.process_query]: the returned dict, and the state
    object as the call leaves it. *)
Definition process_query (user_id query : string) (context : option dict)
  : result (dict * AgentState) :=
  let state :=
    {| Orchestrator.user_id := user_id; Orchestrator.query := query;
       Orchestrator.context := default ∅ context;
       retrieval := ∅; market := ∅; analysis := ∅; compliance := ∅;
       messages := []; current_agent := None; intent := None; confidence := 0 |} in
  '(_, state1) ← route_query state;
  result ← execute_agent state1;
  let state2 := set_messages (messages state1 ++ [user_message query state1]) state1 in
  reply ← assistant_message result (current_agent state2) state2;
  mret (result, set_messages (messages state2 ++ [reply]) state2).

End Registry.

End OrchestratorAgent.

(** The registry that [FinnieWorkflow.__init__] builds: tutor, portfolio and
    market are registered, the two other types are not. *)
Definition workflow_registry
    (tutor_process portfolio_process market_process
       : Orchestrator.AgentState -> result dict)
    (a : Orchestrator.AgentType)
  : option (Orchestrator.AgentState -> result dict) :=
  match a with
  | Orchestrator.TUTOR => Some tutor_process
  | Orchestrator.PORTFOLIO => Some portfolio_process
  | Orchestrator.MARKET => Some market_process
  | _ => None
  end.

Definition toy_str_of_exn (_ : exn) : string := "error".

(** ** agents/compliance.py: the agent's own entry point *)

Module ComplianceAgent.

Import Orchestrator Compliance.

(** [ComplianceAgent.process]: the review of [state.analysis["response"]]
    for the category of the current agent, "general" when there is none. *)
Definition process (state : AgentState) : result dict :=
  let response_value := default (VStr "") (analysis state !! "response") in
  let agent_type :=
    match current_agent state with
    | Some a => agent_value a
    | None => "general"
    end in
  response ← as_str response_value;
  let compliance_checks := _run_compliance_checks response agent_type in
  let disclaimers := _generate_disclaimers agent_type compliance_checks in
  let sanitized_response := _sanitize_response response compliance_checks in
  let compliance_metadata : dict :=
    <["disclaimers" := VStrs disclaimers]>
    (<["risk_warnings" := VStrs (_get_risk_warnings agent_type)]>
    (<["compliance_flags" := VStrs (flags compliance_checks)]>
    (<["jurisdiction" := VStr "US"]>
    (<["last_updated" := VStr "2024-01-01"]> ∅)))) in
  mret (<["response" := VStr sanitized_response]>
       (<["compliance" := VDict compliance_metadata]>
       (<["approved" := VBool (approved compliance_checks)]>
       (<["flags" := VStrs (flags compliance_checks)]> ∅)))).

End ComplianceAgent.

(** The three disclaimers that a flag triggers. *)
Definition advice_disclaimer : string :=
  "This response is for educational purposes only and should not be considered as personalized investment advice.".
Definition recommendation_disclaimer : string :=
  "Any investment examples are for educational purposes only and should not be considered as recommendations.".
Definition promise_disclaimer : string :=
  "No investment can guarantee returns. All investments carry risk.".

(** Some phrase of [phrases] occurs in the lower-cased [response]; some
    pattern of [patterns] is found in it. *)
Definition any_phrase (phrases : list string) (response : string) : bool :=
  existsb (fun p => Py.contains p (Py.lower response)) phrases.
Definition any_pattern (patterns : list Py.regex) (response : string) : bool :=
  existsb (fun r => Py.search r (Py.lower response)) patterns.

(** The flags that one scan of the review appends: one copy of [flag] for
    every entry of [xs] that passes [test]. *)
Definition flag_block {X : Type} (flag : string) (test : X -> bool) (xs : list X)
  : list string :=
  map (fun _ => flag) (List.filter test xs).

Definition clean_response : string := "Stocks are shares of ownership in a company.".
Definition shouting_response : string := "This fund is RISK-FREE and a Safe Bet.".

(** A state as the compliance agent meets it: the portfolio analyst was
    selected and has left its response in the analysis. *)
Definition review_state : Orchestrator.AgentState :=
  {| Orchestrator.user_id := "user-1"; Orchestrator.query := "Is this fund safe?";
     Orchestrator.context := ∅; Orchestrator.retrieval := ∅;
     Orchestrator.market := ∅;
     Orchestrator.analysis := <["response" := VStr shouting_response]> ∅;
     Orchestrator.compliance := ∅; Orchestrator.messages := [];
     Orchestrator.current_agent := Some Orchestrator.PORTFOLIO;
     Orchestrator.intent := Some "portfolio"; Orchestrator.confidence := 1 # 4 |}.

(** ** The reply a graph run ends with *)

(** [state["current_agent"] or "general"], the agent type that
    [_compliance_node] hands to the review. *)
Definition agent_type_of (state : Workflow.FinnieState) : string :=
  match Workflow.current_agent state with
  | Some a => if String.eqb a "" then "general" else a
  | None => "general"
  end.

(** One bullet line per item. *)
Definition bullets (items : list string) : string :=
  fold_right
    (fun x acc => (Workflow.bullet ++ " " ++ x ++ Workflow.newline ++ acc)%string)
    ""%string items.

Definition disclaimers_heading : string :=
  (Workflow.newline ++ Workflow.newline ++ "---" ++ Workflow.newline
   ++ "**Important Disclaimers:**" ++ Workflow.newline)%string.

Definition warnings_heading : string :=
  (Workflow.newline ++ "**Risk Warnings:**" ++ Workflow.newline)%string.

(** The sanitized text followed by the disclaimers block and the
    risk-warnings block. *)
Definition formatted_reply (text agent_type : string) : string :=
  let checks := Compliance._run_compliance_checks text agent_type in
  ((((Compliance._sanitize_response text checks
      ++ disclaimers_heading)
     ++ bullets (Compliance._generate_disclaimers agent_type checks))
    ++ warnings_heading)
   ++ bullets (Compliance._get_risk_warnings agent_type))%string.

Definition format_apology : string :=
  "I'm sorry, I encountered an error formatting the response. Please try again.".

Definition node_name (n : Workflow.node) : string :=
  match n with
  | Workflow.NTutor => "tutor"
  | Workflow.NPortfolio => "portfolio"
  | Workflow.NMarket => "market"
  end.

Definition node_responder (n : Workflow.node) : Workflow.responder :=
  match n with
  | Workflow.NTutor => Workflow.RTutor
  | Workflow.NPortfolio => Workflow.RPortfolio
  | Workflow.NMarket => Workflow.RMarket
  end.

(** The apology that the [except] branch of each responder node stores. *)
Definition node_apology (n : Workflow.node) : string :=
  match n with
  | Workflow.NTutor =>
      "I'm sorry, I encountered an error processing your educational request. Please try again."
  | Workflow.NPortfolio =>
      "I'm sorry, I encountered an error analyzing your portfolio. Please try again."
  | Workflow.NMarket =>
      "I'm sorry, I encountered an error retrieving market data. Please try again."
  end.

(** The responder that a node calls. *)
Definition node_process
    (tutor_process portfolio_process market_process
       : Orchestrator.AgentState -> result dict)
    (n : Workflow.node) : Orchestrator.AgentState -> result dict :=
  match n with
  | Workflow.NTutor => tutor_process
  | Workflow.NPortfolio => portfolio_process
  | Workflow.NMarket => market_process
  end.

(** A state as a responder node leaves it: the portfolio analyst is
    selected and its reply is stored. *)
Definition answered_state (reply : value) : Workflow.FinnieState :=
  Workflow.set_analysis_item "response" reply
    (Workflow.set_route (Some "portfolio") (Some "portfolio") (1 # 4)
       (Workflow.initial_state "user-1" "Analyse my portfolio risk" None)).

(** ** The portfolio analyst: analysis, recommendations and [process] *)

Module PortfolioAgent.

Import Portfolio.

(** [x < y], [x <= y] and [x > y] on floats: false as soon as one side is
    NaN. *)
Definition fltb (x y : fnum) : bool :=
  match x, y with
  | Fin a, Fin b => negb (Qle_bool b a)
  | Fin _, PInf => true
  | NInf, Fin _ => true
  | NInf, PInf => true
  | _, _ => false
  end.
Definition fleb (x y : fnum) : bool :=
  match x, y with
  | NaN, _ | _, NaN => false
  | _, _ => negb (fltb y x)
  end.
Definition fgtb (x y : fnum) : bool := fltb y x.

(** [abs(x)] *)
Definition fabs (x : fnum) : fnum :=
  match x with
  | Fin a => Fin (if Qle_bool 0 a then a else - a)
  | PInf | NInf => PInf
  | NaN => NaN
  end.

(** [s.max()] and [s.min()] of pandas: NaN is skipped, and nothing is left
    of an empty or all-NaN series but NaN. *)
Definition series_max (s : Series) : fnum :=
  match List.filter (fun x => negb (is_nan x)) s with
  | [] => NaN
  | x :: rest => fold_left (fun m y => if fltb m y then y else m) rest x
  end.
Definition series_min (s : Series) : fnum :=
  match List.filter (fun x => negb (is_nan x)) s with
  | [] => NaN
  | x :: rest => fold_left (fun m y => if fltb y m then y else m) rest x
  end.

(** [s.idxmax()]: the label (here the position) of the first occurrence of
    the maximum, NaN skipped; pandas raises when there is none. *)
Fixpoint idxmax_go (s : Series) (i : nat) (best : option (nat * fnum)) : option nat :=
  match s with
  | [] => option_map fst best
  | y :: rest =>
      let best' :=
        if is_nan y then best
        else match best with
             | None => Some (i, y)
             | Some (_, m) => if fltb m y then Some (i, y) else best
             end in
      idxmax_go rest (S i) best'
  end.
Definition idxmax (s : Series) : result nat :=
  match idxmax_go s 0 None with
  | Some i => Ok i
  | None => Raise (OtherError "attempt to get argmax of an empty sequence")
  end.

(** [df.loc[label, 'symbol']] *)
Definition loc_symbol (df : DataFrame) (label : nat) : result string :=
  match nth_error df label with
  | Some h => Ok (symbol h)
  | None => Raise (KeyError "symbol")
  end.

(** The [analysis] dict.  Its keys "sector_allocation",
    "concentration_risk" and "performance_analysis" are created empty and
    never written; they are left out. *)
Record analysis : Type := mkAnalysis {
  strengths : list string;
  concerns : list string
}.

Definition add_strength (s : string) (a : analysis) : analysis :=
  {| strengths := strengths a ++ [s]; concerns := concerns a |}.
Definition add_concern (s : string) (a : analysis) : analysis :=
  {| strengths := strengths a; concerns := concerns a ++ [s] |}.

Record recommendation : Type := mkRecommendation {
  rec_type : string;
  rec_priority : string;
  rec_title : string;
  rec_description : string;
  rec_action : string
}.

(** The float64 numbers that the literals [0.1], [0.2] and [0.3] denote;
    [0.5] and [1.0] are what they say. *)
Definition double_0_1 : Q := 3602879701896397 # 36028797018963968.
Definition double_0_2 : Q := 3602879701896397 # 18014398509481984.
Definition double_0_3 : Q := 5404319552844595 # 18014398509481984.

(** [metrics.get(key, 0)]; [None] is the empty dict. *)
Definition metric (field : metrics -> fnum) (m : option metrics) : fnum :=
  match m with Some x => field x | None => Fin 0 end.
Definition metric_num_holdings (m : option metrics) : nat :=
  match m with Some x => m_num_holdings x | None => 0%nat end.

Section Analysis.

(** [f"{x:.1%}"] *)
Variable format_percent : fnum -> string.

(** [PortfolioAnalystAgent._analyze_portfolio] *)
Definition _analyze_portfolio (df_holdings : DataFrame) (metrics : option metrics)
  : result analysis :=
  let analysis := {| strengths := []; concerns := [] |} in
  let total_value := metric m_total_value metrics in
  a1 ← (if fgt0 total_value then
          let weights :=
            series_div (series_mul (col_quantity df_holdings) (col_cost_basis df_holdings))
                       total_value in
          let max_weight := series_max weights in
          if fgtb max_weight (Fin double_0_3) then
            label ← idxmax weights;
            sym ← loc_symbol df_holdings label;
            mret (add_concern
                    ("High concentration in " ++ sym ++ " ("
                       ++ format_percent max_weight ++ ")")%string
                    analysis)
          else mret (add_strength "Good diversification across holdings" analysis)
        else mret analysis);
  let num_holdings := metric_num_holdings metrics in
  let a2 :=
    if (num_holdings <? 5)%nat
    then add_concern "Portfolio has fewer than 5 holdings - consider diversification" a1
    else if (20 <? num_holdings)%nat
    then add_concern "Portfolio may be over-diversified - consider consolidation" a1
    else add_strength "Appropriate number of holdings for diversification" a1 in
  let sharpe_ratio := metric m_sharpe_ratio metrics in
  let a3 :=
    if fgtb sharpe_ratio (Fin 1)
    then add_strength "Strong risk-adjusted returns (Sharpe ratio > 1.0)" a2
    else if fltb sharpe_ratio (Fin (1 # 2))
    then add_concern "Low risk-adjusted returns - consider rebalancing" a2
    else a2 in
  let volatility := metric m_volatility metrics in
  let a4 :=
    if fgtb volatility (Fin double_0_3)
    then add_concern "High volatility - consider adding defensive positions" a3
    else if fltb volatility (Fin double_0_1)
    then add_concern "Very low volatility - may be missing growth opportunities" a3
    else a3 in
  mret a4.

End Analysis.

Definition diversification_advice : recommendation :=
  {| rec_type := "diversification"; rec_priority := "high";
     rec_title := "Improve Diversification";
     rec_description := "Consider adding more holdings to improve diversification";
     rec_action := "Add 3-5 additional holdings across different sectors" |}.
Definition drawdown_advice : recommendation :=
  {| rec_type := "risk_management"; rec_priority := "high";
     rec_title := "Reduce Drawdown Risk";
     rec_description := "Portfolio has experienced significant drawdowns";
     rec_action := "Consider adding defensive assets or reducing position sizes" |}.
Definition performance_advice : recommendation :=
  {| rec_type := "performance"; rec_priority := "medium";
     rec_title := "Improve Risk-Adjusted Returns";
     rec_description := "Portfolio's risk-adjusted returns could be improved";
     rec_action := "Review asset allocation and consider rebalancing" |}.
Definition rebalancing_advice : recommendation :=
  {| rec_type := "rebalancing"; rec_priority := "medium";
     rec_title := "Regular Rebalancing";
     rec_description := "Consider rebalancing quarterly to maintain target allocation";
     rec_action := "Set up quarterly rebalancing schedule" |}.

(** [PortfolioAnalystAgent._generate_recommendations]; the local that the
    code names [hhi] holds the diversification ratio.  [analysis] is not
    read. *)
Definition _generate_recommendations (df_holdings : DataFrame)
    (metrics : option metrics) (analysis : analysis) : list recommendation :=
  let hhi := metric m_diversification_ratio metrics in
  let r1 := if fltb hhi (Fin (1 # 2)) then [diversification_advice] else [] in
  let max_drawdown := metric m_max_drawdown metrics in
  let r2 :=
    if fgtb (fabs max_drawdown) (Fin double_0_2) then r1 ++ [drawdown_advice] else r1 in
  let sharpe_ratio := metric m_sharpe_ratio metrics in
  let r3 := if fltb sharpe_ratio (Fin (1 # 2)) then r2 ++ [performance_advice] else r2 in
  if (1 <? length df_holdings)%nat then r3 ++ [rebalancing_advice] else r3.

(** The dict that [process] returns without holdings. *)
Definition no_holdings_text : string :=
  "I'd be happy to analyze your portfolio! However, I don't see any holdings data. Please upload your portfolio data in the Portfolio tab or add holdings manually.".
Definition no_holdings_reply : dict :=
  <["response" := VStr no_holdings_text]>
  (<["sources" := VList []]>
  (<["recommendations" := VList []]>
  (<["metrics" := VDict ∅]> ∅))).

(** One row of [pd.DataFrame(holdings)] for a holding given as a dict with
    a string under "symbol" and numbers under "quantity" and "cost_basis",
    the three columns that the agent reads. *)
Definition row_of (v : value) : option holding :=
  match v with
  | VDict d =>
      match d !! "symbol", d !! "quantity", d !! "cost_basis" with
      | Some (VStr s), Some (VNum q), Some (VNum c) =>
          Some {| symbol := s; quantity := q; cost_basis := c;
                  current_price := None; market_value := None; sector := None |}
      | _, _, _ => None
      end
  | _ => None
  end.
Fixpoint frame_of (rows : list value) : option DataFrame :=
  match rows with
  | [] => Some []
  | v :: rest =>
      match row_of v, frame_of rest with
      | Some h, Some df => Some (h :: df)
      | _, _ => None
      end
  end.

Section Process.

Variable rng : Type.
Variable np_random_seed : Z -> rng.
Variable np_random_normal1 : Q -> Q -> rng -> fnum * rng.
Variable np_sqrt : fnum -> fnum.
Variable np_percentile : list fnum -> Q -> fnum.
Variable expanding_max : list fnum -> list fnum.
Variable drawdown_min : list fnum -> fnum.
Variable format_percent : fnum -> string.
(** [_generate_response], and the dict literal that [process] returns, with
    the sources of [_get_analysis_sources]. *)
Variable _generate_response :
  string -> option metrics -> analysis -> list recommendation -> string.
Variable reply_dict :
  string -> list recommendation -> option metrics -> analysis -> dict.
(** What [process] does with holdings that are no list of such rows. *)
Variable other_holdings : value -> rng -> result dict * rng.

(** [PortfolioAnalystAgent.process] *)
Definition process (state : Orchestrator.AgentState) (g : rng) : result dict * rng :=
  let query := Orchestrator.query state in
  match Workflow.get (Orchestrator.context state) "portfolio_data" (VDict ∅) with
  | VDict portfolio_data =>
      let holdings := Workflow.get portfolio_data "holdings" (VList []) in
      if negb (Workflow.truthy holdings) then (Ok no_holdings_reply, g)
      else
        match holdings with
        | VList rows =>
            match frame_of rows with
            | Some df_holdings =>
                let '(metrics, g1) :=
                  _calculate_portfolio_metrics rng np_random_seed np_random_normal1
                    np_sqrt np_percentile expanding_max drawdown_min df_holdings g in
                (metrics ← metrics;
                 analysis ← _analyze_portfolio format_percent df_holdings metrics;
                 let recommendations :=
                   _generate_recommendations df_holdings metrics analysis in
                 let response :=
                   _generate_response query metrics analysis recommendations in
                 mret (reply_dict response recommendations metrics analysis),
                 g1)
            | None => other_holdings holdings g
            end
        | _ => other_holdings holdings g
        end
  | _ => (Raise (AttributeError "object" "get"), g)
  end.

End Process.

End PortfolioAgent.

(** ** The metrics calculator of the tools *)

Module MetricsCalculator.

Import Portfolio.

Record basic_info : Type := mkBasicInfo {
  bi_total_value : fnum;
  bi_num_holdings : nat;
  bi_avg_position_size : fnum;
  bi_largest_position : fnum;
  bi_smallest_position : fnum;
  bi_total_quantity : fnum
}.

Record risk_metrics : Type := mkRiskMetrics {
  rm_volatility : fnum;
  rm_var_95 : fnum;
  rm_var_99 : fnum;
  rm_expected_shortfall_95 : fnum;
  rm_expected_shortfall_99 : fnum;
  rm_max_drawdown : fnum;
  rm_downside_deviation : fnum
}.

(** [_calculate_basic_info] *)
Definition _calculate_basic_info (df_holdings : DataFrame) (total_value : fnum)
    (num_holdings : nat) : basic_info :=
  {| bi_total_value := total_value;
     bi_num_holdings := num_holdings;
     bi_avg_position_size :=
       if (0 <? num_holdings)%nat
       then fdiv total_value (Fin (inject_Z (Z.of_nat num_holdings)))
       else Fin 0;
     bi_largest_position :=
       if empty df_holdings then Fin 0
       else PortfolioAgent.series_max (col_quantity df_holdings);
     bi_smallest_position :=
       if empty df_holdings then Fin 0
       else PortfolioAgent.series_min (col_quantity df_holdings);
     bi_total_quantity :=
       if empty df_holdings then Fin 0 else series_sum (col_quantity df_holdings) |}.

Section Calculator.

Variable rng : Type.
Variable np_random_seed : Z -> rng.
Variable np_random_normal1 : Q -> Q -> rng -> fnum * rng.
Variable np_sqrt : fnum -> fnum.
Variable np_percentile : list fnum -> Q -> fnum.
Variable expanding_max : list fnum -> list fnum.
Variable drawdown_min : list fnum -> fnum.
(** The dicts of [_calculate_performance_metrics] and
    [_calculate_allocation_metrics], and these two functions; both draw
    from the generator. *)
Variable performance_metrics allocation_metrics : Type.
Variable _calculate_performance_metrics :
  list fnum -> rng -> result (option performance_metrics) * rng.
Variable _calculate_allocation_metrics :
  DataFrame -> Series -> rng -> result (option allocation_metrics) * rng.

(** The dict of [calculate_metrics]; [None] is an empty dict. *)
Record tool_metrics : Type := mkToolMetrics {
  tm_basic_info : option basic_info;
  tm_risk_metrics : option risk_metrics;
  tm_performance_metrics : option performance_metrics;
  tm_diversification_metrics : option diversification_metrics;
  tm_allocation_metrics : option allocation_metrics
}.

(** [_empty_metrics] *)
Definition _empty_metrics : tool_metrics :=
  {| tm_basic_info := None; tm_risk_metrics := None;
     tm_performance_metrics := None; tm_diversification_metrics := None;
     tm_allocation_metrics := None |}.

(** [_calculate_risk_metrics]; [returns] and [cumulative_returns] are NumPy
    arrays. *)
Definition _calculate_risk_metrics (returns : list fnum) : result (option risk_metrics) :=
  match returns with
  | [] => Ok None
  | _ =>
      let std := np_std np_sqrt in
      let volatility := fmul (std returns) (np_sqrt (Fin 252)) in
      let var_95 := np_percentile returns 5 in
      let var_99 := np_percentile returns 1 in
      let es_95 := np_mean (List.filter (fun r => PortfolioAgent.fleb r var_95) returns) in
      let es_99 := np_mean (List.filter (fun r => PortfolioAgent.fleb r var_99) returns) in
      let cumulative_returns := cumprod (map (fadd (Fin 1)) returns) in
      _ ← ndarray_getattr "expanding";
      let peak := expanding_max cumulative_returns in
      let drawdown := drawdown_of cumulative_returns peak in
      let max_drawdown := drawdown_min drawdown in
      let downside_returns :=
        List.filter (fun r => PortfolioAgent.fltb r (Fin 0)) returns in
      let downside_deviation :=
        match downside_returns with
        | [] => Fin 0
        | _ => fmul (std downside_returns) (np_sqrt (Fin 252))
        end in
      mret (Some {| rm_volatility := volatility;
                    rm_var_95 := var_95;
                    rm_var_99 := var_99;
                    rm_expected_shortfall_95 := es_95;
                    rm_expected_shortfall_99 := es_99;
                    rm_max_drawdown := max_drawdown;
                    rm_downside_deviation := downside_deviation |})
  end.

(** [PortfolioMetricsCalculator.calculate_metrics]: the entries of the dict
    are computed in the order in which the literal lists them, and whatever
    is raised on the way ends in [_empty_metrics].  The generator is left
    in the state in which the run stopped. *)
Definition calculate_metrics (holdings : list holding) (g : rng) : tool_metrics * rng :=
  match holdings with
  | [] => (_empty_metrics, g)
  | _ =>
      let df_holdings := holdings in
      let total := total_value df_holdings in
      let num_holdings := length df_holdings in
      let w := weights df_holdings in
      let '(returns, g1) :=
        _generate_mock_returns rng np_random_seed np_random_normal1 num_holdings 252 g in
      let basic := _calculate_basic_info df_holdings total num_holdings in
      match _calculate_risk_metrics returns with
      | Raise _ => (_empty_metrics, g1)
      | Ok risk =>
          match _calculate_performance_metrics returns g1 with
          | (Raise _, g2) => (_empty_metrics, g2)
          | (Ok performance, g2) =>
              let diversification := _calculate_diversification_metrics w df_holdings in
              match _calculate_allocation_metrics df_holdings w g2 with
              | (Raise _, g3) => (_empty_metrics, g3)
              | (Ok allocation, g3) =>
                  ({| tm_basic_info := Some basic;
                      tm_risk_metrics := risk;
                      tm_performance_metrics := performance;
                      tm_diversification_metrics := diversification;
                      tm_allocation_metrics := allocation |}, g3)
              end
          end
      end
  end.

End Calculator.

End MetricsCalculator.

(** ** Inputs for the portfolio analyst *)

(** [process] of the portfolio analyst as the responder that the graph
    calls, started with the generator in state [g]. *)
Definition portfolio_responder
    (rng : Type) (np_random_seed : Z -> rng)
    (np_random_normal1 : Q -> Q -> rng -> Portfolio.fnum * rng)
    (np_sqrt : Portfolio.fnum -> Portfolio.fnum)
    (np_percentile : list Portfolio.fnum -> Q -> Portfolio.fnum)
    (expanding_max : list Portfolio.fnum -> list Portfolio.fnum)
    (drawdown_min : list Portfolio.fnum -> Portfolio.fnum)
    (format_percent : Portfolio.fnum -> string)
    (_generate_response :
       string -> option Portfolio.metrics -> PortfolioAgent.analysis ->
       list PortfolioAgent.recommendation -> string)
    (reply_dict :
       string -> list PortfolioAgent.recommendation -> option Portfolio.metrics ->
       PortfolioAgent.analysis -> dict)
    (other_holdings : value -> rng -> result dict * rng)
    (g : rng) (state : Orchestrator.AgentState) : result dict :=
  (PortfolioAgent.process rng np_random_seed np_random_normal1 np_sqrt np_percentile
     expanding_max drawdown_min format_percent _generate_response reply_dict
     other_holdings state g).1.

(** A holding as the application stores it. *)
Definition holding_row (symbol : string) (quantity cost_basis : Q) : value :=
  VDict (<["symbol" := VStr symbol]>
         (<["quantity" := VNum quantity]>
         (<["cost_basis" := VNum cost_basis]> ∅))).

Definition aapl_holdings : dict := <["holdings" := VList [holding_row "AAPL" 100 150]]> ∅.
Definition aapl_context : dict := <["portfolio_data" := VDict aapl_holdings]> ∅.

Definition toy_format (_ : Portfolio.fnum) : string := "<number>".
Definition toy_response (_ : string) (_ : option Portfolio.metrics)
    (_ : PortfolioAgent.analysis) (_ : list PortfolioAgent.recommendation) : string :=
  "<analysis>".
Definition toy_reply (response : string) (_ : list PortfolioAgent.recommendation)
    (_ : option Portfolio.metrics) (_ : PortfolioAgent.analysis) : dict :=
  <["response" := VStr response]> ∅.
Definition toy_other (_ : value) (g : Z) : result dict * Z :=
  (Raise (TypeError "holdings"), g).

(** The toy instance of the portfolio analyst. *)
Definition toy_portfolio_responder : Orchestrator.AgentState -> result dict :=
  portfolio_responder Z toy_seed toy_normal1 toy_sqrt toy_percentile
    toy_expanding_max toy_min toy_format toy_response toy_reply toy_other 0%Z.

(** The metrics that [_calculate_portfolio_metrics] would hand on for a
    frame, with the risk figures given. *)
Definition metrics_for (df : Portfolio.DataFrame)
    (volatility sharpe_ratio max_drawdown : Portfolio.fnum) : Portfolio.metrics :=
  {| Portfolio.m_total_value := Portfolio.total_value df;
     Portfolio.m_num_holdings := length df;
     Portfolio.m_volatility := volatility;
     Portfolio.m_sharpe_ratio := sharpe_ratio;
     Portfolio.m_max_drawdown := max_drawdown;
     Portfolio.m_var_95 := Portfolio.NaN;
     Portfolio.m_diversification_ratio :=
       Portfolio.diversification_ratio_of (Portfolio._calculate_hhi df);
     Portfolio.m_returns := [];
     Portfolio.m_cumulative_returns := [] |}.

(** ** The tutor *)

Module Tutor.

(** An entry of the educational content. *)
Record item : Type := mkItem {
  title : string;
  content : string;
  url : string;
  level : string;
  score : Q
}.

Fixpoint lookup {A : Type} (key : string) (table : list (string * A)) : option A :=
  match table with
  | [] => None
  | (k, v) :: rest => if String.eqb k key then Some v else lookup key rest
  end.

(** [level_mapping] *)
Definition level_mapping : list (string * string) :=
  [ ("beginner", "beginner"); ("intermediate", "intermediate");
    ("advanced", "advanced"); ("expert", "advanced") ].

(** [TutorAgent._assess_knowledge_level].  A list or a dict cannot be
    looked up in [level_mapping]: it is not hashable. *)
Definition _assess_knowledge_level (context : dict) : result string :=
  match Workflow.get context "user_profile" (VDict ∅) with
  | VDict user_profile =>
      match Workflow.get user_profile "experience_level" (VStr "beginner") with
      | VStr experience_level =>
          Ok (default "beginner" (lookup experience_level level_mapping))
      | VList _ | VDict _ => Raise (TypeError "unhashable type")
      | _ => Ok "beginner"
      end
  | _ => Raise (AttributeError "object" "get")
  end.

(** [mock_content] *)
Definition mock_content : list (string * list item) :=
  [ ("beginner",
     [ {| title := "Introduction to Investing";
          content := "Investing is the act of allocating resources, usually money, with the expectation of generating an income or profit...";
          url := "https://finnie.learn/investing-basics";
          level := "beginner";
          score := 95 # 100 |} ]);
    ("intermediate",
     [ {| title := "Portfolio Theory and Risk Management";
          content := "Modern Portfolio Theory (MPT) is a framework for constructing investment portfolios...";
          url := "https://finnie.learn/portfolio-theory";
          level := "intermediate";
          score := 92 # 100 |} ]);
    ("advanced",
     [ {| title := "Quantitative Analysis and Derivatives";
          content := "Quantitative analysis involves the use of mathematical and statistical methods...";
          url := "https://finnie.learn/quantitative-analysis";
          level := "advanced";
          score := 88 # 100 |} ]) ].

(** [table.get(key, table["beginner"])] *)
Definition get_or_beginner {A : Type} (table : list (string * list A)) (key : string)
  : list A :=
  default (default [] (lookup "beginner" table)) (lookup key table).

(** [TutorAgent._get_mock_educational_content] *)
Definition _get_mock_educational_content (query knowledge_level : string) : list item :=
  get_or_beginner mock_content knowledge_level.

(** The table of [_generate_engagement_question] *)
Definition questions : list (string * list string) :=
  [ ("beginner",
     [ "Great question! Let me help you understand this step by step.";
       "That's an excellent starting point for learning about finance!";
       "I'm excited to help you learn about this important concept!" ]);
    ("intermediate",
     [ "Interesting question! Let's dive deeper into this concept.";
       "That shows good understanding! Let me build on what you know.";
       "Great question! This is a key concept in financial analysis." ]);
    ("advanced",
     [ "Excellent question! This is a sophisticated concept that requires careful analysis.";
       "That's a nuanced question that touches on advanced financial theory.";
       "Great question! Let's explore the complexities of this topic." ]) ].

(** The table of [_generate_follow_up_questions] *)
Definition follow_ups : list (string * list string) :=
  [ ("beginner",
     [ "What do you think are the main benefits of this approach?";
       "How might this concept apply to your personal finances?";
       "What questions do you have about this topic?";
       "Would you like to see a practical example?" ]);
    ("intermediate",
     [ "How does this relate to other financial concepts you know?";
       "What are the potential risks and limitations?";
       "How would you apply this in a real-world scenario?";
       "What factors would you consider when implementing this?" ]);
    ("advanced",
     [ "What are the mathematical foundations of this concept?";
       "How does this relate to modern portfolio theory?";
       "What are the empirical studies that support this?";
       "How would you model this quantitatively?" ]) ].

(** [financial_terms] *)
Definition financial_terms : list string :=
  [ "portfolio"; "risk"; "return"; "diversification"; "volatility";
    "sharpe ratio"; "beta"; "alpha"; "correlation"; "covariance";
    "efficient frontier"; "capital asset pricing model"; "arbitrage" ].

(** [s.title()] on ASCII text, which is what the terms above are: a letter
    that follows a letter is lower-cased, any other letter is
    upper-cased. *)
Definition is_ascii_letter (c : ascii) : bool :=
  Py.in_range 65 90 c || Py.in_range 97 122 c.
Definition upper_ascii (c : ascii) : ascii :=
  if Py.in_range 97 122 c then ascii_of_N (Py.code c - 32) else c.
Definition lower_ascii (c : ascii) : ascii :=
  if Py.in_range 65 90 c then ascii_of_N (Py.code c + 32) else c.
Fixpoint title_go (after_letter : bool) (s : string) : string :=
  match s with
  | EmptyString => EmptyString
  | String c s' =>
      String (if after_letter then lower_ascii c else upper_ascii c)
             (title_go (is_ascii_letter c) s')
  end.
Definition str_title (s : string) : string := title_go false s.

(** [TutorAgent._extract_concepts] *)
Definition _extract_concepts (content : string) : list string :=
  let content_lower := Py.lower content in
  firstn 5
    (map str_title
       (List.filter (fun term => Py.contains term content_lower) financial_terms)).

(** [TutorAgent._generate_learning_objectives] *)
Definition _generate_learning_objectives (query : string) (concepts : list string)
  : list string :=
  let objectives :=
    [ ("Understand the concept of "
         ++ match concepts with c :: _ => c | [] => "the topic" end)%string;
      "Apply the knowledge to real-world scenarios";
      "Identify key factors and considerations" ] in
  match concepts with
  | c0 :: c1 :: _ =>
      objectives
      ++ [("Recognize the relationship between " ++ c0 ++ " and " ++ c1)%string]
  | _ => objectives
  end.

(** The dict returned by [_generate_educational_response]; the keys that
    the branch without content leaves out are read with [.get(key, [])]
    by [process], which is what the empty lists stand for. *)
Record response : Type := mkResponse {
  r_content : string;
  r_sources : list item;
  r_follow_up_questions : list string;
  r_concepts_covered : list string;
  r_learning_objectives : list string
}.

Definition no_content_text : string :=
  "I'd be happy to help you learn about that topic! However, I don't have specific content about it in my knowledge base. Could you rephrase your question or ask about a related concept?".

Section Random.

(** Python's [random] generator: [randbelow n] is [random._randbelow(n)],
    the index that [random.choice] draws; [random_sample] is
    [random.sample]. *)
Variable rnd : Type.
Variable randbelow : nat -> rnd -> nat * rnd.
Variable random_sample : list string -> nat -> rnd -> list string * rnd.
(** [self.rag_system], and its [search] for a query and a level. *)
Variable rag_system : option (string -> string -> result (list item)).

(** [random.choice(seq)] *)
Definition random_choice (seq : list string) (g : rnd) : result string * rnd :=
  match seq with
  | [] => (Raise (OtherError "Cannot choose from an empty sequence"), g)
  | _ =>
      let '(k, g1) := randbelow (length seq) g in
      (match nth_error seq k with
       | Some x => Ok x
       | None => Raise (OtherError "list index out of range")
       end, g1)
  end.

(** [TutorAgent._generate_engagement_question] *)
Definition _generate_engagement_question (query knowledge_level : string) (g : rnd)
  : result string * rnd :=
  random_choice (get_or_beginner questions knowledge_level) g.

(** [TutorAgent._generate_follow_up_questions] *)
Definition _generate_follow_up_questions (query knowledge_level : string) (g : rnd)
  : list string * rnd :=
  random_sample (get_or_beginner follow_ups knowledge_level) 2 g.

(** [TutorAgent._search_educational_content] *)
Definition _search_educational_content (query knowledge_level : string)
  : result (list item) :=
  match rag_system with
  | Some search => search query knowledge_level
  | None => Ok (_get_mock_educational_content query knowledge_level)
  end.

(** [TutorAgent._generate_educational_response] *)
Definition _generate_educational_response (query : string) (contents : list item)
    (knowledge_level : string) (g : rnd) : result response * rnd :=
  match contents with
  | [] =>
      (Ok {| r_content := no_content_text;
             r_sources := [];
             r_follow_up_questions :=
               [ "What specific aspect of finance would you like to learn about?";
                 "Are you looking for beginner, intermediate, or advanced content?";
                 "What's your current experience level with investing?" ];
             r_concepts_covered := [];
             r_learning_objectives := [] |}, g)
  | best_content :: _ =>
      let '(engagement_question, g1) :=
        _generate_engagement_question query knowledge_level g in
      match engagement_question with
      | Raise e => (Raise e, g1)
      | Ok engagement_question =>
          let '(follow_up_questions, g2) :=
            _generate_follow_up_questions query knowledge_level g1 in
          let concepts_covered := _extract_concepts (content best_content) in
          let learning_objectives :=
            _generate_learning_objectives query concepts_covered in
          (Ok {| r_content :=
                   (engagement_question ++ Workflow.newline ++ Workflow.newline
                      ++ Workflow.newline ++ content best_content)%string;
                 r_sources := [best_content];
                 r_follow_up_questions := follow_up_questions;
                 r_concepts_covered := concepts_covered;
                 r_learning_objectives := learning_objectives |}, g2)
      end
  end.

(** A source as [_generate_educational_response] lists it. *)
Definition source_dict (it : item) : value :=
  VDict (<["title" := VStr (title it)]>
         (<["url" := VStr (url it)]>
         (<["score" := VNum (score it)]> ∅))).

(** [TutorAgent.process] *)
Definition process (state : Orchestrator.AgentState) (g : rnd) : result dict * rnd :=
  let query := Orchestrator.query state in
  let user_context := Orchestrator.context state in
  match _assess_knowledge_level user_context with
  | Raise e => (Raise e, g)
  | Ok knowledge_level =>
      match _search_educational_content query knowledge_level with
      | Raise e => (Raise e, g)
      | Ok educational_content =>
          let '(response, g1) :=
            _generate_educational_response query educational_content knowledge_level g in
          (response ← response;
           mret (<["response" := VStr (r_content response)]>
                (<["sources" := VList (map source_dict (r_sources response))]>
                (<["follow_up_questions" :=
                     Compliance.VStrs (r_follow_up_questions response)]>
                (<["difficulty_level" := VStr knowledge_level]>
                (<["concepts_covered" := Compliance.VStrs (r_concepts_covered response)]>
                (<["learning_objectives" :=
                     Compliance.VStrs (r_learning_objectives response)]> ∅)))))),
           g1)
      end
  end.

End Random.

End Tutor.

(** ** Inputs for the tutor *)

(** The texts that the tutor can answer with from its own content: an
    engagement question of a level, three line breaks (the separator of
    the join and the one in front of the content), and the content of that
    level. *)
Definition tutor_text (question : string) (it : Tutor.item) : string :=
  (question ++ Workflow.newline ++ Workflow.newline ++ Workflow.newline
     ++ Tutor.content it)%string.

Definition tutor_levels : list string := ["beginner"; "intermediate"; "advanced"].

Definition tutor_texts : list string :=
  flat_map
    (fun level =>
       flat_map
         (fun it => map (fun q => tutor_text q it)
                        (Tutor.get_or_beginner Tutor.questions level))
         (Tutor.get_or_beginner Tutor.mock_content level))
    tutor_levels.

(** [tutor.process] as the responder that the graph calls, without a
    retrieval system, started with the generator in state [g]. *)
Definition tutor_responder (rnd : Type) (randbelow : nat -> rnd -> nat * rnd)
    (random_sample : list string -> nat -> rnd -> list string * rnd)
    (g : rnd) (state : Orchestrator.AgentState) : result dict :=
  (Tutor.process rnd randbelow random_sample None state g).1.

(** A stand-in for Python's generator: the state is a counter. *)
Definition toy_randbelow (n : nat) (g : nat) : nat * nat := (g mod n, S g)%nat.
Definition toy_sample (population : list string) (k : nat) (g : nat)
  : list string * nat :=
  (firstn k population, S g).

(** The review finds nothing in [text] and the sanitizer leaves it as it
    is. *)
Definition passes_untouched (text : string) : bool :=
  let checks := Compliance._run_compliance_checks text "tutor" in
  String.eqb (Compliance._sanitize_response text checks) text
  && Compliance.approved checks
  && match Compliance.flags checks with [] => true | _ => false end.

(** A context that names the experience level of the user. *)
Definition profile_context (experience_level : value) : dict :=
  <["user_profile" := VDict (<["experience_level" := experience_level]> ∅)]> ∅.

(** ** The range in which the arithmetic of pandas is exact

    pandas keeps a column of whole numbers as int64 or as float64.  An
    int64 product or sum wraps around at 2^63, and a float64 result is
    rounded to 53 bits: the exact rationals of [Portfolio.fnum] do neither.
    As long as every quantity and cost basis is a whole number below 2^53
    in magnitude, and the absolute values |quantity x cost_basis| add up to
    less than 2^53, no product and no sum of the code wraps or is rounded,
    in whatever order the sum is taken; a quotient is exact when it is 1
    or a power of 1/2.  [exact_frame] is this range; the theorems about
    computed values carry it as a hypothesis. *)
Definition whole_below_2_53 (q : Q) : bool :=
  Pos.eqb (Qden q) 1 && (Z.abs (Qnum q) <? 2 ^ 53)%Z.

Definition abs_value (h : Portfolio.holding) : Z :=
  Z.abs (Qnum (Portfolio.quantity h) * Qnum (Portfolio.cost_basis h)).

Definition exact_frame (df : Portfolio.DataFrame) : bool :=
  forallb (fun h => whole_below_2_53 (Portfolio.quantity h)
                    && whole_below_2_53 (Portfolio.cost_basis h)) df
  && (fold_left Z.add (map abs_value df) 0 <? 2 ^ 53)%Z.

(** [s.isascii()] *)
Fixpoint isascii (s : string) : bool :=
  match s with
  | EmptyString => true
  | String c s' => (Py.code c <? 128)%N && isascii s'
  end.

(** * Theorems *)

(** ** Routing *)

Section Routing.

Import Orchestrator.

Lemma keyword_score_zero (keywords : list string) (q : string) :
  (forall keyword, In keyword keywords -> Py.contains keyword q = false) ->
  keyword_score keywords q = 0%nat.
Proof.
  unfold keyword_score.
  induction keywords as [|k ks IH]; intros Hno; [reflexivity|].
  cbn [List.filter]. rewrite (Hno k (or_introl eq_refl)).
  apply IH. intros k' Hk'. apply Hno. now right.
Qed.

Lemma no_keyword_spec (q : string) :
  no_keyword q = true ->
  forall agent_type keywords keyword,
    In (agent_type, keywords) intent_keywords -> In keyword keywords ->
    Py.contains keyword q = false.
Proof.
  unfold no_keyword. intros Hall a kws k Hin Hk.
  rewrite forallb_forall in Hall. specialize (Hall _ Hin). cbn in Hall.
  rewrite forallb_forall in Hall. specialize (Hall _ Hk).
  now apply negb_true_iff in Hall.
Qed.

Lemma scores_without_keyword (q : string) :
  (forall agent_type keywords keyword,
     In (agent_type, keywords) intent_keywords -> In keyword keywords ->
     Py.contains keyword q = false) ->
  compute_scores q =
    [(TUTOR, 0%nat); (PORTFOLIO, 0%nat); (MARKET, 0%nat); (ONBOARDING, 0%nat)].
Proof.
  intros Hno. unfold compute_scores.
  transitivity (map (fun '(agent_type, _) => (agent_type, 0%nat)) intent_keywords);
    [|reflexivity].
  apply map_ext_in. intros [agent_type keywords] Hin.
  f_equal. apply keyword_score_zero. intros keyword Hk. now apply (Hno agent_type keywords).
Qed.

End Routing.

(** C2 (code defect).  A query in which no keyword phrase of any category
    occurs is routed to the tutor, but its confidence is the quotient
    0 / word count, that is 0, never the fixed 0.5 of the fallback branch:
    [scores] always holds the four categories, so the test [if scores:]
    never fails and the fallback is unreachable.  When the query has no word
    at all the quotient raises [ZeroDivisionError] instead. *)
Theorem C2_no_keyword_confidence_is_zero (st : Orchestrator.AgentState) :
  (forall agent_type keywords keyword,
     In (agent_type, keywords) Orchestrator.intent_keywords ->
     In keyword keywords ->
     Py.contains keyword (Py.lower (Orchestrator.query st)) = false) ->
  match Orchestrator.route_query st with
  | Ok (agent_type, st') =>
      agent_type = Orchestrator.TUTOR /\
      Orchestrator.current_agent st' = Some Orchestrator.TUTOR /\
      Orchestrator.intent st' = Some "tutor" /\
      Orchestrator.confidence st' == 0 /\
      ~ Orchestrator.confidence st' == 1 # 2
  | Raise e =>
      e = ZeroDivisionError /\ Py.split (Py.lower (Orchestrator.query st)) = []
  end.
Proof.
  intros Hno. unfold Orchestrator.route_query.
  rewrite (scores_without_keyword _ Hno). cbn [Orchestrator.max_go snd Nat.ltb Nat.leb].
  destruct (Py.split (Py.lower (Orchestrator.query st))) as [|w ws] eqn:Hsplit.
  - cbn. split; reflexivity.
  - cbn. repeat split; try reflexivity. intros H. discriminate H.
Qed.

(** The same at the query "Hello there". *)
Lemma C2_witness :
  match Orchestrator.route_query hello_state with
  | Ok (agent_type, st') =>
      agent_type = Orchestrator.TUTOR /\
      Orchestrator.current_agent st' = Some Orchestrator.TUTOR /\
      Orchestrator.intent st' = Some "tutor" /\
      Orchestrator.confidence st' == 0 /\
      ~ Orchestrator.confidence st' == 1 # 2
  | Raise e =>
      e = ZeroDivisionError /\
      Py.split (Py.lower (Orchestrator.query hello_state)) = []
  end.
Proof.
  apply (C2_no_keyword_confidence_is_zero hello_state).
  apply no_keyword_spec. reflexivity.
Defined.

Lemma lower_char_space (c : ascii) :
  Py.isspace c = true -> Py.lower_char c = c.
Proof.
  destruct c as [[] [] [] [] [] [] [] []]; intros H;
    solve [reflexivity | discriminate H].
Qed.

Lemma split_blank (s : string) : blank s = true -> Py.split (Py.lower s) = [].
Proof.
  unfold Py.split. induction s as [|c s IH]; intros Hb; [reflexivity|].
  cbn [blank] in Hb. apply andb_true_iff in Hb as [Hc Hs].
  cbn [Py.lower Py.split_go]. rewrite (lower_char_space c Hc), Hc. now apply IH.
Qed.

(** The quotient that sets the confidence raises when the query has no
    word, whatever the scores are. *)
Lemma route_query_raises_without_words (st : Orchestrator.AgentState) :
  Py.split (Py.lower (Orchestrator.query st)) = [] ->
  Orchestrator.route_query st = Raise ZeroDivisionError.
Proof.
  intros Hblank. unfold Orchestrator.route_query.
  destruct (Orchestrator.compute_scores _) as [|first others] eqn:Hs.
  - discriminate Hs.
  - destruct (Orchestrator.max_go first others) as [best_agent best_score].
    rewrite Hblank. reflexivity.
Qed.

(** C6 (code defect).  [route_query] raises [ZeroDivisionError] on every
    query made of whitespace only, the empty query included: the confidence
    is divided by [len(query_lower.split())], which is 0, and no category is
    returned. *)
Theorem C6_route_query_raises_on_blank_query (st : Orchestrator.AgentState) :
  blank (Orchestrator.query st) = true ->
  Orchestrator.route_query st = Raise ZeroDivisionError.
Proof.
  intros Hblank. apply route_query_raises_without_words. now apply split_blank.
Qed.

(** The same at the empty query and at a query of a space, a tab, a line
    feed and a space. *)
Lemma C6_witness :
  Orchestrator.route_query empty_query_state = Raise ZeroDivisionError /\
  Orchestrator.route_query blank_query_state = Raise ZeroDivisionError.
Proof.
  split.
  - apply (C6_route_query_raises_on_blank_query empty_query_state). reflexivity.
  - apply (C6_route_query_raises_on_blank_query blank_query_state). reflexivity.
Defined.

(** ** Compliance review *)

Section ComplianceFacts.

Import Compliance.

Lemma scan_keeps_approved {X : Type} (test : X -> bool)
    (update : X -> checks -> checks) (xs : list X) :
  (forall x c, approved (update x c) = approved c) ->
  forall c, approved (scan test update xs c) = approved c.
Proof.
  intros Hkeep. unfold scan.
  induction xs as [|x xs IH]; intros c; [reflexivity|].
  cbn [fold_left]. rewrite IH. destruct (test x); [apply Hkeep | reflexivity].
Qed.

Lemma scan_rejects {X : Type} (test : X -> bool)
    (flag issue : X -> string) (xs : list X) :
  forall c,
    approved (scan test (fun x c => add_flag (flag x) (issue x) (reject c)) xs c)
    = approved c && negb (existsb test xs).
Proof.
  unfold scan.
  induction xs as [|x xs IH]; intros c; cbn [fold_left existsb].
  - now rewrite andb_true_r.
  - rewrite IH. destruct (test x); cbn; [now rewrite andb_false_r | reflexivity].
Qed.

(** The verdict is the conjunction of the two blocking scans. *)
Lemma approved_spec (response agent_type : string) :
  approved (_run_compliance_checks response agent_type) =
  negb (existsb (fun p => Py.contains p (Py.lower response)) prohibited_content)
  && negb (existsb (fun r => Py.search r (Py.lower response)) return_promises).
Proof.
  unfold _run_compliance_checks.
  rewrite scan_keeps_approved by reflexivity.
  rewrite (scan_rejects _ (fun _ => "return_promise")
             (fun _ => "Contains promises of specific returns")).
  rewrite scan_keeps_approved by reflexivity.
  rewrite scan_keeps_approved by reflexivity.
  rewrite (scan_rejects _ (fun _ => "prohibited_content")
             (fun p => ("Contains prohibited phrase: '" ++ p ++ "'")%string)).
  reflexivity.
Qed.

(** The part of C3 that holds for every response: a prohibited phrase in the
    lower-cased text makes the review reject it. *)
Lemma prohibited_phrase_is_rejected (response agent_type phrase : string) :
  In phrase prohibited_content ->
  Py.contains phrase (Py.lower response) = true ->
  approved (_run_compliance_checks response agent_type) = false.
Proof.
  intros Hin Hc. rewrite approved_spec.
  assert (H : existsb (fun p => Py.contains p (Py.lower response)) prohibited_content = true).
  { apply existsb_exists. exists phrase. now split. }
  rewrite H. reflexivity.
Qed.

Lemma disclaimers_start_general (agent_type : string) (c : checks) :
  exists rest, _generate_disclaimers agent_type c = general_disclaimer :: rest.
Proof. unfold _generate_disclaimers. cbn. eexists. reflexivity. Qed.

End ComplianceFacts.

(** ** The redaction pass of the sanitizer *)

Section Redaction.

Lemma append_cons (b : ascii) (t u : string) :
  (String b t ++ u)%string = String b (t ++ u)%string.
Proof. reflexivity. Qed.

Lemma append_nil (u : string) : (EmptyString ++ u)%string = u.
Proof. reflexivity. Qed.

Lemma clash_no_match (q t u : string) :
  clash q t = true -> Py.match_ci q (t ++ u)%string = false.
Proof.
  revert t. induction q as [|a q IH]; intros [|b t] Hc; try discriminate Hc.
  cbn [clash] in Hc. rewrite append_cons. cbn [Py.match_ci].
  destruct (Py.eqb_ci a b); cbn [negb orb andb] in *; [now apply IH | reflexivity].
Qed.

Lemma occurs_after_insert (q r x : string) :
  clashes_inside q r = true -> occurs_ci q x = false ->
  occurs_ci q (r ++ x)%string = false.
Proof.
  induction r as [|c r IH]; intros Hc Hx; [exact Hx|].
  cbn [clashes_inside] in Hc. apply andb_true_iff in Hc as [Hc1 Hc2].
  pose proof (clash_no_match q (String c r) x Hc1) as Hm.
  rewrite append_cons in Hm |- *. cbn [occurs_ci]. rewrite Hm. now apply IH.
Qed.

(** A match of [q] at the head of the rewritten text is a match at the head
    of the text it was rewritten from, when [q] has no character of the kind
    that opens the replacement. *)
Lemma match_head_before_sub (p r' q : string) (c : ascii) :
  avoids c q = true ->
  forall s,
    Py.match_ci q (Py.re_sub_go p (String c r') 0 s) = true ->
    Py.match_ci q s = true.
Proof.
  induction q as [|a q IH]; intros Hav s Hm; [reflexivity|].
  cbn [avoids] in Hav. apply andb_true_iff in Hav as [Ha Hav].
  apply negb_true_iff in Ha.
  destruct s as [|b s]; [discriminate Hm|].
  cbn [Py.re_sub_go] in Hm.
  destruct (Py.match_ci p (String b s)).
  - rewrite append_cons in Hm. cbn [Py.match_ci] in Hm.
    rewrite Ha in Hm. discriminate Hm.
  - cbn [Py.match_ci] in Hm |- *.
    apply andb_true_iff in Hm as [Hab Hm]. rewrite Hab. cbn. now apply IH.
Qed.

(** One [re.sub] with the replacement [r] leaves no occurrence of [q], when
    [q] is separated from [r] and matched in the input only where the
    pattern matched too. *)
Lemma sub_leaves_absent (p r q : string) :
  separated q r = true ->
  forall s k,
    all_suffixes (fun t => Py.match_ci p t = false -> Py.match_ci q t = false) s ->
    occurs_ci q (Py.re_sub_go p r k s) = false.
Proof.
  intros Hsep. unfold separated in Hsep.
  destruct q as [|a q]; [discriminate Hsep|].
  destruct r as [|c r]; [discriminate Hsep|].
  apply andb_true_iff in Hsep as [Hav Hin].
  induction s as [|b s IH]; intros k Hs; [reflexivity|].
  cbn [all_suffixes] in Hs. destruct Hs as [Hhead Hs].
  cbn [Py.re_sub_go]. destruct k as [|k]; [|now apply IH].
  destruct (Py.match_ci p (String b s)) eqn:Hp.
  - apply occurs_after_insert; [exact Hin | now apply IH].
  - change (occurs_ci (String a q) (String b (Py.re_sub_go p (String c r) 0 s)))
      with (Py.match_ci (String a q) (String b (Py.re_sub_go p (String c r) 0 s))
            || occurs_ci (String a q) (Py.re_sub_go p (String c r) 0 s)).
    rewrite (IH 0%nat Hs), orb_false_r.
    destruct (Py.match_ci (String a q) (String b (Py.re_sub_go p (String c r) 0 s)))
      eqn:Hm; [|reflexivity].
    assert (Hq : Py.match_ci (String a q) (String b s) = true).
    { apply (match_head_before_sub p r (String a q) c Hav).
      cbn [Py.re_sub_go]. rewrite Hp. exact Hm. }
    rewrite (Hhead eq_refl) in Hq. discriminate Hq.
Qed.

Lemma all_suffixes_intro (P : string -> Prop) (s : string) :
  (forall t, P t) -> all_suffixes P s.
Proof. intros HP. induction s; cbn; auto. Qed.

Lemma all_suffixes_absent (p q s : string) :
  occurs_ci q s = false ->
  all_suffixes (fun t => Py.match_ci p t = false -> Py.match_ci q t = false) s.
Proof.
  induction s as [|b s IH]; cbn [occurs_ci all_suffixes]; intros H;
    apply orb_false_iff in H as [H1 H2]; split; auto.
Qed.

(** The pattern itself is gone after its pass ... *)
Lemma sub_removes_pattern (p r s : string) :
  separated p r = true -> occurs_ci p (Py.re_sub_ignorecase p r s) = false.
Proof.
  intros Hsep. apply sub_leaves_absent; [exact Hsep|].
  apply all_suffixes_intro. auto.
Qed.

(** ... and a phrase that was absent before the pass is absent after it. *)
Lemma sub_keeps_absent (p r q s : string) :
  separated q r = true -> occurs_ci q s = false ->
  occurs_ci q (Py.re_sub_ignorecase p r s) = false.
Proof.
  intros Hsep Habs. apply sub_leaves_absent; [exact Hsep|].
  now apply all_suffixes_absent.
Qed.

Lemma sub_all_leaves_absent (r : string) (ps done : list string) (s : string) :
  (forall q, In q (done ++ ps) -> separated q r = true) ->
  (forall q, In q done -> occurs_ci q s = false) ->
  forall q, In q (done ++ ps) ->
    occurs_ci q (fold_left (fun acc p => Py.re_sub_ignorecase p r acc) ps s) = false.
Proof.
  revert done s. induction ps as [|p ps IH]; intros done s Hsep Hdone q Hq.
  - rewrite app_nil_r in Hq. now apply Hdone.
  - cbn [fold_left].
    replace (done ++ p :: ps) with ((done ++ [p]) ++ ps) in *
      by (now rewrite <- app_assoc).
    apply (IH (done ++ [p])); [exact Hsep | | exact Hq].
    intros q' Hq'. apply in_app_or in Hq' as [Hq'|[<-|[]]].
    + apply sub_keeps_absent; [|now apply Hdone].
      apply Hsep. apply in_or_app. left. apply in_or_app. now left.
    + apply sub_removes_pattern.
      apply Hsep. apply in_or_app. left. apply in_or_app. right. now left.
Qed.

Lemma sub_all_keeps_absent (r : string) (ps : list string) (q s : string) :
  separated q r = true -> occurs_ci q s = false ->
  occurs_ci q (fold_left (fun acc p => Py.re_sub_ignorecase p r acc) ps s) = false.
Proof.
  intros Hsep. revert s. induction ps as [|p ps IH]; intros s Habs; [exact Habs|].
  cbn [fold_left]. apply IH. now apply sub_keeps_absent.
Qed.

(** Matching a lower-case phrase without regard to case is matching it in
    the lower-cased text. *)
Lemma match_ci_lower (q s : string) :
  Py.lower q = q -> Py.match_ci q s = Py.startswith q (Py.lower s).
Proof.
  revert s. induction q as [|a q IH]; intros s Hl; [reflexivity|].
  cbn [Py.lower] in Hl. injection Hl as Ha Hq.
  destruct s as [|b s]; [reflexivity|].
  cbn [Py.lower Py.match_ci Py.startswith]. unfold Py.eqb_ci.
  rewrite Ha, (IH s Hq). reflexivity.
Qed.

Lemma contains_lower (q s : string) :
  Py.lower q = q -> Py.contains q (Py.lower s) = occurs_ci q s.
Proof.
  intros Hl. induction s as [|b s IH].
  - cbn [Py.lower Py.contains occurs_ci]. now rewrite (match_ci_lower q "" Hl).
  - cbn [Py.lower Py.contains occurs_ci].
    rewrite IH, (match_ci_lower q (String b s) Hl). reflexivity.
Qed.

(** A pass whose pattern does not occur changes nothing. *)
Lemma sub_identity (p r s : string) :
  occurs_ci p s = false -> Py.re_sub_ignorecase p r s = s.
Proof.
  unfold Py.re_sub_ignorecase. induction s as [|b s IH]; intros H; [reflexivity|].
  cbn [occurs_ci] in H. apply orb_false_iff in H as [H1 H2].
  cbn [Py.re_sub_go]. rewrite H1, (IH H2). reflexivity.
Qed.

Lemma prohibited_facts (phrase : string) :
  In phrase Compliance.prohibited_content ->
  separated phrase Compliance.redaction_marker = true /\ Py.lower phrase = phrase.
Proof.
  intros Hin.
  assert (H : forallb (fun q => separated q Compliance.redaction_marker
                                && String.eqb (Py.lower q) q)
                      Compliance.prohibited_content = true) by (vm_compute; reflexivity).
  rewrite forallb_forall in H. specialize (H _ Hin).
  apply andb_true_iff in H as [H1 H2]. split; [exact H1|].
  now apply String.eqb_eq.
Qed.

Lemma advice_facts (phrase : string) :
  In phrase Compliance.advice_indicators ->
  separated phrase Compliance.redaction_marker = true /\ Py.lower phrase = phrase.
Proof.
  intros Hin.
  assert (H : forallb (fun q => separated q Compliance.redaction_marker
                                && String.eqb (Py.lower q) q)
                      Compliance.advice_indicators = true) by (vm_compute; reflexivity).
  rewrite forallb_forall in H. specialize (H _ Hin).
  apply andb_true_iff in H as [H1 H2]. split; [exact H1|].
  now apply String.eqb_eq.
Qed.

(** The first loop of the sanitizer does what its comment says: after it no
    prohibited phrase is left, in any case of letters. *)
Theorem redaction_removes_prohibited (response phrase : string) :
  In phrase Compliance.prohibited_content ->
  Py.contains phrase (Py.lower (Compliance.redact_prohibited response)) = false.
Proof.
  intros Hin. destruct (prohibited_facts phrase Hin) as [_ Hl].
  rewrite (contains_lower _ _ Hl). unfold Compliance.redact_prohibited.
  apply (sub_all_leaves_absent Compliance.redaction_marker
           Compliance.prohibited_content [] response); [| |exact Hin].
  - intros q Hq. now apply prohibited_facts.
  - intros q [].
Qed.

Lemma rewrite_advice_identity (text : string) :
  (forall a, In a Compliance.advice_indicators -> occurs_ci a text = false) ->
  Compliance.rewrite_advice text = text.
Proof.
  unfold Compliance.rewrite_advice.
  change Compliance.advice_indicators
    with (map fst Compliance.advice_replacements).
  generalize Compliance.advice_replacements as table.
  induction table as [|[old new] table IH]; intros Habs; [reflexivity|].
  cbn [fold_left]. rewrite sub_identity by (apply Habs; now left).
  apply IH. intros a Ha. apply Habs. now right.
Qed.

(** For a response without any personalized-advice phrase the sanitized
    text holds no prohibited phrase: only the rewriting of such a phrase can
    bring one back. *)
Theorem sanitized_without_advice_is_clean
    (response agent_type phrase : string) :
  (forall a, In a Compliance.advice_indicators ->
             Py.contains a (Py.lower response) = false) ->
  In phrase Compliance.prohibited_content ->
  Py.contains phrase (Py.lower (sanitized response agent_type)) = false.
Proof.
  intros Hadv Hin. unfold sanitized, Compliance._sanitize_response.
  rewrite rewrite_advice_identity; [now apply redaction_removes_prohibited|].
  intros a Ha. destruct (advice_facts a Ha) as [Hsep Hl].
  unfold Compliance.redact_prohibited. apply sub_all_keeps_absent; [exact Hsep|].
  rewrite <- (contains_lower _ _ Hl). now apply Hadv.
Qed.

End Redaction.

(** C3 (code defect).  The response below holds the prohibited phrase
    "risk-free" and is rejected, yet the phrase stands verbatim in the
    sanitized text.  Its occurrence is redacted by the first loop; the second
    loop then rewrites "You should" to "one might consider" in front of
    "isk-free", and the "r" that ends the replacement completes the phrase
    anew.  Nothing scans the text after the second loop. *)
Theorem C3_advice_rewrite_restores_prohibited_phrase :
  In "risk-free" Compliance.prohibited_content /\
  Py.contains "risk-free" (Py.lower restored_phrase_response) = true /\
  Compliance.approved
    (Compliance._run_compliance_checks restored_phrase_response "tutor") = false /\
  sanitized restored_phrase_response "tutor" =
    "This fund is [content removed for compliance]. one might considerisk-free your savings." /\
  Py.contains "risk-free" (sanitized restored_phrase_response "tutor") = true.
Proof.
  split; [cbn; tauto|]. repeat split; vm_compute; reflexivity.
Qed.

(** C5, counterexample.  A response rejected for the phrase "risk-free" is
    approved when its sanitized text is reviewed again: the verdict flips
    from false to true. *)
Lemma C5_counterexample_approved_flips :
  Compliance.approved
    (Compliance._run_compliance_checks risk_free_response "tutor") = false /\
  sanitized risk_free_response "tutor" =
    "This fund is [content removed for compliance]." /\
  Compliance.approved
    (Compliance._run_compliance_checks (sanitized risk_free_response "tutor") "tutor")
  = true.
Proof. repeat split; vm_compute; reflexivity. Qed.

(** C5, amended.  Every review yields at least one disclaimer, the general
    one first, and so does a second review of the sanitized text.  The
    second review keeps nothing of the first verdict: it rejects the
    sanitized text exactly when that text holds a prohibited phrase or
    matches a return-promise pattern. *)
Theorem C5_disclaimers_and_recomputed_verdict (response agent_type : string) :
  let first := Compliance._run_compliance_checks response agent_type in
  let text := Compliance._sanitize_response response first in
  let second := Compliance._run_compliance_checks text agent_type in
  (exists rest,
     Compliance._generate_disclaimers agent_type first = general_disclaimer :: rest) /\
  (exists rest,
     Compliance._generate_disclaimers agent_type second = general_disclaimer :: rest) /\
  (Compliance.approved second = false <->
   (exists phrase, In phrase Compliance.prohibited_content /\
                   Py.contains phrase (Py.lower text) = true) \/
   (exists pattern, In pattern Compliance.return_promises /\
                    Py.search pattern (Py.lower text) = true)).
Proof.
  cbv zeta. split; [apply disclaimers_start_general|].
  split; [apply disclaimers_start_general|].
  rewrite approved_spec, andb_false_iff, !negb_false_iff, !existsb_exists.
  reflexivity.
Qed.

(** C9.  When the dict handed to [validate_agent_response] has no
    "response" key, the call returns (it does not raise): the text reviewed
    is the empty string, the result is approved, no flag is raised and the
    disclaimers are the generic ones only. *)
Theorem C9_missing_response_is_approved (agent_response : dict) (agent_type : string) :
  agent_response !! "response" = None ->
  exists out meta,
    Compliance.validate_agent_response agent_response agent_type = Ok out /\
    out !! "response" = Some (VStr "") /\
    out !! "approved" = Some (VBool true) /\
    out !! "compliance" = Some (VDict meta) /\
    meta !! "approved" = Some (VBool true) /\
    meta !! "compliance_flags" = Some (VList []) /\
    meta !! "disclaimers" = Some (Compliance.VStrs (generic_disclaimers agent_type)).
Proof.
  intros Hmissing. unfold Compliance.validate_agent_response.
  rewrite Hmissing. cbn [default Compliance.as_str mbind result_bind bind mret result_ret].
  assert (Hc : Compliance._run_compliance_checks "" agent_type
               = Compliance.mkChecks true [] []) by (vm_compute; reflexivity).
  rewrite Hc. cbn [Compliance.approved Compliance.flags].
  eexists _, _. split; [reflexivity|].
  split.
  { rewrite !lookup_insert_ne by discriminate. rewrite lookup_insert_eq. reflexivity. }
  split; [apply lookup_insert_eq|].
  split.
  { rewrite lookup_insert_ne by discriminate. apply lookup_insert_eq. }
  split.
  { rewrite !lookup_insert_ne by discriminate. apply lookup_insert_eq. }
  split.
  { rewrite !lookup_insert_ne by discriminate. apply lookup_insert_eq. }
  rewrite lookup_insert_eq. do 2 f_equal.
  unfold Compliance._generate_disclaimers, generic_disclaimers.
  cbn [Compliance.flags Compliance.str_in_list existsb].
  destruct (Compliance.lookup_str agent_type Compliance.disclaimers); reflexivity.
Qed.

(** The same at the empty dict and the category "tutor". *)
Lemma C9_witness :
  exists out meta,
    Compliance.validate_agent_response ∅ "tutor" = Ok out /\
    out !! "response" = Some (VStr "") /\
    out !! "approved" = Some (VBool true) /\
    out !! "compliance" = Some (VDict meta) /\
    meta !! "approved" = Some (VBool true) /\
    meta !! "compliance_flags" = Some (VList []) /\
    meta !! "disclaimers" = Some (Compliance.VStrs (generic_disclaimers "tutor")).
Proof.
  apply (C9_missing_response_is_approved ∅ "tutor"). reflexivity.
Defined.

(** ** Portfolio metrics *)

Section PortfolioFacts.

Import Portfolio.
Local Open Scope Q_scope.

Lemma series_mul_columns (df : DataFrame) :
  series_mul (col_quantity df) (col_cost_basis df)
  = map (fun h => Fin (holding_value h)) df.
Proof.
  unfold col_quantity, col_cost_basis.
  induction df as [|h df IH]; [reflexivity|].
  cbn [map series_mul fmul]. now rewrite IH.
Qed.

Lemma fold_fadd_fin (qs : list Q) (a : Q) :
  fold_left fadd (map Fin qs) (Fin a) = Fin (fold_left Qplus qs a).
Proof.
  revert a. induction qs as [|q qs IH]; intros a; [reflexivity|].
  cbn [map fold_left fadd]. apply IH.
Qed.

Lemma filter_fin (qs : list Q) :
  List.filter (fun x => negb (is_nan x)) (map Fin qs) = map Fin qs.
Proof.
  induction qs as [|q qs IH]; [reflexivity|].
  cbn [map List.filter is_nan negb]. now rewrite IH.
Qed.

Lemma series_sum_fin (qs : list Q) : series_sum (map Fin qs) = Fin (Qsum qs).
Proof. unfold series_sum, Qsum. rewrite filter_fin. apply fold_fadd_fin. Qed.

Lemma total_value_eq (df : DataFrame) : total_value df = Fin (cost_value_sum df).
Proof.
  unfold total_value, cost_value_sum.
  rewrite series_mul_columns, <- series_sum_fin, map_map. reflexivity.
Qed.

Lemma weights_eq (df : DataFrame) :
  ~ cost_value_sum df == 0 ->
  weights df = map (fun h => Fin (weight_of df h)) df.
Proof.
  intros Hnz. unfold weights, series_div.
  rewrite series_mul_columns, total_value_eq, map_map.
  apply map_ext. intros h. cbn [fdiv].
  destruct (Qeq_bool (cost_value_sum df) 0) eqn:E; [|reflexivity].
  apply Qeq_bool_iff in E. contradiction.
Qed.

Lemma hhi_eq (df : DataFrame) :
  df <> [] -> ~ cost_value_sum df == 0 ->
  _calculate_hhi df = Fin (sum_squared_weights df).
Proof.
  intros Hne Hnz. unfold _calculate_hhi, sum_squared_weights.
  destruct df as [|h df]; [contradiction|]. cbn [empty].
  rewrite weights_eq by exact Hnz. unfold series_sq.
  rewrite map_map. cbn [fmul]. rewrite <- series_sum_fin, map_map. reflexivity.
Qed.

Lemma fold_Qplus_acc (qs : list Q) (a : Q) :
  fold_left Qplus qs a == a + Qsum qs.
Proof.
  unfold Qsum. revert a. induction qs as [|q qs IH]; intros a; cbn [fold_left].
  - ring.
  - rewrite IH, (IH (0 + q)). ring.
Qed.

Lemma Qsum_cons (q : Q) (qs : list Q) : Qsum (q :: qs) == q + Qsum qs.
Proof. unfold Qsum at 1. cbn [fold_left]. rewrite fold_Qplus_acc. ring. Qed.

Lemma Qsum_const {A : Type} (f : A -> Q) (c : Q) (l : list A) :
  (forall x, In x l -> f x == c) ->
  Qsum (map f l) == inject_Z (Z.of_nat (length l)) * c.
Proof.
  induction l as [|x l IH]; intros Hc.
  - cbn. ring.
  - cbn [map length]. rewrite Qsum_cons, IH, (Hc x (or_introl eq_refl)).
    + rewrite Nat2Z.inj_succ. unfold Z.succ. rewrite inject_Z_plus. ring.
    + intros y Hy. apply Hc. now right.
Qed.

Lemma length_pos_Q {A : Type} (l : list A) :
  l <> [] -> ~ inject_Z (Z.of_nat (length l)) == 0.
Proof.
  intros Hne H. destruct l as [|x l]; [contradiction|].
  unfold Qeq in H. cbn in H. lia.
Qed.

Lemma ratio_of_positive (q : Q) :
  0 < q -> diversification_ratio_of (Fin q) = Fin (1 / q).
Proof.
  intros Hpos. unfold diversification_ratio_of, fgt0, fdiv.
  assert (Hn : (0 < Qnum q)%Z) by (unfold Qlt in Hpos; cbn in Hpos; lia).
  apply Z.ltb_lt in Hn. rewrite Hn.
  destruct (Qeq_bool q 0) eqn:E; [|reflexivity].
  apply Qeq_bool_iff in E. rewrite E in Hpos. now apply Qlt_irrefl in Hpos.
Qed.

End PortfolioFacts.

(** C7, counterexample.  With a market value of 17500 on the holding, the
    specification's total is 17500, the code's is still 100 x 150. *)
Lemma C7_counterexample_market_value_ignored :
  Portfolio.total_value [aapl_marked] = Portfolio.Fin 15000 /\
  (spec_total_value [aapl_marked] == 17500)%Q /\
  ~ Portfolio.feq (Portfolio.total_value [aapl_marked])
                  (Portfolio.Fin (spec_total_value [aapl_marked])).
Proof.
  split; [vm_compute; reflexivity|]. split; [vm_compute; reflexivity|].
  vm_compute. discriminate.
Qed.

(** C7, amended.  For holdings of whole-number quantity and cost basis in
    the range in which pandas computes exactly, the total value that the
    metrics code computes is the sum of quantity x cost basis over the
    holdings.  A market value, present or not, does not enter the total of
    any frame; for the single AAPL holding the total is 15000. *)
Theorem C7_total_value_is_cost_value :
  (forall df : Portfolio.DataFrame,
     exact_frame df = true ->
     Portfolio.total_value df = Portfolio.Fin (cost_value_sum df)) /\
  (forall (mv : Portfolio.holding -> option Q) (df : Portfolio.DataFrame),
     Portfolio.total_value (map (fun h => with_market_value (mv h) h) df)
     = Portfolio.total_value df) /\
  Portfolio.total_value [aapl] = Portfolio.Fin 15000.
Proof.
  split; [intros df _; apply total_value_eq|]. split; [|vm_compute; reflexivity].
  intros mv df. rewrite !total_value_eq. unfold cost_value_sum.
  rewrite map_map. reflexivity.
Qed.

Section Concentration.

Import Portfolio.
Local Open Scope Q_scope.




End Concentration.




(** ** The mock return series *)

(** The return series does not depend on the holdings, nor on the state in
    which the generator is found: both calls below reseed it with 42. *)
Lemma mock_returns_ignore_holdings
    (rng : Type) (np_random_seed : Z -> rng)
    (np_random_normal1 : Q -> Q -> rng -> Portfolio.fnum * rng)
    (n1 n2 days : nat) (g1 g2 : rng) :
  Portfolio._generate_mock_returns rng np_random_seed np_random_normal1 n1 days g1
  = Portfolio._generate_mock_returns rng np_random_seed np_random_normal1 n2 days g2.
Proof. reflexivity. Qed.

(** C10 (code defect).  For every non-empty frame of holdings
    [_calculate_portfolio_metrics] raises [AttributeError]: the cumulative
    returns are a NumPy array, which has no [expanding], so the drawdown and
    the value at risk are never computed and no metrics are returned,
    whatever the generator and the numeric routines do. *)
Theorem C10_metrics_are_never_returned
    (rng : Type) (np_random_seed : Z -> rng)
    (np_random_normal1 : Q -> Q -> rng -> Portfolio.fnum * rng)
    (np_sqrt : Portfolio.fnum -> Portfolio.fnum)
    (np_percentile : list Portfolio.fnum -> Q -> Portfolio.fnum)
    (expanding_max : list Portfolio.fnum -> list Portfolio.fnum)
    (series_min : list Portfolio.fnum -> Portfolio.fnum)
    (df_holdings : Portfolio.DataFrame) (g : rng) :
  df_holdings <> [] ->
  (Portfolio._calculate_portfolio_metrics rng np_random_seed np_random_normal1
     np_sqrt np_percentile expanding_max series_min df_holdings g).1
  = Raise (AttributeError "numpy.ndarray" "expanding").
Proof.
  intros Hne. destruct df_holdings as [|h df]; [contradiction|].
  unfold Portfolio._calculate_portfolio_metrics. cbn [Portfolio.empty].
  destruct (Portfolio._generate_mock_returns _ _ _ _ _ _) as [returns g1].
  reflexivity.
Qed.

(** The same at the AAPL holding, with a toy generator. *)
Lemma C10_witness :
  (Portfolio._calculate_portfolio_metrics Z toy_seed toy_normal1 toy_sqrt
     toy_percentile toy_expanding_max toy_min [aapl] 0%Z).1
  = Raise (AttributeError "numpy.ndarray" "expanding").
Proof.
  apply (C10_metrics_are_never_returned Z toy_seed toy_normal1 toy_sqrt
           toy_percentile toy_expanding_max toy_min [aapl] 0%Z).
  discriminate.
Defined.

(** ** The workflow graph *)

Section WorkflowFacts.

Import Workflow.

Variable tutor_process portfolio_process market_process
  : Orchestrator.AgentState -> result dict.
Variable repr : value -> string.

(** A responder node whose name is not the selected agent returns the state
    untouched and runs nothing. *)
Lemma tutor_node_noop (st : FinnieState) :
  current_agent st <> Some "tutor" ->
  _tutor_node tutor_process st = (st, []).
Proof.
  intros Hne. unfold _tutor_node. now rewrite bool_decide_eq_false_2.
Qed.

Lemma portfolio_node_noop (st : FinnieState) :
  current_agent st <> Some "portfolio" ->
  _portfolio_node portfolio_process st = (st, []).
Proof.
  intros Hne. unfold _portfolio_node. now rewrite bool_decide_eq_false_2.
Qed.

Lemma market_node_noop (st : FinnieState) :
  current_agent st <> Some "market" ->
  _market_node market_process st = (st, []).
Proof.
  intros Hne. unfold _market_node. now rewrite bool_decide_eq_false_2.
Qed.

Lemma dispatch_inv (st : FinnieState) (n : node) :
  dispatch st = Ok n ->
  current_agent st =
    Some (match n with
          | NTutor => "tutor"
          | NPortfolio => "portfolio"
          | NMarket => "market"
          end).
Proof.
  unfold dispatch, _route_to_agent, path_map. cbn [lookup_node].
  destruct (current_agent st) as [key|]; [|discriminate].
  destruct (String.eqb "tutor" key) eqn:E1.
  { apply String.eqb_eq in E1. subst. now intros [= <-]. }
  destruct (String.eqb "portfolio" key) eqn:E2.
  { apply String.eqb_eq in E2. subst. now intros [= <-]. }
  destruct (String.eqb "market" key) eqn:E3.
  { apply String.eqb_eq in E3. subst. now intros [= <-]. }
  discriminate.
Qed.

(** Whenever the conditional edge finds a node, exactly one responder body
    runs: the one of that node. *)
Lemma one_responder_when_dispatched (st : FinnieState) (n : node) :
  dispatch st = Ok n ->
  (run_node tutor_process portfolio_process market_process n st).2
  = [match n with
     | NTutor => RTutor
     | NPortfolio => RPortfolio
     | NMarket => RMarket
     end].
Proof.
  intros Hd. apply dispatch_inv in Hd.
  destruct n; cbn [run_node]; unfold _tutor_node, _portfolio_node, _market_node;
    rewrite Hd; reflexivity.
Qed.

Lemma one_responder_or_none (user_id query : string) (context : option dict) :
  let st := _router_node (initial_state user_id query context) in
  match dispatch st with
  | Ok n =>
      length (executed_responders tutor_process portfolio_process market_process
                repr user_id query context) = 1%nat
  | Raise _ =>
      executed_responders tutor_process portfolio_process market_process
        repr user_id query context = []
  end.
Proof.
  cbv zeta. unfold executed_responders, graph_invoke.
  destruct (dispatch _) as [n|e] eqn:Hd; [|reflexivity].
  pose proof (one_responder_when_dispatched _ _ Hd) as H1.
  destruct (run_node _ _ _ n _) as [s2 log]. cbn in *. now rewrite H1.
Qed.

End WorkflowFacts.

(** A responder that raises is handled inside its node: the graph run goes
    on through compliance and formatting, and the failure never reaches the
    fallback of [process_query]. *)
Example responder_failure_stays_inside_node :
  exists payload : dict,
    Workflow.process_query failing_agent failing_agent failing_agent toy_repr
      "user-1" "What is a stock?" None = Ok payload /\
    Workflow.executed_responders failing_agent failing_agent failing_agent toy_repr
      "user-1" "What is a stock?" None = [Workflow.RTutor] /\
    payload !! "agent" = Some (VStr "tutor") /\
    payload !! "sources" = Some (VList []) /\
    payload !! "approved" = Some (VBool true).
Proof.
  eexists. split; [vm_compute; reflexivity|].
  repeat split; vm_compute; reflexivity.
Qed.

(** C1 (code defect).  For the query "How do I start?" the router selects
    the category "onboarding", for which the conditional edge has no node:
    no responder body runs at all, [graph.invoke] fails and the caller gets
    the fallback payload.  This holds whatever the three responders do. *)
Theorem C1_onboarding_query_runs_no_responder
    (tutor_process portfolio_process market_process
       : Orchestrator.AgentState -> result dict)
    (repr : value -> string) (user_id : string) (context : option dict) :
  let st := Workflow._router_node
              (Workflow.initial_state user_id "How do I start?" context) in
  Workflow.current_agent st = Some "onboarding" /\
  Workflow.dispatch st = Raise (KeyError "onboarding") /\
  Workflow.executed_responders tutor_process portfolio_process market_process
    repr user_id "How do I start?" context = [] /\
  Workflow.process_query tutor_process portfolio_process market_process
    repr user_id "How do I start?" context = Ok Workflow.error_payload.
Proof.
  cbv zeta.
  assert (Hc : Workflow.current_agent
                 (Workflow._router_node
                    (Workflow.initial_state user_id "How do I start?" context))
               = Some "onboarding") by (vm_compute; reflexivity).
  assert (Hd : Workflow.dispatch
                 (Workflow._router_node
                    (Workflow.initial_state user_id "How do I start?" context))
               = Raise (KeyError "onboarding")).
  { unfold Workflow.dispatch, Workflow._route_to_agent. rewrite Hc. reflexivity. }
  split; [exact Hc|]. split; [exact Hd|].
  unfold Workflow.process_query, Workflow.executed_responders, Workflow.graph_invoke.
  rewrite Hd. split; reflexivity.
Qed.

(** C4.  [process_query] returns a payload for every user id, query and
    context, whatever the responders do (raising included): it never
    raises.  The payload has exactly the eight keys, and when the graph run
    fails it is the fallback payload: the apology, not approved, no sources
    and an empty compliance dict. *)
Theorem C4_process_query_always_returns_payload
    (tutor_process portfolio_process market_process
       : Orchestrator.AgentState -> result dict)
    (repr : value -> string) (user_id query : string) (context : option dict) :
  exists payload : dict,
    Workflow.process_query tutor_process portfolio_process market_process
      repr user_id query context = Ok payload /\
    dom payload = payload_keys /\
    (forall e,
       (Workflow.graph_invoke tutor_process portfolio_process market_process repr
          (Workflow.initial_state user_id query context)).1 = Raise e ->
       payload !! "response" = Some (VStr apology) /\
       payload !! "approved" = Some (VBool false) /\
       payload !! "sources" = Some (VList []) /\
       payload !! "compliance" = Some (VDict ∅)).
Proof.
  unfold Workflow.process_query.
  destruct (Workflow.graph_invoke _ _ _ _ _) as [[st|e] log]; cbn [fst].
  - exists (Workflow.payload_of st). split; [reflexivity|].
    split.
    { unfold Workflow.payload_of, payload_keys.
      rewrite !dom_insert_L, dom_empty_L. cbn [list_to_set]. set_solver. }
    intros e He. discriminate He.
  - exists Workflow.error_payload. split; [reflexivity|].
    split.
    { unfold Workflow.error_payload, payload_keys.
      rewrite !dom_insert_L, dom_empty_L. cbn [list_to_set]. set_solver. }
    intros e' _. repeat split; vm_compute; reflexivity.
Qed.

(** The same at a query for which the graph run fails. *)
Lemma C4_witness :
  exists payload : dict,
    Workflow.process_query (canned_agent "A stock is a share of ownership.")
      failing_agent failing_agent toy_repr "user-1" "How do I start?" None
    = Ok payload /\
    dom payload = payload_keys /\
    (forall e,
       (Workflow.graph_invoke (canned_agent "A stock is a share of ownership.")
          failing_agent failing_agent toy_repr
          (Workflow.initial_state "user-1" "How do I start?" None)).1 = Raise e ->
       payload !! "response" = Some (VStr apology) /\
       payload !! "approved" = Some (VBool false) /\
       payload !! "sources" = Some (VList []) /\
       payload !! "compliance" = Some (VDict ∅)).
Proof.
  exact (C4_process_query_always_returns_payload
           (canned_agent "A stock is a share of ownership.")
           failing_agent failing_agent toy_repr "user-1" "How do I start?" None).
Defined.

(** * Further properties of the code *)

(** ** The router *)

Section RouterFacts.

Import Orchestrator.

Lemma max_go_spec (rest pre mid : list (AgentType * nat)) (best : AgentType * nat) :
  (forall x, In x pre -> (snd x < snd best)%nat) ->
  (forall x, In x mid -> (snd x <= snd best)%nat) ->
  exists before after,
    pre ++ best :: mid ++ rest = before ++ max_go best rest :: after /\
    (forall x, In x before -> (snd x < snd (max_go best rest))%nat) /\
    (forall x, In x after -> (snd x <= snd (max_go best rest))%nat).
Proof.
  revert pre mid best.
  induction rest as [|[a n] rest IH]; intros pre mid best Hpre Hmid.
  - exists pre, mid. rewrite app_nil_r. auto.
  - cbn [max_go]. destruct (snd best <? n)%nat eqn:E.
    + apply Nat.ltb_lt in E.
      destruct (IH (pre ++ best :: mid) [] (a, n)) as (before & after & Heq & Hb & Ha).
      * intros x Hx. cbn [snd]. apply in_app_or in Hx as [Hx|[<-|Hx]].
        -- specialize (Hpre x Hx). lia.
        -- exact E.
        -- specialize (Hmid x Hx). lia.
      * intros x [].
      * exists before, after. split; [|auto].
        rewrite <- Heq. rewrite <- !app_assoc. reflexivity.
    + apply Nat.ltb_ge in E.
      destruct (IH pre (mid ++ [(a, n)]) best) as (before & after & Heq & Hb & Ha).
      * exact Hpre.
      * intros x Hx. apply in_app_or in Hx as [Hx|[<-|[]]]; [auto | exact E].
      * exists before, after. split; [|auto].
        rewrite <- Heq. rewrite <- !app_assoc. reflexivity.
Qed.

Lemma route_query_ok_inv (st st' : AgentState) (a : AgentType) :
  route_query st = Ok (a, st') ->
  exists first others n w,
    compute_scores (Py.lower (query st)) = first :: others /\
    max_go first others = (a, n) /\
    Py.split (Py.lower (query st)) = w /\ w <> [] /\
    st' = set_routing a (agent_value a) (Z.of_nat n # Pos.of_nat (length w)) st.
Proof.
  unfold route_query.
  destruct (compute_scores _) as [|first others] eqn:Hs; [discriminate Hs|].
  destruct (max_go first others) as [best n] eqn:Hm.
  destruct (Py.split _) as [|w ws] eqn:Hw; [discriminate|].
  cbn [mbind mret result_bind result_ret bind true_div length].
  intros [= <- <-].
  exists first, others, n, (w :: ws).
  split; [reflexivity|]. split; [exact Hm|]. split; [reflexivity|].
  split; [discriminate | reflexivity].
Qed.

Lemma score_zero_iff (keywords : list string) (q : string) :
  keyword_score keywords q = 0%nat <->
  forall keyword, In keyword keywords -> Py.contains keyword q = false.
Proof.
  split; [|apply keyword_score_zero].
  unfold keyword_score. induction keywords as [|k ks IH]; intros H kw Hin; [destruct Hin|].
  cbn [List.filter] in H. destruct (Py.contains k q) eqn:E; [discriminate H|].
  destruct Hin as [<-|Hin]; [exact E | now apply IH].
Qed.

End RouterFacts.

(** X1.  When [route_query] returns, the category it selects has the
    highest keyword score, every category listed before it in the keyword
    table scores strictly less (ties go to the earlier entry), it is never
    COMPLIANCE, and the confidence it stores is that score divided by the
    number of words of the query. *)
Theorem X1_route_query_selects_first_maximum
    (st st' : Orchestrator.AgentState) (a : Orchestrator.AgentType) :
  Orchestrator.route_query st = Ok (a, st') ->
  exists before after n,
    Orchestrator.compute_scores (Py.lower (Orchestrator.query st))
      = before ++ (a, n) :: after /\
    (forall b m, In (b, m) before -> (m < n)%nat) /\
    (forall b m, In (b, m) after -> (m <= n)%nat) /\
    a <> Orchestrator.COMPLIANCE /\
    Orchestrator.current_agent st' = Some a /\
    Orchestrator.intent st' = Some (Orchestrator.agent_value a) /\
    Orchestrator.confidence st'
      = Z.of_nat n # Pos.of_nat (word_count (Orchestrator.query st)).
Proof.
  intros Hr.
  destruct (route_query_ok_inv _ _ _ Hr) as (first & others & n & w & Hs & Hm & Hw & Hne & ->).
  destruct (max_go_spec others [] [] first) as (before & after & Heq & Hb & Ha);
    [intros x [] | intros x [] |].
  cbn [app] in Heq. rewrite Hm in Heq, Hb, Ha. cbn [snd] in Hb, Ha.
  exists before, after, n. rewrite Hs, Heq.
  split; [reflexivity|].
  split; [intros b m Hin; exact (Hb _ Hin)|].
  split; [intros b m Hin; exact (Ha _ Hin)|].
  split.
  { assert (Hin : In a (map fst (Orchestrator.compute_scores
                                   (Py.lower (Orchestrator.query st))))).
    { rewrite Hs, Heq, map_app. apply in_or_app. right. now left. }
    unfold Orchestrator.compute_scores in Hin. cbn in Hin.
    intros ->. intuition discriminate. }
  unfold word_count. rewrite Hw. repeat split; reflexivity.
Qed.

(** The same for the query "What is the risk of my portfolio", which the
    router gives to the portfolio analyst. *)
Lemma X1_witness :
  exists before after n,
    Orchestrator.compute_scores (Py.lower (Orchestrator.query risk_query_state))
      = before ++ (Orchestrator.PORTFOLIO, n) :: after /\
    (forall b m, In (b, m) before -> (m < n)%nat) /\
    (forall b m, In (b, m) after -> (m <= n)%nat) /\
    Orchestrator.PORTFOLIO <> Orchestrator.COMPLIANCE /\
    Orchestrator.current_agent
      (Orchestrator.set_routing Orchestrator.PORTFOLIO "portfolio" (2 # 7) risk_query_state)
      = Some Orchestrator.PORTFOLIO /\
    Orchestrator.intent
      (Orchestrator.set_routing Orchestrator.PORTFOLIO "portfolio" (2 # 7) risk_query_state)
      = Some (Orchestrator.agent_value Orchestrator.PORTFOLIO) /\
    Orchestrator.confidence
      (Orchestrator.set_routing Orchestrator.PORTFOLIO "portfolio" (2 # 7) risk_query_state)
      = Z.of_nat n # Pos.of_nat (word_count (Orchestrator.query risk_query_state)).
Proof.
  apply (X1_route_query_selects_first_maximum risk_query_state
           (Orchestrator.set_routing Orchestrator.PORTFOLIO "portfolio" (2 # 7)
              risk_query_state)
           Orchestrator.PORTFOLIO).
  vm_compute. reflexivity.
Defined.

(** X2.  [route_query] returns for every query that has at least one word,
    and leaves the query and the context as they were.  The confidence it
    stores is never negative, and it is 0 exactly when no keyword phrase of
    any category occurs in the lower-cased query. *)
Theorem X2_route_query_returns_for_worded_query (st : Orchestrator.AgentState) :
  Py.split (Py.lower (Orchestrator.query st)) <> [] ->
  exists a st',
    Orchestrator.route_query st = Ok (a, st') /\
    Orchestrator.query st' = Orchestrator.query st /\
    Orchestrator.context st' = Orchestrator.context st /\
    (0 <= Orchestrator.confidence st')%Q /\
    ((Orchestrator.confidence st' == 0)%Q <->
     forall agent_type keywords keyword,
       In (agent_type, keywords) Orchestrator.intent_keywords ->
       In keyword keywords ->
       Py.contains keyword (Py.lower (Orchestrator.query st)) = false).
Proof.
  intros Hw.
  destruct (Orchestrator.route_query st) as [[a st']|e] eqn:Hr.
  2:{ exfalso. unfold Orchestrator.route_query in Hr.
      destruct (Orchestrator.compute_scores _) as [|first others] eqn:Hs;
        [discriminate Hs|].
      destruct (Orchestrator.max_go first others) as [best n].
      destruct (Py.split _) as [|w ws]; [now apply Hw | discriminate]. }
  exists a, st'. split; [reflexivity|].
  destruct (route_query_ok_inv _ _ _ Hr) as (first & others & n & w & Hs & Hm & Hsp & Hne & ->).
  cbn [Orchestrator.set_routing Orchestrator.query Orchestrator.context
         Orchestrator.confidence].
  split; [reflexivity|]. split; [reflexivity|].
  split; [unfold Qle; cbn; lia|].
  destruct (max_go_spec others [] [] first) as (before & after & Heq & Hb & Ha);
    [intros x [] | intros x [] |].
  cbn [app] in Heq. rewrite Hm in Heq, Hb, Ha. cbn [snd] in Hb, Ha.
  assert (Hzero : (Z.of_nat n # Pos.of_nat (length w) == 0)%Q <-> n = 0%nat).
  { unfold Qeq. cbn. lia. }
  rewrite Hzero. split.
  - intros -> agent_type keywords keyword Hin Hk.
    assert (Hsc : In (agent_type,
                      Orchestrator.keyword_score keywords
                        (Py.lower (Orchestrator.query st)))
                     (Orchestrator.compute_scores (Py.lower (Orchestrator.query st)))).
    { unfold Orchestrator.compute_scores.
      apply (in_map (fun '(agent_type, keywords) =>
                       (agent_type,
                        Orchestrator.keyword_score keywords
                          (Py.lower (Orchestrator.query st)))) _ _ Hin). }
    rewrite Hs, Heq in Hsc.
    assert (Hz : Orchestrator.keyword_score keywords
                   (Py.lower (Orchestrator.query st)) = 0%nat).
    { apply in_app_or in Hsc as [Hsc|[Hsc|Hsc]].
      - specialize (Hb _ Hsc). cbn in Hb. lia.
      - now injection Hsc.
      - specialize (Ha _ Hsc). cbn in Ha. lia. }
    now apply (proj1 (score_zero_iff _ _) Hz).
  - intros Hno.
    pose proof (scores_without_keyword _ Hno) as Hall.
    rewrite Hs, Heq in Hall.
    assert (Hin : In (a, n) [(Orchestrator.TUTOR, 0%nat); (Orchestrator.PORTFOLIO, 0%nat);
                             (Orchestrator.MARKET, 0%nat); (Orchestrator.ONBOARDING, 0%nat)]).
    { rewrite <- Hall. apply in_or_app. right. now left. }
    cbn in Hin. intuition congruence.
Qed.

(** The same at the query "Hello there". *)
Lemma X2_witness :
  exists a st',
    Orchestrator.route_query hello_state = Ok (a, st') /\
    Orchestrator.query st' = Orchestrator.query hello_state /\
    Orchestrator.context st' = Orchestrator.context hello_state /\
    (0 <= Orchestrator.confidence st')%Q /\
    ((Orchestrator.confidence st' == 0)%Q <->
     forall agent_type keywords keyword,
       In (agent_type, keywords) Orchestrator.intent_keywords ->
       In keyword keywords ->
       Py.contains keyword (Py.lower (Orchestrator.query hello_state)) = false).
Proof.
  apply (X2_route_query_returns_for_worded_query hello_state).
  vm_compute. discriminate.
Defined.

(** ** Running the selected agent *)

Lemma route_query_total (st : Orchestrator.AgentState) :
  Py.split (Py.lower (Orchestrator.query st)) <> [] ->
  exists a c,
    Orchestrator.route_query st
    = Ok (a, Orchestrator.set_routing a (Orchestrator.agent_value a) c st).
Proof.
  intros Hw. unfold Orchestrator.route_query.
  destruct (Orchestrator.compute_scores _) as [|first others] eqn:Hs;
    [discriminate Hs|].
  destruct (Orchestrator.max_go first others) as [best n].
  destruct (Py.split _) as [|w ws]; [now destruct Hw|].
  eexists _, _. reflexivity.
Qed.

Lemma execute_agent_total
    (agents : Orchestrator.AgentType -> option (Orchestrator.AgentState -> result dict))
    (str_of_exn : exn -> string)
    (state : Orchestrator.AgentState) (a : Orchestrator.AgentType) :
  Orchestrator.current_agent state = Some a ->
  exists out : dict,
    OrchestratorAgent.execute_agent agents str_of_exn state = Ok out /\
    (agents a = None -> out = OrchestratorAgent.not_available a).
Proof.
  intros Hc. unfold OrchestratorAgent.execute_agent. rewrite Hc.
  destruct (agents a) as [process|].
  - destruct (process state); eexists; split; try reflexivity; discriminate.
  - eexists. split; reflexivity.
Qed.

(** X3.  With a current agent set, [execute_agent] never raises.  When no
    agent is registered for it the result is the "not available" dict; when
    the agent raises, the result is the error dict with the generic apology;
    when the agent returns a dict, the result is that dict with the keys
    "agent", "confidence" and "intent" overwritten and every other key as
    the agent left it. *)
Theorem X3_execute_agent_absorbs_failures
    (agents : Orchestrator.AgentType -> option (Orchestrator.AgentState -> result dict))
    (str_of_exn : exn -> string)
    (state : Orchestrator.AgentState) (a : Orchestrator.AgentType) :
  Orchestrator.current_agent state = Some a ->
  exists out : dict,
    OrchestratorAgent.execute_agent agents str_of_exn state = Ok out /\
    (agents a = None -> out = OrchestratorAgent.not_available a) /\
    (forall process e,
       agents a = Some process -> process state = Raise e ->
       out !! "response"
         = Some (VStr "I encountered an error processing your request. Please try again.") /\
       out !! "error" = Some (VStr (str_of_exn e)) /\
       out !! "agent" = None) /\
    (forall process d,
       agents a = Some process -> process state = Ok d ->
       out !! "agent" = Some (VStr (Orchestrator.agent_value a)) /\
       out !! "confidence" = Some (VNum (Orchestrator.confidence state)) /\
       out !! "intent" = Some (OrchestratorAgent.opt_str (Orchestrator.intent state)) /\
       forall key, key <> "agent" -> key <> "confidence" -> key <> "intent" ->
                   out !! key = d !! key).
Proof.
  intros Hc. unfold OrchestratorAgent.execute_agent. rewrite Hc.
  destruct (agents a) as [process|] eqn:Ha.
  - destruct (process state) as [d|e] eqn:Hp; cbn [try_except mbind result_bind bind mret result_ret].
    + eexists. split; [reflexivity|]. split; [discriminate|].
      split; [intros p e [= <-]; rewrite Hp; discriminate|].
      intros p d' [= <-]. rewrite Hp. intros [= <-].
      unfold OrchestratorAgent.add_metadata.
      split; [now rewrite !lookup_insert_ne, lookup_insert_eq by discriminate|].
      split; [now rewrite lookup_insert_ne, lookup_insert_eq by discriminate|].
      split; [now rewrite lookup_insert_eq|].
      intros key H1 H2 H3. now rewrite !lookup_insert_ne by congruence.
    + eexists. split; [reflexivity|]. split; [discriminate|].
      split.
      * intros p e' [= <-]. rewrite Hp. intros [= <-].
        unfold OrchestratorAgent.agent_failed.
        split; [now rewrite lookup_insert_ne, lookup_insert_eq by discriminate|].
        split; [now rewrite lookup_insert_eq|].
        now rewrite !lookup_insert_ne, lookup_empty by discriminate.
      * intros p d [= <-]. rewrite Hp. discriminate.
  - eexists. split; [reflexivity|]. split; [reflexivity|].
    split; intros p x Hp'; discriminate Hp'.
Qed.

(** The same for a state routed to the portfolio analyst, with the
    registry of the workflow and an analyst that raises. *)
Lemma X3_witness :
  exists out : dict,
    OrchestratorAgent.execute_agent
      (workflow_registry (canned_agent "A stock is a share of ownership.")
         failing_agent failing_agent)
      toy_str_of_exn
      (Orchestrator.set_routing Orchestrator.PORTFOLIO "portfolio" (2 # 7) risk_query_state)
    = Ok out /\
    (workflow_registry (canned_agent "A stock is a share of ownership.")
       failing_agent failing_agent Orchestrator.PORTFOLIO = None ->
     out = OrchestratorAgent.not_available Orchestrator.PORTFOLIO) /\
    (forall process e,
       workflow_registry (canned_agent "A stock is a share of ownership.")
         failing_agent failing_agent Orchestrator.PORTFOLIO = Some process ->
       process (Orchestrator.set_routing Orchestrator.PORTFOLIO "portfolio" (2 # 7)
                  risk_query_state) = Raise e ->
       out !! "response"
         = Some (VStr "I encountered an error processing your request. Please try again.") /\
       out !! "error" = Some (VStr (toy_str_of_exn e)) /\
       out !! "agent" = None) /\
    (forall process d,
       workflow_registry (canned_agent "A stock is a share of ownership.")
         failing_agent failing_agent Orchestrator.PORTFOLIO = Some process ->
       process (Orchestrator.set_routing Orchestrator.PORTFOLIO "portfolio" (2 # 7)
                  risk_query_state) = Ok d ->
       out !! "agent" = Some (VStr (Orchestrator.agent_value Orchestrator.PORTFOLIO)) /\
       out !! "confidence"
         = Some (VNum (Orchestrator.confidence
                         (Orchestrator.set_routing Orchestrator.PORTFOLIO "portfolio"
                            (2 # 7) risk_query_state))) /\
       out !! "intent"
         = Some (OrchestratorAgent.opt_str
                   (Orchestrator.intent
                      (Orchestrator.set_routing Orchestrator.PORTFOLIO "portfolio"
                         (2 # 7) risk_query_state))) /\
       forall key, key <> "agent" -> key <> "confidence" -> key <> "intent" ->
                   out !! key = d !! key).
Proof.
  apply (X3_execute_agent_absorbs_failures
           (workflow_registry (canned_agent "A stock is a share of ownership.")
              failing_agent failing_agent)
           toy_str_of_exn
           (Orchestrator.set_routing Orchestrator.PORTFOLIO "portfolio" (2 # 7)
              risk_query_state)
           Orchestrator.PORTFOLIO).
  reflexivity.
Defined.

(** X4.  [OrchestratorAgent.process_query] lets the router's
    [ZeroDivisionError] through for a query without a word, and returns for
    every other query, whatever the agents do; it then leaves two messages
    in the history, the user's and the assistant's.  A query that the router
    gives to a type without a registered agent gets the "not available"
    dict. *)
Theorem X4_orchestrator_process_query
    (agents : Orchestrator.AgentType -> option (Orchestrator.AgentState -> result dict))
    (str_of_exn : exn -> string)
    (user_id query : string) (context : option dict) :
  (Py.split (Py.lower query) = [] ->
   OrchestratorAgent.process_query agents str_of_exn user_id query context
   = Raise ZeroDivisionError) /\
  (Py.split (Py.lower query) <> [] ->
   exists out state a,
     OrchestratorAgent.process_query agents str_of_exn user_id query context
       = Ok (out, state) /\
     Orchestrator.current_agent state = Some a /\
     length (Orchestrator.messages state) = 2%nat /\
     (agents a = None -> out = OrchestratorAgent.not_available a)).
Proof.
  unfold OrchestratorAgent.process_query.
  set (state0 := Orchestrator.mkAgentState _ _ _ _ _ _ _ _ _ _ _).
  split.
  - intros Hw.
    rewrite (route_query_raises_without_words state0) by exact Hw. reflexivity.
  - intros Hw.
    destruct (route_query_total state0 Hw) as (a & c & Hr).
    rewrite Hr. cbn [mbind result_bind bind].
    set (state1 := Orchestrator.set_routing _ _ _ _).
    destruct (execute_agent_total agents str_of_exn state1 a eq_refl) as (out & He & Hna).
    rewrite He. cbn [mbind result_bind bind mret result_ret
                      OrchestratorAgent.assistant_message
                      OrchestratorAgent.set_messages Orchestrator.current_agent
                      Orchestrator.messages].
    subst state1. cbn [Orchestrator.set_routing Orchestrator.current_agent
                          Orchestrator.messages OrchestratorAgent.assistant_message].
    eexists _, _, a. split; [reflexivity|].
    split; [reflexivity|]. split; [reflexivity | exact Hna].
Qed.

(** The same at the empty query and at "How do I start?", which the router
    gives to the onboarding type, with the registry of the workflow. *)
Lemma X4_witness :
  OrchestratorAgent.process_query
    (workflow_registry failing_agent failing_agent failing_agent) toy_str_of_exn
    "user-1" "" None = Raise ZeroDivisionError /\
  exists out state a,
    OrchestratorAgent.process_query
      (workflow_registry failing_agent failing_agent failing_agent) toy_str_of_exn
      "user-1" "How do I start?" None = Ok (out, state) /\
    Orchestrator.current_agent state = Some a /\
    length (Orchestrator.messages state) = 2%nat /\
    (workflow_registry failing_agent failing_agent failing_agent a = None ->
     out = OrchestratorAgent.not_available a).
Proof.
  split.
  - apply (X4_orchestrator_process_query
             (workflow_registry failing_agent failing_agent failing_agent)
             toy_str_of_exn "user-1" "" None). reflexivity.
  - apply (X4_orchestrator_process_query
             (workflow_registry failing_agent failing_agent failing_agent)
             toy_str_of_exn "user-1" "How do I start?" None).
    vm_compute. discriminate.
Defined.

(** ** The compliance review, continued *)

Section ReviewFacts.

Import Compliance.

Lemma scan_flags {X : Type} (test : X -> bool)
    (update : X -> checks -> checks) (flag : string) (xs : list X) :
  (forall x c, flags (update x c) = flags c ++ [flag]) ->
  forall c,
    flags (scan test update xs c)
    = flags c ++ map (fun _ => flag) (List.filter test xs).
Proof.
  intros Hup. unfold scan.
  induction xs as [|x xs IH]; intros c; cbn [fold_left List.filter].
  - now rewrite app_nil_r.
  - rewrite IH. destruct (test x); [|reflexivity].
    rewrite Hup, <- app_assoc. reflexivity.
Qed.

Lemma scan_invariant {X : Type} (P : checks -> Prop) (test : X -> bool)
    (update : X -> checks -> checks) (xs : list X) :
  (forall x c, P c -> P (update x c)) ->
  forall c, P c -> P (scan test update xs c).
Proof.
  intros Hup. unfold scan.
  induction xs as [|x xs IH]; intros c Hc; [exact Hc|].
  cbn [fold_left]. apply IH. destruct (test x); auto.
Qed.

Lemma flags_spec (response agent_type : string) :
  flags (_run_compliance_checks response agent_type) =
    flag_block "prohibited_content"
      (fun p => Py.contains p (Py.lower response)) prohibited_content ++
    flag_block "personalized_advice"
      (fun p => Py.contains p (Py.lower response)) advice_indicators ++
    flag_block "investment_recommendation"
      (fun r => Py.search r (Py.lower response)) recommendation_patterns ++
    flag_block "return_promise"
      (fun r => Py.search r (Py.lower response)) return_promises ++
    flag_block "time_sensitive"
      (fun p => Py.contains p (Py.lower response)) time_sensitive.
Proof.
  unfold _run_compliance_checks, flag_block.
  rewrite (scan_flags _ _ "time_sensitive") by reflexivity.
  rewrite (scan_flags _ _ "return_promise") by reflexivity.
  rewrite (scan_flags _ _ "investment_recommendation") by reflexivity.
  rewrite (scan_flags _ _ "personalized_advice") by reflexivity.
  rewrite (scan_flags _ _ "prohibited_content") by reflexivity.
  cbn [flags app]. rewrite <- !app_assoc. reflexivity.
Qed.

Lemma in_flag_block {X : Type} (flag f : string) (test : X -> bool) (xs : list X) :
  In f (flag_block flag test xs) <-> f = flag /\ existsb test xs = true.
Proof.
  unfold flag_block. rewrite in_map_iff, existsb_exists. split.
  - intros (x & <- & Hx). apply filter_In in Hx. split; [reflexivity|].
    exists x. exact Hx.
  - intros (-> & x & Hx). exists x. split; [reflexivity|]. now apply filter_In.
Qed.

Lemma str_in_list_In (x : string) (xs : list string) :
  str_in_list x xs = true <-> In x xs.
Proof.
  unfold str_in_list. rewrite existsb_exists. split.
  - intros (y & Hy & E). apply String.eqb_eq in E. now subst.
  - intros H. exists x. split; [exact H | apply String.eqb_refl].
Qed.

(** Which texts raise which flag. *)
Lemma flag_raised (response agent_type : string) :
  let fl := flags (_run_compliance_checks response agent_type) in
  (In "prohibited_content" fl <-> any_phrase prohibited_content response = true) /\
  (In "personalized_advice" fl <-> any_phrase advice_indicators response = true) /\
  (In "investment_recommendation" fl
   <-> any_pattern recommendation_patterns response = true) /\
  (In "return_promise" fl <-> any_pattern return_promises response = true) /\
  (In "time_sensitive" fl <-> any_phrase time_sensitive response = true).
Proof.
  cbv zeta. rewrite flags_spec. unfold any_phrase, any_pattern.
  repeat split; intros H;
    first
      [ repeat (apply in_app_or in H as [H|H]);
        apply in_flag_block in H as [E H]; solve [exact H | discriminate E]
      | repeat rewrite in_app_iff; rewrite !in_flag_block; tauto ].
Qed.

Lemma lower_char_idem (c : ascii) :
  Py.lower_char (Py.lower_char c) = Py.lower_char c.
Proof. destruct c as [[] [] [] [] [] [] [] []]; reflexivity. Qed.

Lemma lower_idem (s : string) : Py.lower (Py.lower s) = Py.lower s.
Proof.
  induction s as [|c s IH]; [reflexivity|].
  cbn [Py.lower]. now rewrite lower_char_idem, IH.
Qed.

Lemma absent_all (phrases : list string) (text : string) :
  forallb (fun p => negb (Py.contains p text)) phrases = true ->
  forall p, In p phrases -> Py.contains p text = false.
Proof.
  intros H p Hp. rewrite forallb_forall in H.
  specialize (H p Hp). now apply negb_true_iff in H.
Qed.

Lemma redact_identity (text : string) :
  (forall p, In p prohibited_content -> occurs_ci p text = false) ->
  redact_prohibited text = text.
Proof.
  unfold redact_prohibited. generalize prohibited_content as ps.
  induction ps as [|p ps IH]; intros Habs; [reflexivity|].
  cbn [fold_left]. rewrite sub_identity by (apply Habs; now left).
  apply IH. intros q Hq. apply Habs. now right.
Qed.

Lemma sanitize_identity (response : string) (c : checks) :
  (forall p, In p prohibited_content -> Py.contains p (Py.lower response) = false) ->
  (forall a, In a advice_indicators -> Py.contains a (Py.lower response) = false) ->
  _sanitize_response response c = response.
Proof.
  intros Hp Ha. unfold _sanitize_response.
  assert (Hr : redact_prohibited response = response).
  { apply redact_identity. intros p Hin.
    destruct (prohibited_facts p Hin) as [_ Hl].
    rewrite <- (contains_lower _ _ Hl). now apply Hp. }
  rewrite Hr. apply rewrite_advice_identity. intros a Hin.
  destruct (advice_facts a Hin) as [_ Hl].
  rewrite <- (contains_lower _ _ Hl). now apply Ha.
Qed.

End ReviewFacts.

(** X5.  The flags of a review say what was found: each of the five flags
    is raised exactly when a phrase or pattern of its family occurs in the
    lower-cased response; the review is approved exactly when neither
    "prohibited_content" nor "return_promise" is among the flags; and every
    flag comes with one issue. *)
Theorem X5_flags_decide_the_verdict (response agent_type : string) :
  let c := Compliance._run_compliance_checks response agent_type in
  (In "prohibited_content" (Compliance.flags c)
   <-> any_phrase Compliance.prohibited_content response = true) /\
  (In "personalized_advice" (Compliance.flags c)
   <-> any_phrase Compliance.advice_indicators response = true) /\
  (In "investment_recommendation" (Compliance.flags c)
   <-> any_pattern Compliance.recommendation_patterns response = true) /\
  (In "return_promise" (Compliance.flags c)
   <-> any_pattern Compliance.return_promises response = true) /\
  (In "time_sensitive" (Compliance.flags c)
   <-> any_phrase Compliance.time_sensitive response = true) /\
  (Compliance.approved c = true
   <-> ~ In "prohibited_content" (Compliance.flags c) /\
       ~ In "return_promise" (Compliance.flags c)) /\
  length (Compliance.flags c) = length (Compliance.issues c).
Proof.
  cbv zeta.
  destruct (flag_raised response agent_type) as (H1 & H2 & H3 & H4 & H5).
  split; [exact H1|]. split; [exact H2|]. split; [exact H3|].
  split; [exact H4|]. split; [exact H5|].
  split.
  - rewrite H1, H4, approved_spec. unfold any_phrase, any_pattern.
    rewrite andb_true_iff, !negb_true_iff.
    split; intros [Ha Hb]; split;
      try (now rewrite Ha); try (now rewrite Hb);
      [destruct (existsb _ Compliance.prohibited_content); [now destruct Ha | reflexivity]
      |destruct (existsb _ Compliance.return_promises); [now destruct Hb | reflexivity]].
  - unfold Compliance._run_compliance_checks.
    repeat (apply scan_invariant;
            [intros x c Hc; cbn [Compliance.add_flag Compliance.reject
                                  Compliance.flags Compliance.issues];
             rewrite !length_app, Hc; reflexivity|]).
    reflexivity.
Qed.

(** X6.  The disclaimers of a review are, in this order: the general one,
    the one of the category when the table has it, the advice disclaimer
    when a personalized-advice phrase occurs, the recommendation disclaimer
    when a buy/sell/invest pattern is found, and the "no investment can
    guarantee returns" disclaimer when a return-promise pattern is found. *)
Theorem X6_disclaimers_follow_the_text (response agent_type : string) :
  Compliance._generate_disclaimers agent_type
    (Compliance._run_compliance_checks response agent_type)
  = generic_disclaimers agent_type
    ++ (if any_phrase Compliance.advice_indicators response
        then [advice_disclaimer] else [])
    ++ (if any_pattern Compliance.recommendation_patterns response
        then [recommendation_disclaimer] else [])
    ++ (if any_pattern Compliance.return_promises response
        then [promise_disclaimer] else []).
Proof.
  destruct (flag_raised response agent_type) as (_ & H2 & H3 & H4 & _).
  cbv zeta in H2, H3, H4.
  unfold Compliance._generate_disclaimers, generic_disclaimers.
  set (fl := Compliance.flags _) in *.
  assert (E2 : Compliance.str_in_list "personalized_advice" fl
               = any_phrase Compliance.advice_indicators response).
  { apply eq_true_iff_eq. now rewrite str_in_list_In. }
  assert (E3 : Compliance.str_in_list "investment_recommendation" fl
               = any_pattern Compliance.recommendation_patterns response).
  { apply eq_true_iff_eq. now rewrite str_in_list_In. }
  assert (E4 : Compliance.str_in_list "return_promise" fl
               = any_pattern Compliance.return_promises response).
  { apply eq_true_iff_eq. now rewrite str_in_list_In. }
  rewrite E2, E3, E4. cbn [Compliance.lookup_str Compliance.disclaimers String.eqb].
  destruct (Compliance.lookup_str agent_type Compliance.disclaimers); reflexivity.
Qed.

(** X7.  An ASCII response in which no prohibited phrase and no
    personalized-advice phrase occurs, in any case of letters, comes out of
    the sanitizer unchanged.  (Outside ASCII the case-insensitive match of
    [re.sub] reaches further than [str.lower]: see [Py.eqb_ci].) *)
Theorem X7_sanitizer_leaves_clean_text_alone
    (response : string) (compliance_checks : Compliance.checks) :
  isascii response = true ->
  (forall p, In p Compliance.prohibited_content ->
             Py.contains p (Py.lower response) = false) ->
  (forall a, In a Compliance.advice_indicators ->
             Py.contains a (Py.lower response) = false) ->
  Compliance._sanitize_response response compliance_checks = response.
Proof. intros _. apply sanitize_identity. Qed.

(** The same at a one-sentence answer about stocks. *)
Lemma X7_witness :
  Compliance._sanitize_response clean_response
    (Compliance._run_compliance_checks clean_response "tutor") = clean_response.
Proof.
  apply (X7_sanitizer_leaves_clean_text_alone clean_response
           (Compliance._run_compliance_checks clean_response "tutor")).
  - vm_compute. reflexivity.
  - apply absent_all. vm_compute. reflexivity.
  - apply absent_all. vm_compute. reflexivity.
Defined.

(** X8.  For an ASCII response without any personalized-advice phrase, no
    prohibited phrase is left in the sanitized text, in whatever case of
    letters it was written. *)
Theorem X8_sanitized_text_is_clean_without_advice
    (response agent_type phrase : string) :
  isascii response = true ->
  (forall a, In a Compliance.advice_indicators ->
             Py.contains a (Py.lower response) = false) ->
  In phrase Compliance.prohibited_content ->
  Py.contains phrase (Py.lower (sanitized response agent_type)) = false.
Proof. intros _. apply sanitized_without_advice_is_clean. Qed.

(** The same at a response that shouts "RISK-FREE". *)
Lemma X8_witness :
  Py.contains "risk-free" (Py.lower (sanitized shouting_response "tutor")) = false.
Proof.
  apply (X8_sanitized_text_is_clean_without_advice shouting_response "tutor" "risk-free").
  - vm_compute. reflexivity.
  - apply absent_all. vm_compute. reflexivity.
  - cbn. tauto.
Defined.

(** X9.  The redaction loop of the sanitizer leaves no prohibited phrase,
    in any case of letters, and a second run of it changes nothing. *)
Theorem X9_redaction_is_complete_and_idempotent (response : string) :
  (forall phrase, In phrase Compliance.prohibited_content ->
     Py.contains phrase (Py.lower (Compliance.redact_prohibited response)) = false) /\
  Compliance.redact_prohibited (Compliance.redact_prohibited response)
  = Compliance.redact_prohibited response.
Proof.
  split; [intros phrase; apply redaction_removes_prohibited|].
  apply redact_identity. intros p Hin.
  destruct (prohibited_facts p Hin) as [_ Hl].
  rewrite <- (contains_lower _ _ Hl). now apply redaction_removes_prohibited.
Qed.

(** X10.  [validate_agent_response] raises exactly when the dict holds a
    "response" that is not a string.  Otherwise it returns the dict with
    "response" replaced by the sanitized text, "approved" set to the verdict
    (the same as the one stored under "compliance") and every other key of
    the caller left as it was. *)
Theorem X10_validate_agent_response_frame
    (agent_response : dict) (agent_type : string) :
  (forall v, agent_response !! "response" = Some v ->
             (forall s, v <> VStr s) ->
             Compliance.validate_agent_response agent_response agent_type
             = Raise (AttributeError "object" "lower")) /\
  (forall s, default (VStr "") (agent_response !! "response") = VStr s ->
     exists out meta,
       Compliance.validate_agent_response agent_response agent_type = Ok out /\
       out !! "response" = Some (VStr (sanitized s agent_type)) /\
       out !! "approved"
         = Some (VBool (Compliance.approved
                          (Compliance._run_compliance_checks s agent_type))) /\
       out !! "compliance" = Some (VDict meta) /\
       meta !! "approved" = out !! "approved" /\
       forall key, key <> "response" -> key <> "compliance" -> key <> "approved" ->
                   out !! key = agent_response !! key).
Proof.
  unfold Compliance.validate_agent_response. split.
  - intros v Hv Hns. rewrite Hv. cbn [default].
    destruct v; try reflexivity. now destruct (Hns s).
  - intros s Hs. rewrite Hs.
    cbn [Compliance.as_str mbind result_bind bind mret result_ret].
    eexists _, _. split; [reflexivity|].
    split; [now rewrite !lookup_insert_ne, lookup_insert_eq by discriminate|].
    split; [now rewrite lookup_insert_eq|].
    split; [now rewrite lookup_insert_ne, lookup_insert_eq by discriminate|].
    split; [now rewrite !lookup_insert_ne, !lookup_insert_eq by discriminate|].
    intros key H1 H2 H3. now rewrite !lookup_insert_ne by congruence.
Qed.

(** X11.  [ComplianceAgent.process] and [validate_agent_response] are one
    review: for the text under [state.analysis["response"]] and the category
    of the current agent ("general" without one) they return the same
    sanitized response and the same verdict, and the flags that [process]
    returns are those of that review. *)
Theorem X11_process_agrees_with_validate
    (state : Orchestrator.AgentState) (response : string) :
  default (VStr "") (Orchestrator.analysis state !! "response") = VStr response ->
  let agent_type :=
    match Orchestrator.current_agent state with
    | Some a => Orchestrator.agent_value a
    | None => "general"
    end in
  exists out out',
    ComplianceAgent.process state = Ok out /\
    Compliance.validate_agent_response (<["response" := VStr response]> ∅) agent_type
      = Ok out' /\
    out !! "response" = out' !! "response" /\
    out !! "approved" = out' !! "approved" /\
    out !! "response" = Some (VStr (sanitized response agent_type)) /\
    out !! "flags"
      = Some (Compliance.VStrs
                (Compliance.flags (Compliance._run_compliance_checks response agent_type))).
Proof.
  intros Hr. cbv zeta.
  unfold ComplianceAgent.process, Compliance.validate_agent_response.
  rewrite Hr, lookup_insert_eq.
  cbn [default Compliance.as_str mbind result_bind bind mret result_ret].
  eexists _, _. split; [reflexivity|]. split; [reflexivity|].
  rewrite !lookup_insert_eq.
  rewrite !lookup_insert_ne by discriminate. rewrite !lookup_insert_eq.
  repeat split; reflexivity.
Qed.

(** The same for a state whose analysis holds the "RISK-FREE" response and
    whose current agent is the portfolio analyst. *)
Lemma X11_witness :
  exists out out',
    ComplianceAgent.process review_state = Ok out /\
    Compliance.validate_agent_response
      (<["response" := VStr shouting_response]> ∅) "portfolio" = Ok out' /\
    out !! "response" = out' !! "response" /\
    out !! "approved" = out' !! "approved" /\
    out !! "response" = Some (VStr (sanitized shouting_response "portfolio")) /\
    out !! "flags"
      = Some (Compliance.VStrs
                (Compliance.flags
                   (Compliance._run_compliance_checks shouting_response "portfolio"))).
Proof.
  apply (X11_process_agrees_with_validate review_state shouting_response).
  reflexivity.
Defined.

(** X12.  The review does not see the case of letters nor the category: a
    response and its lower-cased form get the same verdict, flags and
    issues, for any two agent types. *)
Theorem X12_review_ignores_case_and_category
    (response agent_type agent_type' : string) :
  Compliance._run_compliance_checks response agent_type
  = Compliance._run_compliance_checks (Py.lower response) agent_type'.
Proof.
  unfold Compliance._run_compliance_checks. rewrite lower_idem. reflexivity.
Qed.

(** X9 at a response with two prohibited phrases, for the phrase
    "safe bet". *)
Lemma X9_witness :
  Py.contains "safe bet"
    (Py.lower (Compliance.redact_prohibited shouting_response)) = false.
Proof.
  apply (proj1 (X9_redaction_is_complete_and_idempotent shouting_response) "safe bet").
  cbn. tauto.
Defined.

(** X10 at a dict whose response is [None], and at a dict that holds a
    response and one more key. *)
Lemma X10_witness :
  Compliance.validate_agent_response (<["response" := VNone]> ∅) "tutor"
    = Raise (AttributeError "object" "lower") /\
  exists out meta,
    Compliance.validate_agent_response
      (<["response" := VStr shouting_response]> (<["sources" := VList []]> ∅)) "tutor"
      = Ok out /\
    out !! "response" = Some (VStr (sanitized shouting_response "tutor")) /\
    out !! "approved"
      = Some (VBool (Compliance.approved
                       (Compliance._run_compliance_checks shouting_response "tutor"))) /\
    out !! "compliance" = Some (VDict meta) /\
    meta !! "approved" = out !! "approved" /\
    forall key, key <> "response" -> key <> "compliance" -> key <> "approved" ->
                out !! key
                = (<["response" := VStr shouting_response]>
                     (<["sources" := VList []]> ∅) : dict) !! key.
Proof.
  split.
  - apply (proj1 (X10_validate_agent_response_frame
                    (<["response" := VNone]> ∅) "tutor") VNone).
    + reflexivity.
    + intros s. discriminate.
  - apply (proj2 (X10_validate_agent_response_frame
                    (<["response" := VStr shouting_response]>
                       (<["sources" := VList []]> ∅)) "tutor") shouting_response).
    reflexivity.
Defined.

(** ** Weights and concentration *)

Section WeightFacts.

Import Portfolio.
Local Open Scope Q_scope.

Lemma Qsquare_nonneg (x : Q) : 0 <= x * x.
Proof. unfold Qle, Qmult. cbn. nia. Qed.

Lemma Qsum_map_ext {A : Type} (f g : A -> Q) (l : list A) :
  (forall x, In x l -> f x == g x) -> Qsum (map f l) == Qsum (map g l).
Proof.
  induction l as [|x l IH]; intros H; [reflexivity|].
  cbn [map]. rewrite !Qsum_cons, (H x (or_introl eq_refl)), IH; [reflexivity|].
  intros y Hy. apply H. now right.
Qed.

Lemma Qsum_map_plus {A : Type} (f g : A -> Q) (l : list A) :
  Qsum (map (fun x => f x + g x) l) == Qsum (map f l) + Qsum (map g l).
Proof.
  induction l as [|x l IH]; [reflexivity|].
  cbn [map]. rewrite !Qsum_cons, IH. ring.
Qed.

Lemma Qsum_map_scale {A : Type} (c : Q) (f : A -> Q) (l : list A) :
  Qsum (map (fun x => c * f x) l) == c * Qsum (map f l).
Proof.
  induction l as [|x l IH]; [cbn; ring|].
  cbn [map]. rewrite !Qsum_cons, IH. ring.
Qed.

Lemma Qsum_map_le {A : Type} (f g : A -> Q) (l : list A) :
  (forall x, In x l -> f x <= g x) -> Qsum (map f l) <= Qsum (map g l).
Proof.
  induction l as [|x l IH]; intros H; [apply Qle_refl|].
  cbn [map]. rewrite !Qsum_cons. apply Qplus_le_compat.
  - apply H. now left.
  - apply IH. intros y Hy. apply H. now right.
Qed.

Lemma Qsum_map_nonneg {A : Type} (f : A -> Q) (l : list A) :
  (forall x, In x l -> 0 <= f x) -> 0 <= Qsum (map f l).
Proof.
  intros H. induction l as [|x l IH]; [apply Qle_refl|].
  cbn [map]. rewrite Qsum_cons.
  apply (Qle_trans _ (0 + 0)); [discriminate|]. apply Qplus_le_compat.
  - apply H. now left.
  - apply IH. intros y Hy. apply H. now right.
Qed.

Lemma Qsum_map_elem_le {A : Type} (f : A -> Q) (l : list A) (x : A) :
  (forall y, In y l -> 0 <= f y) -> In x l -> f x <= Qsum (map f l).
Proof.
  induction l as [|y l IH]; intros H Hx; [destruct Hx|].
  cbn [map]. rewrite Qsum_cons. destruct Hx as [->|Hx].
  - apply (Qle_trans _ (f x + 0)); [rewrite Qplus_0_r; apply Qle_refl|].
    apply Qplus_le_compat; [apply Qle_refl|].
    apply Qsum_map_nonneg. intros z Hz. apply H. now right.
  - apply (Qle_trans _ (0 + f x)); [rewrite Qplus_0_l; apply Qle_refl|].
    apply Qplus_le_compat; [apply H; now left|].
    apply IH; [|exact Hx]. intros z Hz. apply H. now right.
Qed.

(** The weights of a portfolio of non-zero total value add up to 1. *)
Lemma weights_sum_one (df : DataFrame) :
  ~ cost_value_sum df == 0 -> Qsum (map (weight_of df) df) == 1.
Proof.
  intros Hnz. unfold weight_of.
  pose proof (Qsum_map_ext (fun h => holding_value h / cost_value_sum df)
                (fun h => / cost_value_sum df * holding_value h) df
                ltac:(intros h _; cbv beta; unfold Qdiv; ring)) as E0.
  pose proof (Qsum_map_scale (/ cost_value_sum df) holding_value df) as E1.
  rewrite E0, E1. fold (cost_value_sum df). field. exact Hnz.
Qed.

Lemma hhi_le_one (df : DataFrame) :
  (forall h, In h df -> 0 <= holding_value h) ->
  0 < cost_value_sum df ->
  sum_squared_weights df <= 1.
Proof.
  intros Hnn Hpos.
  assert (Hnz : ~ cost_value_sum df == 0).
  { intros E. rewrite E in Hpos. now apply Qlt_irrefl in Hpos. }
  rewrite <- (weights_sum_one df Hnz). unfold sum_squared_weights.
  apply Qsum_map_le. intros h Hh.
  assert (Hw0 : 0 <= weight_of df h).
  { unfold weight_of. apply Qle_shift_div_l; [exact Hpos|].
    rewrite Qmult_0_l. now apply Hnn. }
  assert (Hw1 : weight_of df h <= 1).
  { unfold weight_of. apply Qle_shift_div_r; [exact Hpos|].
    rewrite Qmult_1_l. unfold cost_value_sum.
    now apply (Qsum_map_elem_le holding_value df h). }
  apply (Qle_trans _ (weight_of df h * 1));
    [| rewrite Qmult_1_r; apply Qle_refl].
  apply Qmult_le_compat_nonneg; split;
    [exact Hw0 | apply Qle_refl | exact Hw0 | exact Hw1].
Qed.

Lemma hhi_ge_inverse_count (df : DataFrame) :
  df <> [] -> ~ cost_value_sum df == 0 ->
  1 / inject_Z (Z.of_nat (length df)) <= sum_squared_weights df.
Proof.
  intros Hne Hnz.
  pose proof (length_pos_Q df Hne) as Hn.
  set (n := inject_Z (Z.of_nat (length df))) in *.
  assert (Hsq : 0 <= Qsum (map (fun h => (weight_of df h - 1 / n)
                                         * (weight_of df h - 1 / n)) df)).
  { apply Qsum_map_nonneg. intros h _.
    apply Qsquare_nonneg. }
  assert (E : Qsum (map (fun h => (weight_of df h - 1 / n)
                                  * (weight_of df h - 1 / n)) df)
               == sum_squared_weights df
                  + (- (2 / n) * 1 + n * (1 / n * (1 / n)))).
  { pose proof (Qsum_map_ext
                  (fun h => (weight_of df h - 1 / n) * (weight_of df h - 1 / n))
                  (fun h => weight_of df h * weight_of df h
                            + ((- (2 / n)) * weight_of df h + (1 / n) * (1 / n)))
                  df ltac:(intros h _; cbv beta; unfold Qdiv; ring)) as E0.
    pose proof (Qsum_map_plus (fun h => weight_of df h * weight_of df h)
                  (fun h => (- (2 / n)) * weight_of df h + (1 / n) * (1 / n)) df)
      as E1.
    pose proof (Qsum_map_plus (fun h => (- (2 / n)) * weight_of df h)
                  (fun _ => (1 / n) * (1 / n)) df) as E2.
    pose proof (Qsum_map_scale (- (2 / n)) (weight_of df) df) as E3.
    pose proof (weights_sum_one df Hnz) as E4.
    pose proof (Qsum_const (fun _ : holding => 1 / n * (1 / n)) (1 / n * (1 / n)) df
                  ltac:(intros; reflexivity)) as E5.
    fold n in E5. cbv beta in *.
    rewrite E0, E1, E2, E3, E4, E5. reflexivity. }
  rewrite E in Hsq.
  apply (Qplus_le_l _ _ (- (1 / n))).
  assert (E1 : 1 / n + - (1 / n) == 0) by (unfold Qdiv; ring).
  assert (E2 : sum_squared_weights df + - (1 / n)
               == sum_squared_weights df + (- (2 / n) * 1 + n * (1 / n * (1 / n))))
    by (field; exact Hn).
  rewrite E1, E2. exact Hsq.
Qed.

End WeightFacts.

(** ** The graph *)

Section GraphFacts.

Import Workflow.

Variable tutor_process portfolio_process market_process
  : Orchestrator.AgentState -> result dict.
Variable repr : value -> string.

Lemma router_node_spec (st : FinnieState) :
  exists a i c,
    _router_node st = set_route (Some a) (Some i) c st /\
    (0 <= c)%Q /\
    ((Py.split (Py.lower (query st)) = [] /\
      a = "tutor" /\ i = "general" /\ c = 0%Q) \/
     (Py.split (Py.lower (query st)) <> [] /\ a = i /\
      In a ["tutor"; "portfolio"; "market"; "onboarding"])).
Proof.
  unfold _router_node.
  destruct (Py.split (Py.lower (query st))) as [|w ws] eqn:Hw.
  - assert (Hr : exists e, Orchestrator.route_query (agent_state_of st) = Raise e).
    { unfold Orchestrator.route_query.
      destruct (Orchestrator.compute_scores _) as [|first others] eqn:Hs;
        [discriminate Hs|].
      destruct (Orchestrator.max_go first others) as [best n].
      cbn [agent_state_of Orchestrator.query]. rewrite Hw.
      eexists. reflexivity. }
    destruct Hr as [e Hr]. rewrite Hr.
    exists "tutor", "general", 0%Q. split; [reflexivity|].
    split; [discriminate|]. left. auto.
  - destruct (route_query_total (agent_state_of st)) as (a & c & Hr).
    { cbn [agent_state_of Orchestrator.query]. rewrite Hw. discriminate. }
    pose proof Hr as Hr'.
    apply route_query_ok_inv in Hr' as (first & others & n & w' & _ & _ & _ & _ & Hst).
    rewrite Hr.
    cbn [mbind mret result_bind result_ret bind recover
           Orchestrator.set_routing Orchestrator.intent Orchestrator.confidence].
    exists (Orchestrator.agent_value a), (Orchestrator.agent_value a), c.
    split; [reflexivity|].
    split.
    { apply (f_equal Orchestrator.confidence) in Hst.
      cbn [Orchestrator.set_routing Orchestrator.confidence] in Hst.
      rewrite Hst. unfold Qle. cbn. lia. }
    right. split; [discriminate|]. split; [reflexivity|].
    assert (Ha : a <> Orchestrator.COMPLIANCE).
    { intros ->. unfold Orchestrator.route_query in Hr.
      destruct (Orchestrator.compute_scores _) as [|first' others'] eqn:Hs;
        [discriminate Hs|].
      destruct (max_go_spec others' [] [] first') as (before & after & Heq & _);
        [intros x [] | intros x [] |].
      cbn [app] in Heq.
      assert (Hin : In (fst (Orchestrator.max_go first' others'))
                       (map fst (Orchestrator.compute_scores
                                   (Py.lower (Orchestrator.query (agent_state_of st)))))).
      { rewrite Hs, Heq, map_app. apply in_or_app. right. now left. }
      destruct (Orchestrator.max_go first' others') as [best k].
      destruct (Py.split _); [discriminate Hr|].
      cbn [mbind mret result_bind result_ret bind] in Hr.
      injection Hr as Hb _. subst best.
      unfold Orchestrator.compute_scores in Hin. cbn in Hin.
      intuition discriminate. }
    destruct a; cbn; auto 6; contradiction.
Qed.

(** The three responder nodes leave the routing fields alone. *)
Lemma run_node_keeps_route (n : node) (st : FinnieState) :
  let s2 := (run_node tutor_process portfolio_process market_process n st).1 in
  current_agent s2 = current_agent st /\
  intent s2 = intent st /\
  confidence s2 = confidence st.
Proof.
  cbv zeta.
  destruct n; cbn [run_node]; unfold _tutor_node, _portfolio_node, _market_node;
    (destruct (negb _); cbn [fst]; [auto|]).
  - destruct (tutor_process _) as [r|e]; cbn; [destruct (getitem r "response")|];
      cbn; auto.
  - destruct (portfolio_process _) as [r|e]; cbn; [destruct (getitem r "response")|];
      cbn; auto.
  - destruct (market_process _) as [r|e]; cbn; [destruct (getitem r "response")|];
      cbn; auto.
Qed.

(** What a responder node stores, case by case. *)
Lemma run_node_spec (n : node) (st : FinnieState) :
  current_agent st = Some (node_name n) ->
  let process := node_process tutor_process portfolio_process market_process n in
  let s2 := (run_node tutor_process portfolio_process market_process n st).1 in
  match process (agent_state_of st) with
  | Ok reply =>
      match reply !! "response" with
      | Some r =>
          analysis s2 !! "response" = Some r /\
          sources s2 = get reply "sources" (VList [])
      | None =>
          analysis s2 !! "response" = Some (VStr (node_apology n)) /\
          sources s2 = VList []
      end
  | Raise _ =>
      analysis s2 !! "response" = Some (VStr (node_apology n)) /\
      sources s2 = VList []
  end.
Proof.
  intros Hc. cbv zeta.
  destruct n; cbn [run_node node_process node_apology node_name] in *;
    unfold _tutor_node, _portfolio_node, _market_node; rewrite Hc;
    cbn [bool_decide negb fst].
  - rewrite bool_decide_eq_true_2 by reflexivity. cbn [negb fst].
    destruct (tutor_process _) as [reply|e]; cbn [mbind result_bind bind recover].
    + unfold getitem. destruct (reply !! "response") as [r|] eqn:Hr;
        cbn [mbind mret result_bind result_ret bind recover].
      * split; [|reflexivity].
        cbn [set_analysis_item set_analysis set_sources analysis].
        rewrite !lookup_insert_ne by discriminate. apply lookup_insert_eq.
      * split; [apply lookup_insert_eq | reflexivity].
    + split; [apply lookup_insert_eq | reflexivity].
  - rewrite bool_decide_eq_true_2 by reflexivity. cbn [negb fst].
    destruct (portfolio_process _) as [reply|e]; cbn [mbind result_bind bind recover].
    + unfold getitem. destruct (reply !! "response") as [r|] eqn:Hr;
        cbn [mbind mret result_bind result_ret bind recover].
      * split; [|reflexivity].
        cbn [set_analysis_item set_analysis set_sources analysis].
        rewrite !lookup_insert_ne by discriminate. apply lookup_insert_eq.
      * split; [apply lookup_insert_eq | reflexivity].
    + split; [apply lookup_insert_eq | reflexivity].
  - rewrite bool_decide_eq_true_2 by reflexivity. cbn [negb fst].
    destruct (market_process _) as [reply|e]; cbn [mbind result_bind bind recover].
    + unfold getitem. destruct (reply !! "response") as [r|] eqn:Hr;
        cbn [mbind mret result_bind result_ret bind recover].
      * split; [|reflexivity].
        cbn [set_analysis_item set_analysis set_sources set_market analysis].
        rewrite !lookup_insert_ne by discriminate. apply lookup_insert_eq.
      * split; [apply lookup_insert_eq | reflexivity].
    + split; [apply lookup_insert_eq | reflexivity].
Qed.

Lemma append_assoc (a b c : string) :
  ((a ++ b) ++ c)%string = (a ++ (b ++ c))%string.
Proof.
  induction a as [|x a IH]; [reflexivity|].
  rewrite !append_cons, IH. reflexivity.
Qed.

Lemma fold_bullets (xs : list string) (init : string) :
  fold_left (fun acc x => (acc ++ bullet_line repr x)%string) (map VStr xs) init
  = (init ++ bullets xs)%string.
Proof.
  revert init. induction xs as [|x xs IH]; intros init; cbn [map fold_left bullets fold_right].
  - induction init as [|c init IHi]; [reflexivity|].
    rewrite append_cons. now rewrite <- IHi.
  - rewrite IH. unfold bullet_line. rewrite !append_assoc. reflexivity.
Qed.

(** The review of a textual reply. *)
Lemma compliance_node_text (st : FinnieState) (text : string) :
  get (analysis st) "response" (VStr "") = VStr text ->
  exists meta : dict,
    _compliance_node st
    = set_compliance (VDict meta)
        (VBool (Compliance.approved
                  (Compliance._run_compliance_checks text (agent_type_of st))))
        (set_analysis_item "response"
           (VStr (Compliance._sanitize_response text
                    (Compliance._run_compliance_checks text (agent_type_of st))))
           st) /\
    meta !! "disclaimers"
      = Some (Compliance.VStrs
                (Compliance._generate_disclaimers (agent_type_of st)
                   (Compliance._run_compliance_checks text (agent_type_of st)))) /\
    meta !! "risk_warnings"
      = Some (Compliance.VStrs (Compliance._get_risk_warnings (agent_type_of st))).
Proof.
  intros Hr. unfold _compliance_node. rewrite Hr.
  fold (agent_type_of st).
  unfold Compliance.validate_agent_response.
  rewrite lookup_singleton_eq.
  cbn [default id Compliance.as_str mbind mret result_bind result_ret bind].
  unfold getitem.
  rewrite (lookup_insert_ne _ "approved" "compliance") by discriminate.
  rewrite (lookup_insert_eq _ "compliance").
  cbn [mbind mret result_bind result_ret bind].
  rewrite (lookup_insert_ne _ "approved" "response") by discriminate.
  rewrite (lookup_insert_ne _ "compliance" "response") by discriminate.
  rewrite (lookup_insert_eq _ "response").
  cbn [mbind mret result_bind result_ret bind].
  rewrite (lookup_insert_eq _ "approved").
  cbn [mbind mret result_bind result_ret bind recover].
  eexists. split; [reflexivity|].
  split; [apply lookup_insert_eq|].
  rewrite lookup_insert_ne by discriminate. apply lookup_insert_eq.
Qed.

(** The review of a reply that is not a string fails inside the node. *)
Lemma compliance_node_other (st : FinnieState) :
  (forall text, get (analysis st) "response" (VStr "") <> VStr text) ->
  exists meta : dict,
    _compliance_node st = set_compliance (VDict meta) (VBool false) st /\
    meta !! "disclaimers"
      = Some (VList [VStr "This response has not been compliance reviewed."]) /\
    meta !! "risk_warnings"
      = Some (VList [VStr "Please consult with a financial advisor before making investment decisions."]).
Proof.
  intros Hr. unfold _compliance_node.
  unfold Compliance.validate_agent_response. rewrite lookup_singleton_eq.
  cbn [default id].
  destruct (get (analysis st) "response" (VStr "")) as [| | |text| |] eqn:E;
    try (cbn [Compliance.as_str mbind mret result_bind result_ret bind recover];
         eexists; split; [reflexivity|];
         split; [apply lookup_insert_eq|];
         rewrite lookup_insert_ne by discriminate; apply lookup_insert_eq).
  now destruct (Hr text).
Qed.

(** The formatter on a textual reply with both lists present. *)
Lemma responder_node_text (st : FinnieState) (meta : dict) (text : string)
    (ds ws : list string) :
  compliance st = VDict meta ->
  get (analysis st) "response" (VStr "") = VStr text ->
  meta !! "disclaimers" = Some (Compliance.VStrs ds) -> ds <> [] ->
  meta !! "risk_warnings" = Some (Compliance.VStrs ws) -> ws <> [] ->
  _responder_node repr st
  = set_response
      ((((text ++ disclaimers_heading) ++ bullets ds) ++ warnings_heading)
       ++ bullets ws)%string st.
Proof.
  intros Hc Hr Hd Hdne Hw Hwne.
  unfold _responder_node, append_block. rewrite Hc, Hr.
  assert (Gd : get meta "disclaimers" VNone = Compliance.VStrs ds)
    by (unfold get; rewrite Hd; reflexivity).
  assert (Gw : get meta "risk_warnings" VNone = Compliance.VStrs ws)
    by (unfold get; rewrite Hw; reflexivity).
  cbn [dict_get mbind mret result_bind result_ret bind].
  rewrite Gd, Gw.
  destruct ds as [|d ds]; [contradiction|].
  destruct ws as [|w ws]; [contradiction|].
  cbn [Compliance.VStrs map truthy as_text iterate mbind mret result_bind result_ret bind
       recover].
  change (VStr d :: map VStr ds) with (map VStr (d :: ds)).
  change (VStr w :: map VStr ws) with (map VStr (w :: ws)).
  rewrite !fold_bullets. reflexivity.
Qed.

(** The formatter on a reply that is not a string. *)
Lemma responder_node_other (st : FinnieState) (meta : dict) (d : value) (ds : list value) :
  compliance st = VDict meta ->
  (forall text, get (analysis st) "response" (VStr "") <> VStr text) ->
  meta !! "disclaimers" = Some (VList (d :: ds)) ->
  _responder_node repr st = set_response format_apology st.
Proof.
  intros Hc Hr Hd.
  assert (Gd : get meta "disclaimers" VNone = VList (d :: ds))
    by (unfold get; rewrite Hd; reflexivity).
  unfold _responder_node, append_block. rewrite Hc.
  cbn [dict_get mbind mret result_bind result_ret bind].
  rewrite Gd. cbn [truthy].
  destruct (get (analysis st) "response" (VStr "")) as [| | |text| |] eqn:E;
    try reflexivity.
  now destruct (Hr text).
Qed.

Lemma risk_warnings_nonempty (agent_type : string) :
  Compliance._get_risk_warnings agent_type <> [].
Proof. unfold Compliance._get_risk_warnings, Compliance.risk_warnings. discriminate. Qed.

Lemma disclaimers_nonempty (agent_type : string) (c : Compliance.checks) :
  Compliance._generate_disclaimers agent_type c <> [].
Proof.
  destruct (disclaimers_start_general agent_type c) as [rest ->]. discriminate.
Qed.

(** Review and formatting of a textual reply, one after the other. *)
Lemma review_and_format_text (st : FinnieState) (text : string) :
  get (analysis st) "response" (VStr "") = VStr text ->
  let reviewed := _compliance_node st in
  let out := _responder_node repr reviewed in
  response out = formatted_reply text (agent_type_of st) /\
  approved out
    = VBool (Compliance.approved
               (Compliance._run_compliance_checks text (agent_type_of st))) /\
  analysis out !! "response"
    = Some (VStr (Compliance._sanitize_response text
                    (Compliance._run_compliance_checks text (agent_type_of st)))) /\
  sources out = sources st /\
  current_agent out = current_agent st /\
  intent out = intent st /\
  confidence out = confidence st.
Proof.
  intros Hr. cbv zeta.
  destruct (compliance_node_text st text Hr) as (meta & -> & Hd & Hw).
  rewrite (responder_node_text _ meta
             (Compliance._sanitize_response text
                (Compliance._run_compliance_checks text (agent_type_of st)))
             (Compliance._generate_disclaimers (agent_type_of st)
                (Compliance._run_compliance_checks text (agent_type_of st)))
             (Compliance._get_risk_warnings (agent_type_of st))).
  - cbn [set_response set_compliance set_analysis_item set_analysis response approved
         analysis sources current_agent intent confidence].
    split; [reflexivity|]. split; [reflexivity|].
    split; [apply lookup_insert_eq|]. repeat split; reflexivity.
  - reflexivity.
  - cbn [set_compliance set_analysis_item set_analysis analysis].
    unfold get. rewrite lookup_insert_eq. reflexivity.
  - exact Hd.
  - apply disclaimers_nonempty.
  - exact Hw.
  - apply risk_warnings_nonempty.
Qed.

(** Review and formatting of a reply that is not a string. *)
Lemma review_and_format_other (st : FinnieState) :
  (forall text, get (analysis st) "response" (VStr "") <> VStr text) ->
  let reviewed := _compliance_node st in
  let out := _responder_node repr reviewed in
  response out = format_apology /\
  approved out = VBool false /\
  analysis out = analysis st /\
  sources out = sources st /\
  current_agent out = current_agent st /\
  intent out = intent st /\
  confidence out = confidence st.
Proof.
  intros Hr. cbv zeta.
  destruct (compliance_node_other st Hr) as (meta & -> & Hd & Hw).
  rewrite (responder_node_other (set_compliance (VDict meta) (VBool false) st)
             meta _ _ eq_refl Hr Hd).
  repeat split; reflexivity.
Qed.

(** The graph run once the conditional edge has found a node. *)
Lemma graph_invoke_dispatched (init : FinnieState) (n : node) :
  dispatch (_router_node init) = Ok n ->
  graph_invoke tutor_process portfolio_process market_process repr init
  = (Ok (_responder_node repr
           (_compliance_node
              (run_node tutor_process portfolio_process market_process n
                 (_router_node init)).1)),
     [node_responder n]).
Proof.
  intros Hd. unfold graph_invoke. rewrite Hd.
  pose proof (one_responder_when_dispatched tutor_process portfolio_process
                market_process _ _ Hd) as H1.
  destruct (run_node _ _ _ n _) as [s2 log]. cbn [fst snd] in *.
  rewrite H1. destruct n; reflexivity.
Qed.

Lemma dispatch_by_name (st : FinnieState) (n : node) :
  current_agent st = Some (node_name n) -> dispatch st = Ok n.
Proof.
  intros Hc. unfold dispatch, _route_to_agent. rewrite Hc. now destruct n.
Qed.

Lemma review_and_format_keeps (st : FinnieState) :
  let out := _responder_node repr (_compliance_node st) in
  sources out = sources st /\
  current_agent out = current_agent st /\
  intent out = intent st /\
  confidence out = confidence st.
Proof.
  cbv zeta.
  destruct (get (analysis st) "response" (VStr "")) as [| | |text| |] eqn:E.
  all: try (assert (Hr : forall text, get (analysis st) "response" (VStr "") <> VStr text)
              by (intros text; rewrite E; discriminate);
            destruct (review_and_format_other st Hr) as (_ & _ & _ & H);
            exact H).
  destruct (review_and_format_text st text E) as (_ & _ & _ & H). exact H.
Qed.

Lemma process_query_dispatched (user_id query : string) (context : option dict)
    (n : node) :
  dispatch (_router_node (initial_state user_id query context)) = Ok n ->
  process_query tutor_process portfolio_process market_process repr
    user_id query context
  = Ok (payload_of
          (_responder_node repr
             (_compliance_node
                (run_node tutor_process portfolio_process market_process n
                   (_router_node (initial_state user_id query context))).1))) /\
  executed_responders tutor_process portfolio_process market_process repr
    user_id query context = [node_responder n].
Proof.
  intros Hd. unfold process_query, executed_responders.
  rewrite (graph_invoke_dispatched _ _ Hd). split; reflexivity.
Qed.

Lemma payload_lookups (out : FinnieState) :
  payload_of out !! "response" = Some (VStr (response out)) /\
  payload_of out !! "sources" = Some (sources out) /\
  payload_of out !! "agent" = Some (opt_str (current_agent out)) /\
  payload_of out !! "intent" = Some (opt_str (intent out)) /\
  payload_of out !! "confidence" = Some (VNum (confidence out)) /\
  payload_of out !! "approved" = Some (approved out).
Proof.
  unfold payload_of.
  repeat split; rewrite ?lookup_insert_ne by discriminate; apply lookup_insert_eq.
Qed.

Lemma agent_type_of_node (st : FinnieState) (n : node) :
  current_agent st = Some (node_name n) -> agent_type_of st = node_name n.
Proof. intros Hc. unfold agent_type_of. rewrite Hc. now destruct n. Qed.

End GraphFacts.

(** X15.  [_router_node] changes nothing but the three routing fields and
    never raises.  For a query without a word the division by zero of the
    router is absorbed: the node selects "tutor" with intent "general" and
    confidence 0.  For every other query agent and intent are the same
    name, one of "tutor", "portfolio", "market" and "onboarding", and the
    confidence is not negative. *)
Theorem X15_router_node_sets_only_the_route (st : Workflow.FinnieState) :
  exists a i c,
    Workflow._router_node st = Workflow.set_route (Some a) (Some i) c st /\
    (0 <= c)%Q /\
    ((Py.split (Py.lower (Workflow.query st)) = [] /\
      a = "tutor" /\ i = "general" /\ c = 0%Q) \/
     (Py.split (Py.lower (Workflow.query st)) <> [] /\ a = i /\
      In a ["tutor"; "portfolio"; "market"; "onboarding"])).
Proof. exact (router_node_spec st). Qed.

(** X16.  Every call of [process_query] goes one of two ways.  Either the
    router selected "onboarding": then no responder body runs and the
    caller gets the fallback payload.  Or the router selected one of the
    three responders: then the body of exactly that responder runs, and the
    payload carries its name as "agent" together with the intent and the
    confidence that the router stored. *)
Theorem X16_one_responder_or_fallback
    (tutor_process portfolio_process market_process
       : Orchestrator.AgentState -> result dict)
    (repr : value -> string) (user_id query : string) (context : option dict) :
  let st := Workflow._router_node (Workflow.initial_state user_id query context) in
  (Workflow.current_agent st = Some "onboarding" /\
   Workflow.executed_responders tutor_process portfolio_process market_process
     repr user_id query context = [] /\
   Workflow.process_query tutor_process portfolio_process market_process
     repr user_id query context = Ok Workflow.error_payload) \/
  (exists n payload,
     Workflow.current_agent st = Some (node_name n) /\
     Workflow.executed_responders tutor_process portfolio_process market_process
       repr user_id query context = [node_responder n] /\
     Workflow.process_query tutor_process portfolio_process market_process
       repr user_id query context = Ok payload /\
     payload !! "agent" = Some (VStr (node_name n)) /\
     payload !! "intent" = Some (Workflow.opt_str (Workflow.intent st)) /\
     payload !! "confidence" = Some (VNum (Workflow.confidence st))).
Proof.
  cbv zeta.
  destruct (router_node_spec (Workflow.initial_state user_id query context))
    as (a & i & c & Heq & _ & Hcase).
  assert (Hcur : Workflow.current_agent
                   (Workflow._router_node (Workflow.initial_state user_id query context))
                 = Some a) by (rewrite Heq; reflexivity).
  assert (Ha : a = "onboarding" \/ exists n, a = node_name n).
  { destruct Hcase as [(_ & -> & _)|(_ & _ & Hin)].
    - right. now exists Workflow.NTutor.
    - cbn in Hin. destruct Hin as [<-|[<-|[<-|[<-|[]]]]].
      + right. now exists Workflow.NTutor.
      + right. now exists Workflow.NPortfolio.
      + right. now exists Workflow.NMarket.
      + now left. }
  destruct Ha as [->|[n ->]].
  - left. split; [exact Hcur|].
    assert (Hd : Workflow.dispatch
                   (Workflow._router_node (Workflow.initial_state user_id query context))
                 = Raise (KeyError "onboarding")).
    { unfold Workflow.dispatch, Workflow._route_to_agent. rewrite Hcur. reflexivity. }
    unfold Workflow.process_query, Workflow.executed_responders, Workflow.graph_invoke.
    rewrite Hd. split; reflexivity.
  - right. exists n.
    pose proof (dispatch_by_name _ n Hcur) as Hd.
    destruct (process_query_dispatched tutor_process portfolio_process market_process
                repr user_id query context n Hd) as [Hp He].
    eexists. split; [exact Hcur|]. split; [exact He|]. split; [exact Hp|].
    destruct (payload_lookups
                (Workflow._responder_node repr
                   (Workflow._compliance_node
                      (Workflow.run_node tutor_process portfolio_process market_process n
                         (Workflow._router_node
                            (Workflow.initial_state user_id query context))).1)))
      as (_ & _ & Hag & Hin & Hco & _).
    destruct (review_and_format_keeps repr
                (Workflow.run_node tutor_process portfolio_process market_process n
                   (Workflow._router_node
                      (Workflow.initial_state user_id query context))).1)
      as (_ & Kc & Ki & Kq).
    destruct (run_node_keeps_route tutor_process portfolio_process market_process n
                (Workflow._router_node (Workflow.initial_state user_id query context)))
      as (Nc & Ni & Nq).
    rewrite Hag, Hin, Hco, Kc, Ki, Kq, Nc, Ni, Nq, Hcur. repeat split; reflexivity.
Qed.

(** X17.  When the reply stored by a responder node is a string, the
    compliance node followed by the formatter ends with the sanitized
    text, the disclaimers block and the risk-warnings block, in this order;
    both blocks are always there.  The stored reply becomes the sanitized
    text, the verdict is the one of the review of the original text, and
    the sources and the routing fields stay as they were. *)
Theorem X17_review_then_format
    (repr : value -> string) (st : Workflow.FinnieState) (text : string) :
  Workflow.get (Workflow.analysis st) "response" (VStr "") = VStr text ->
  let out := Workflow._responder_node repr (Workflow._compliance_node st) in
  Workflow.response out = formatted_reply text (agent_type_of st) /\
  Workflow.approved out
    = VBool (Compliance.approved
               (Compliance._run_compliance_checks text (agent_type_of st))) /\
  Workflow.analysis out !! "response"
    = Some (VStr (Compliance._sanitize_response text
                    (Compliance._run_compliance_checks text (agent_type_of st)))) /\
  Workflow.sources out = Workflow.sources st /\
  Workflow.current_agent out = Workflow.current_agent st /\
  Workflow.intent out = Workflow.intent st /\
  Workflow.confidence out = Workflow.confidence st.
Proof. exact (review_and_format_text repr st text). Qed.

(** The same for a portfolio reply that promises guaranteed returns. *)
Lemma X17_witness :
  let st := answered_state (VStr "This fund has guaranteed returns.") in
  let text := "This fund has guaranteed returns."%string in
  let out := Workflow._responder_node toy_repr (Workflow._compliance_node st) in
  Workflow.response out = formatted_reply text (agent_type_of st) /\
  Workflow.approved out
    = VBool (Compliance.approved
               (Compliance._run_compliance_checks text (agent_type_of st))) /\
  Workflow.analysis out !! "response"
    = Some (VStr (Compliance._sanitize_response text
                    (Compliance._run_compliance_checks text (agent_type_of st)))) /\
  Workflow.sources out = Workflow.sources st /\
  Workflow.current_agent out = Workflow.current_agent st /\
  Workflow.intent out = Workflow.intent st /\
  Workflow.confidence out = Workflow.confidence st.
Proof.
  apply (X17_review_then_format toy_repr
           (answered_state (VStr "This fund has guaranteed returns."))
           "This fund has guaranteed returns.").
  vm_compute. reflexivity.
Defined.

(** X18.  When the reply stored by a responder node is neither a string
    nor a list (it is None, a boolean, a number or a dict), the review
    fails inside the compliance node, and the formatter, which cannot
    append text to such a value, ends with its own apology: the final
    response is the formatting apology, the reply is not approved, and the
    stored reply, the sources and the routing fields stay as they were.
    A list is left aside, since [+=] extends a list instead of raising. *)
Theorem X18_reply_that_is_no_string
    (repr : value -> string) (st : Workflow.FinnieState) :
  (forall text, Workflow.get (Workflow.analysis st) "response" (VStr "") <> VStr text) ->
  (forall items, Workflow.get (Workflow.analysis st) "response" (VStr "") <> VList items) ->
  let out := Workflow._responder_node repr (Workflow._compliance_node st) in
  Workflow.response out = format_apology /\
  Workflow.approved out = VBool false /\
  Workflow.analysis out = Workflow.analysis st /\
  Workflow.sources out = Workflow.sources st /\
  Workflow.current_agent out = Workflow.current_agent st /\
  Workflow.intent out = Workflow.intent st /\
  Workflow.confidence out = Workflow.confidence st.
Proof. intros Hs _. exact (review_and_format_other repr st Hs). Qed.

(** The same for a reply that is a number. *)
Lemma X18_witness :
  let st := answered_state (VNum 1) in
  let out := Workflow._responder_node toy_repr (Workflow._compliance_node st) in
  Workflow.response out = format_apology /\
  Workflow.approved out = VBool false /\
  Workflow.analysis out = Workflow.analysis st /\
  Workflow.sources out = Workflow.sources st /\
  Workflow.current_agent out = Workflow.current_agent st /\
  Workflow.intent out = Workflow.intent st /\
  Workflow.confidence out = Workflow.confidence st.
Proof.
  apply (X18_reply_that_is_no_string toy_repr (answered_state (VNum 1))).
  - intros text. vm_compute. discriminate.
  - intros items. vm_compute. discriminate.
Defined.

(** A failing responder, end to end. *)
Lemma failure_is_absorbed
    (tutor_process portfolio_process market_process
       : Orchestrator.AgentState -> result dict)
    (repr : value -> string) (user_id query : string) (context : option dict)
    (n : Workflow.node) :
  let st := Workflow._router_node (Workflow.initial_state user_id query context) in
  Workflow.current_agent st = Some (node_name n) ->
  (forall reply,
     node_process tutor_process portfolio_process market_process n
       (Workflow.agent_state_of st) = Ok reply ->
     reply !! "response" = None) ->
  exists payload,
    Workflow.process_query tutor_process portfolio_process market_process
      repr user_id query context = Ok payload /\
    payload !! "response"
      = Some (VStr (formatted_reply (node_apology n) (node_name n))) /\
    payload !! "sources" = Some (VList []) /\
    payload !! "approved" = Some (VBool true) /\
    payload !! "agent" = Some (VStr (node_name n)) /\
    Workflow.executed_responders tutor_process portfolio_process market_process
      repr user_id query context = [node_responder n].
Proof.
  cbv zeta. intros Hcur Hfail.
  pose proof (dispatch_by_name _ n Hcur) as Hd.
  destruct (process_query_dispatched tutor_process portfolio_process market_process
              repr user_id query context n Hd) as [Hp He].
  eexists. split; [exact Hp|].
  pose proof (run_node_spec tutor_process portfolio_process market_process n _ Hcur)
    as Hnode.
  destruct (run_node_keeps_route tutor_process portfolio_process market_process n
              (Workflow._router_node (Workflow.initial_state user_id query context)))
    as (Nc & _ & _).
  cbv zeta in Hnode.
  set (s2 := (Workflow.run_node tutor_process portfolio_process market_process n
                (Workflow._router_node
                   (Workflow.initial_state user_id query context))).1) in *.
  assert (Hs2 : Workflow.analysis s2 !! "response" = Some (VStr (node_apology n)) /\
                Workflow.sources s2 = VList []).
  { destruct (node_process _ _ _ n _) as [reply|e] eqn:E; [|exact Hnode].
    rewrite (Hfail reply eq_refl) in Hnode. exact Hnode. }
  destruct Hs2 as [Hresp Hsrc].
  assert (Hget : Workflow.get (Workflow.analysis s2) "response" (VStr "")
                 = VStr (node_apology n))
    by (unfold Workflow.get; rewrite Hresp; reflexivity).
  rewrite Hcur in Nc.
  destruct (review_and_format_text repr s2 _ Hget) as (Hr & Ha & _ & Hs & Hc & _).
  rewrite (agent_type_of_node _ _ Nc) in Hr, Ha.
  destruct (payload_lookups (Workflow._responder_node repr (Workflow._compliance_node s2)))
    as (Lr & Ls & Lag & _ & _ & Lap).
  rewrite Lr, Ls, Lag, Lap, Hr, Ha, Hs, Hc, Hsrc, Nc.
  split; [reflexivity|]. split; [reflexivity|].
  split; [destruct n; vm_compute; reflexivity|].
  split; [reflexivity | exact He].
Qed.

(** An answering responder, end to end. *)
Lemma answer_is_delivered
    (tutor_process portfolio_process market_process
       : Orchestrator.AgentState -> result dict)
    (repr : value -> string) (user_id query : string) (context : option dict)
    (n : Workflow.node) (reply : dict) (text : string) :
  let st := Workflow._router_node (Workflow.initial_state user_id query context) in
  Workflow.current_agent st = Some (node_name n) ->
  node_process tutor_process portfolio_process market_process n
    (Workflow.agent_state_of st) = Ok reply ->
  reply !! "response" = Some (VStr text) ->
  exists payload,
    Workflow.process_query tutor_process portfolio_process market_process
      repr user_id query context = Ok payload /\
    payload !! "response" = Some (VStr (formatted_reply text (node_name n))) /\
    payload !! "sources" = Some (Workflow.get reply "sources" (VList [])) /\
    payload !! "approved"
      = Some (VBool (Compliance.approved
                       (Compliance._run_compliance_checks text (node_name n)))) /\
    payload !! "agent" = Some (VStr (node_name n)) /\
    Workflow.executed_responders tutor_process portfolio_process market_process
      repr user_id query context = [node_responder n].
Proof.
  cbv zeta. intros Hcur Hreply Htext.
  pose proof (dispatch_by_name _ n Hcur) as Hd.
  destruct (process_query_dispatched tutor_process portfolio_process market_process
              repr user_id query context n Hd) as [Hp He].
  eexists. split; [exact Hp|].
  pose proof (run_node_spec tutor_process portfolio_process market_process n _ Hcur)
    as Hnode.
  destruct (run_node_keeps_route tutor_process portfolio_process market_process n
              (Workflow._router_node (Workflow.initial_state user_id query context)))
    as (Nc & _ & _).
  cbv zeta in Hnode. rewrite Hreply, Htext in Hnode.
  set (s2 := (Workflow.run_node tutor_process portfolio_process market_process n
                (Workflow._router_node
                   (Workflow.initial_state user_id query context))).1) in *.
  destruct Hnode as [Hresp Hsrc].
  assert (Hget : Workflow.get (Workflow.analysis s2) "response" (VStr "") = VStr text)
    by (unfold Workflow.get; rewrite Hresp; reflexivity).
  rewrite Hcur in Nc.
  destruct (review_and_format_text repr s2 _ Hget) as (Hr & Ha & _ & Hs & Hc & _).
  rewrite (agent_type_of_node _ _ Nc) in Hr, Ha.
  destruct (payload_lookups (Workflow._responder_node repr (Workflow._compliance_node s2)))
    as (Lr & Ls & Lag & _ & _ & Lap).
  rewrite Lr, Ls, Lag, Lap, Hr, Ha, Hs, Hc, Hsrc, Nc.
  repeat split; try reflexivity. exact He.
Qed.

(** X19.  A responder that raises, or whose reply has no "response" key,
    is absorbed by its node: [process_query] still returns a payload that
    names the responder as agent, its response is the apology of that node
    followed by the disclaimers and risk warnings, it has no sources, and
    it is approved. *)
Theorem X19_responder_failure_is_absorbed
    (tutor_process portfolio_process market_process
       : Orchestrator.AgentState -> result dict)
    (repr : value -> string) (user_id query : string) (context : option dict)
    (n : Workflow.node) :
  let st := Workflow._router_node (Workflow.initial_state user_id query context) in
  Workflow.current_agent st = Some (node_name n) ->
  (forall reply,
     node_process tutor_process portfolio_process market_process n
       (Workflow.agent_state_of st) = Ok reply ->
     reply !! "response" = None) ->
  exists payload,
    Workflow.process_query tutor_process portfolio_process market_process
      repr user_id query context = Ok payload /\
    payload !! "response"
      = Some (VStr (formatted_reply (node_apology n) (node_name n))) /\
    payload !! "sources" = Some (VList []) /\
    payload !! "approved" = Some (VBool true) /\
    payload !! "agent" = Some (VStr (node_name n)) /\
    Workflow.executed_responders tutor_process portfolio_process market_process
      repr user_id query context = [node_responder n].
Proof.
  exact (failure_is_absorbed tutor_process portfolio_process market_process repr
           user_id query context n).
Qed.

(** The same for a tutor that raises on the query "What is a stock?". *)
Lemma X19_witness :
  exists payload,
    Workflow.process_query failing_agent failing_agent failing_agent
      toy_repr "user-1" "What is a stock?" None = Ok payload /\
    payload !! "response"
      = Some (VStr (formatted_reply (node_apology Workflow.NTutor)
                      (node_name Workflow.NTutor))) /\
    payload !! "sources" = Some (VList []) /\
    payload !! "approved" = Some (VBool true) /\
    payload !! "agent" = Some (VStr (node_name Workflow.NTutor)) /\
    Workflow.executed_responders failing_agent failing_agent failing_agent
      toy_repr "user-1" "What is a stock?" None = [node_responder Workflow.NTutor].
Proof.
  apply (X19_responder_failure_is_absorbed failing_agent failing_agent failing_agent
           toy_repr "user-1" "What is a stock?" None Workflow.NTutor).
  - vm_compute. reflexivity.
  - intros reply H. vm_compute in H. discriminate H.
Defined.

(** X20.  When the selected responder returns a dict whose "response" is
    a string, [process_query] returns a payload whose response is that
    text sanitized and followed by the disclaimers and risk warnings of the
    responder's category.  Its sources are the responder's (an empty list
    when it gave none), its verdict is the review's verdict on the
    responder's text, and only that responder ran. *)
Theorem X20_answered_query
    (tutor_process portfolio_process market_process
       : Orchestrator.AgentState -> result dict)
    (repr : value -> string) (user_id query : string) (context : option dict)
    (n : Workflow.node) (reply : dict) (text : string) :
  let st := Workflow._router_node (Workflow.initial_state user_id query context) in
  Workflow.current_agent st = Some (node_name n) ->
  node_process tutor_process portfolio_process market_process n
    (Workflow.agent_state_of st) = Ok reply ->
  reply !! "response" = Some (VStr text) ->
  exists payload,
    Workflow.process_query tutor_process portfolio_process market_process
      repr user_id query context = Ok payload /\
    payload !! "response" = Some (VStr (formatted_reply text (node_name n))) /\
    payload !! "sources" = Some (Workflow.get reply "sources" (VList [])) /\
    payload !! "approved"
      = Some (VBool (Compliance.approved
                       (Compliance._run_compliance_checks text (node_name n)))) /\
    payload !! "agent" = Some (VStr (node_name n)) /\
    Workflow.executed_responders tutor_process portfolio_process market_process
      repr user_id query context = [node_responder n].
Proof.
  exact (answer_is_delivered tutor_process portfolio_process market_process repr
           user_id query context n reply text).
Qed.

(** The same for a tutor that answers the query "What is a stock?". *)
Lemma X20_witness :
  exists payload,
    Workflow.process_query (canned_agent "A stock is a share of ownership.")
      failing_agent failing_agent toy_repr "user-1" "What is a stock?" None
    = Ok payload /\
    payload !! "response"
      = Some (VStr (formatted_reply "A stock is a share of ownership."
                      (node_name Workflow.NTutor))) /\
    payload !! "sources"
      = Some (Workflow.get (<["response" := VStr "A stock is a share of ownership."]> ∅)
                "sources" (VList [])) /\
    payload !! "approved"
      = Some (VBool (Compliance.approved
                       (Compliance._run_compliance_checks
                          "A stock is a share of ownership."
                          (node_name Workflow.NTutor)))) /\
    payload !! "agent" = Some (VStr (node_name Workflow.NTutor)) /\
    Workflow.executed_responders (canned_agent "A stock is a share of ownership.")
      failing_agent failing_agent toy_repr "user-1" "What is a stock?" None
    = [node_responder Workflow.NTutor].
Proof.
  apply (X20_answered_query (canned_agent "A stock is a share of ownership.")
           failing_agent failing_agent toy_repr "user-1" "What is a stock?" None
           Workflow.NTutor
           (<["response" := VStr "A stock is a share of ownership."]> ∅)
           "A stock is a share of ownership.").
  - vm_compute. reflexivity.
  - reflexivity.
  - apply lookup_insert_eq.
Defined.

(** ** The portfolio analyst and the metrics calculator *)

Section AnalystFacts.

Import Portfolio.

Variable rng : Type.
Variable np_random_seed : Z -> rng.
Variable np_random_normal1 : Q -> Q -> rng -> fnum * rng.
Variable np_sqrt : fnum -> fnum.
Variable np_percentile : list fnum -> Q -> fnum.
Variable expanding_max : list fnum -> list fnum.
Variable drawdown_min : list fnum -> fnum.

Lemma np_random_normal_length (loc scale : Q) (size : nat) (g : rng) :
  length (np_random_normal rng np_random_normal1 loc scale size g).1 = size.
Proof.
  revert g. induction size as [|n IH]; intros g; [reflexivity|].
  cbn [np_random_normal].
  destruct (np_random_normal1 loc scale g) as [x g1].
  specialize (IH g1).
  destruct (np_random_normal rng np_random_normal1 loc scale n g1) as [xs g2].
  cbn [fst length] in *. now rewrite IH.
Qed.

Lemma mock_returns_nonempty (num_holdings : nat) (g : rng) :
  (_generate_mock_returns rng np_random_seed np_random_normal1 num_holdings 252 g).1
  <> [].
Proof.
  unfold _generate_mock_returns. intros E.
  pose proof (np_random_normal_length (8 # 10000) (2 # 100) 252 (np_random_seed 42%Z)) as L.
  rewrite E in L. discriminate L.
Qed.

Lemma risk_metrics_raise (returns : list fnum) :
  returns <> [] ->
  MetricsCalculator._calculate_risk_metrics np_sqrt np_percentile expanding_max
    drawdown_min returns
  = Raise (AttributeError "numpy.ndarray" "expanding").
Proof. destruct returns; [contradiction | reflexivity]. Qed.

Lemma frame_of_nonempty (rows : list value) (df : DataFrame) :
  rows <> [] -> PortfolioAgent.frame_of rows = Some df -> df <> [].
Proof.
  destruct rows as [|v rest]; [contradiction|]. intros _.
  cbn [PortfolioAgent.frame_of].
  destruct (PortfolioAgent.row_of v); [|discriminate].
  destruct (PortfolioAgent.frame_of rest); [|discriminate].
  intros [= <-]. discriminate.
Qed.

Lemma portfolio_metrics_raise (df : DataFrame) (g : rng) :
  df <> [] ->
  exists g1,
    _calculate_portfolio_metrics rng np_random_seed np_random_normal1 np_sqrt
      np_percentile expanding_max drawdown_min df g
    = (Raise (AttributeError "numpy.ndarray" "expanding"), g1).
Proof.
  intros Hne. destruct df as [|h df]; [contradiction|].
  unfold _calculate_portfolio_metrics. cbn [empty].
  destruct (_generate_mock_returns _ _ _ _ _ _) as [returns g1].
  exists g1. reflexivity.
Qed.

Variable format_percent : fnum -> string.
Variable _generate_response :
  string -> option metrics -> PortfolioAgent.analysis ->
  list PortfolioAgent.recommendation -> string.
Variable reply_dict :
  string -> list PortfolioAgent.recommendation -> option metrics ->
  PortfolioAgent.analysis -> dict.
Variable other_holdings : value -> rng -> result dict * rng.

Lemma process_raises (state : Orchestrator.AgentState) (g : rng)
    (d : dict) (rows : list value) (df : DataFrame) :
  Orchestrator.context state !! "portfolio_data" = Some (VDict d) ->
  d !! "holdings" = Some (VList rows) ->
  rows <> [] ->
  PortfolioAgent.frame_of rows = Some df ->
  (PortfolioAgent.process rng np_random_seed np_random_normal1 np_sqrt np_percentile
     expanding_max drawdown_min format_percent _generate_response reply_dict
     other_holdings state g).1
  = Raise (AttributeError "numpy.ndarray" "expanding").
Proof.
  intros Hc Hd Hne Hf. unfold PortfolioAgent.process.
  assert (G1 : Workflow.get (Orchestrator.context state) "portfolio_data" (VDict ∅)
               = VDict d) by (unfold Workflow.get; rewrite Hc; reflexivity).
  assert (G2 : Workflow.get d "holdings" (VList []) = VList rows)
    by (unfold Workflow.get; rewrite Hd; reflexivity).
  rewrite G1, G2.
  destruct rows as [|v rest]; [contradiction|].
  cbn [Workflow.truthy negb]. rewrite Hf.
  destruct (portfolio_metrics_raise df g (frame_of_nonempty _ _ Hne Hf)) as [g1 ->].
  reflexivity.
Qed.

Lemma process_without_data (state : Orchestrator.AgentState) (g : rng) :
  Orchestrator.context state !! "portfolio_data" = None ->
  PortfolioAgent.process rng np_random_seed np_random_normal1 np_sqrt np_percentile
    expanding_max drawdown_min format_percent _generate_response reply_dict
    other_holdings state g
  = (Ok PortfolioAgent.no_holdings_reply, g).
Proof.
  intros Hc. unfold PortfolioAgent.process.
  assert (G1 : Workflow.get (Orchestrator.context state) "portfolio_data" (VDict ∅)
               = VDict ∅) by (unfold Workflow.get; rewrite Hc; reflexivity).
  rewrite G1. reflexivity.
Qed.

End AnalystFacts.

(** X21.  [PortfolioAnalystAgent.process] never analyses a portfolio: for
    every non-empty list of holdings, each a dict with a string symbol and
    numeric quantity and cost basis, it raises the [AttributeError] of the
    metrics computation, so no analysis, recommendation or response text is
    produced, whatever the generator and the numeric routines do. *)
Theorem X21_process_raises_on_holdings
    (rng : Type) (np_random_seed : Z -> rng)
    (np_random_normal1 : Q -> Q -> rng -> Portfolio.fnum * rng)
    (np_sqrt : Portfolio.fnum -> Portfolio.fnum)
    (np_percentile : list Portfolio.fnum -> Q -> Portfolio.fnum)
    (expanding_max : list Portfolio.fnum -> list Portfolio.fnum)
    (drawdown_min : list Portfolio.fnum -> Portfolio.fnum)
    (format_percent : Portfolio.fnum -> string)
    (_generate_response :
       string -> option Portfolio.metrics -> PortfolioAgent.analysis ->
       list PortfolioAgent.recommendation -> string)
    (reply_dict :
       string -> list PortfolioAgent.recommendation -> option Portfolio.metrics ->
       PortfolioAgent.analysis -> dict)
    (other_holdings : value -> rng -> result dict * rng)
    (state : Orchestrator.AgentState) (g : rng)
    (d : dict) (rows : list value) (df : Portfolio.DataFrame) :
  Orchestrator.context state !! "portfolio_data" = Some (VDict d) ->
  d !! "holdings" = Some (VList rows) ->
  rows <> [] ->
  PortfolioAgent.frame_of rows = Some df ->
  (PortfolioAgent.process rng np_random_seed np_random_normal1 np_sqrt np_percentile
     expanding_max drawdown_min format_percent _generate_response reply_dict
     other_holdings state g).1
  = Raise (AttributeError "numpy.ndarray" "expanding").
Proof.
  intros Hc Hd Hne Hf.
  exact (process_raises rng np_random_seed np_random_normal1 np_sqrt np_percentile
           expanding_max drawdown_min format_percent _generate_response reply_dict
           other_holdings state g d rows df Hc Hd Hne Hf).
Qed.

(** The same for one AAPL holding, with the toy generator. *)
Lemma X21_witness :
  (PortfolioAgent.process Z toy_seed toy_normal1 toy_sqrt toy_percentile
     toy_expanding_max toy_min toy_format toy_response toy_reply toy_other
     (Orchestrator.mkAgentState "user-1" "Analyse my portfolio risk" aapl_context
        ∅ ∅ ∅ ∅ [] None None 0)
     0%Z).1
  = Raise (AttributeError "numpy.ndarray" "expanding").
Proof.
  apply (X21_process_raises_on_holdings Z toy_seed toy_normal1 toy_sqrt toy_percentile
           toy_expanding_max toy_min toy_format toy_response toy_reply toy_other
           (Orchestrator.mkAgentState "user-1" "Analyse my portfolio risk" aapl_context
              ∅ ∅ ∅ ∅ [] None None 0)
           0%Z aapl_holdings [holding_row "AAPL" 100 150] [aapl]).
  - apply lookup_insert_eq.
  - apply lookup_insert_eq.
  - discriminate.
  - vm_compute. reflexivity.
Defined.

(** X24.  [PortfolioMetricsCalculator.calculate_metrics] returns the empty
    metrics structure for every list of holdings: directly for the empty
    list, and for every other list because the risk metrics raise on the
    NumPy array of returns before any dict is built and the handler
    returns [_empty_metrics()].  An empty list leaves the generator as it
    was; any other list leaves it reseeded with 42 and advanced by the 252
    draws. *)
Theorem X24_calculate_metrics_is_always_empty
    (rng : Type) (np_random_seed : Z -> rng)
    (np_random_normal1 : Q -> Q -> rng -> Portfolio.fnum * rng)
    (np_sqrt : Portfolio.fnum -> Portfolio.fnum)
    (np_percentile : list Portfolio.fnum -> Q -> Portfolio.fnum)
    (expanding_max : list Portfolio.fnum -> list Portfolio.fnum)
    (drawdown_min : list Portfolio.fnum -> Portfolio.fnum)
    (performance_metrics allocation_metrics : Type)
    (_calculate_performance_metrics :
       list Portfolio.fnum -> rng -> result (option performance_metrics) * rng)
    (_calculate_allocation_metrics :
       Portfolio.DataFrame -> Portfolio.Series -> rng ->
       result (option allocation_metrics) * rng)
    (holdings : list Portfolio.holding) (g : rng) :
  let out :=
    MetricsCalculator.calculate_metrics rng np_random_seed np_random_normal1 np_sqrt
      np_percentile expanding_max drawdown_min performance_metrics allocation_metrics
      _calculate_performance_metrics _calculate_allocation_metrics holdings g in
  out.1 = MetricsCalculator._empty_metrics performance_metrics allocation_metrics /\
  out.2 = match holdings with
          | [] => g
          | _ => (Portfolio.np_random_normal rng np_random_normal1
                    (8 # 10000) (2 # 100) 252 (np_random_seed 42%Z)).2
          end.
Proof.
  cbv zeta. destruct holdings as [|h rest]; [split; reflexivity|].
  unfold MetricsCalculator.calculate_metrics.
  pose proof (mock_returns_nonempty rng np_random_seed np_random_normal1
                (length (h :: rest)) g) as Hne.
  unfold Portfolio._generate_mock_returns in *.
  destruct (Portfolio.np_random_normal rng np_random_normal1 (8 # 10000) (2 # 100) 252
              (np_random_seed 42%Z)) as [returns g1].
  cbn [fst snd] in *.
  rewrite (risk_metrics_raise np_sqrt np_percentile expanding_max drawdown_min
             returns Hne).
  split; reflexivity.
Qed.

(** ** Portfolio questions through the graph *)

Section PortfolioGraphFacts.

Import Workflow.

Variable tutor_process portfolio_process market_process
  : Orchestrator.AgentState -> result dict.
Variable repr : value -> string.

(** After a failure the node has stored its apology and nothing else. *)
Lemma run_node_failure_analysis (n : node) (st : FinnieState) :
  current_agent st = Some (node_name n) ->
  (forall reply,
     node_process tutor_process portfolio_process market_process n (agent_state_of st)
     = Ok reply -> reply !! "response" = None) ->
  analysis (run_node tutor_process portfolio_process market_process n st).1
  = <["response" := VStr (node_apology n)]> (analysis st).
Proof.
  intros Hc Hfail.
  destruct n; cbn [run_node node_process node_apology node_name] in *;
    unfold _tutor_node, _portfolio_node, _market_node; rewrite Hc;
    rewrite bool_decide_eq_true_2 by reflexivity; cbn [negb fst].
  - destruct (tutor_process _) as [reply|e]; cbn [mbind result_bind bind recover];
      [|reflexivity].
    unfold getitem. rewrite (Hfail reply eq_refl). reflexivity.
  - destruct (portfolio_process _) as [reply|e]; cbn [mbind result_bind bind recover];
      [|reflexivity].
    unfold getitem. rewrite (Hfail reply eq_refl). reflexivity.
  - destruct (market_process _) as [reply|e]; cbn [mbind result_bind bind recover];
      [|reflexivity].
    unfold getitem. rewrite (Hfail reply eq_refl). reflexivity.
Qed.

(** The review of a textual reply writes the "response" entry alone. *)
Lemma review_and_format_analysis (st : FinnieState) (text : string) :
  get (analysis st) "response" (VStr "") = VStr text ->
  analysis (_responder_node repr (_compliance_node st))
  = <["response" := VStr (Compliance._sanitize_response text
                            (Compliance._run_compliance_checks text (agent_type_of st)))]>
      (analysis st).
Proof.
  intros Hr.
  destruct (compliance_node_text st text Hr) as (meta & -> & Hd & Hw).
  rewrite (responder_node_text repr _ meta
             (Compliance._sanitize_response text
                (Compliance._run_compliance_checks text (agent_type_of st)))
             (Compliance._generate_disclaimers (agent_type_of st)
                (Compliance._run_compliance_checks text (agent_type_of st)))
             (Compliance._get_risk_warnings (agent_type_of st))).
  - reflexivity.
  - reflexivity.
  - cbn [set_compliance set_analysis_item set_analysis analysis].
    unfold get. rewrite lookup_insert_eq. reflexivity.
  - exact Hd.
  - apply disclaimers_nonempty.
  - exact Hw.
  - apply risk_warnings_nonempty.
Qed.

Lemma router_node_keeps (st : FinnieState) :
  analysis (_router_node st) = analysis st /\
  context (_router_node st) = context st /\
  query (_router_node st) = query st.
Proof.
  destruct (router_node_spec st) as (a & i & c & -> & _). repeat split; reflexivity.
Qed.

End PortfolioGraphFacts.

(** X22.  A question that the router gives to the portfolio analyst, asked
    with a non-empty list of holdings (each with a string symbol and
    numeric quantity and cost basis) in the context, is never answered with
    an analysis: the analyst raises inside its node, and [process_query]
    returns the apology of the portfolio node followed by the disclaimers
    and risk warnings, without sources, approved, and with neither metrics
    nor recommendations in the analysis of the payload. *)
Theorem X22_portfolio_question_gets_the_apology
    (rng : Type) (np_random_seed : Z -> rng)
    (np_random_normal1 : Q -> Q -> rng -> Portfolio.fnum * rng)
    (np_sqrt : Portfolio.fnum -> Portfolio.fnum)
    (np_percentile : list Portfolio.fnum -> Q -> Portfolio.fnum)
    (expanding_max : list Portfolio.fnum -> list Portfolio.fnum)
    (drawdown_min : list Portfolio.fnum -> Portfolio.fnum)
    (format_percent : Portfolio.fnum -> string)
    (_generate_response :
       string -> option Portfolio.metrics -> PortfolioAgent.analysis ->
       list PortfolioAgent.recommendation -> string)
    (reply_dict :
       string -> list PortfolioAgent.recommendation -> option Portfolio.metrics ->
       PortfolioAgent.analysis -> dict)
    (other_holdings : value -> rng -> result dict * rng)
    (g : rng)
    (tutor_process market_process : Orchestrator.AgentState -> result dict)
    (repr : value -> string) (user_id query : string)
    (context d : dict) (rows : list value) (df : Portfolio.DataFrame) :
  let analyst :=
    portfolio_responder rng np_random_seed np_random_normal1 np_sqrt np_percentile
      expanding_max drawdown_min format_percent _generate_response reply_dict
      other_holdings g in
  Workflow.current_agent
    (Workflow._router_node (Workflow.initial_state user_id query (Some context)))
  = Some "portfolio" ->
  context !! "portfolio_data" = Some (VDict d) ->
  d !! "holdings" = Some (VList rows) ->
  rows <> [] ->
  PortfolioAgent.frame_of rows = Some df ->
  exists payload analysis,
    Workflow.process_query tutor_process analyst market_process repr
      user_id query (Some context) = Ok payload /\
    payload !! "response"
      = Some (VStr (formatted_reply (node_apology Workflow.NPortfolio) "portfolio")) /\
    payload !! "sources" = Some (VList []) /\
    payload !! "approved" = Some (VBool true) /\
    payload !! "analysis" = Some (VDict analysis) /\
    analysis !! "metrics" = None /\
    analysis !! "recommendations" = None.
Proof.
  cbv zeta. intros Hcur Hc Hd Hne Hf.
  set (analyst :=
         portfolio_responder rng np_random_seed np_random_normal1 np_sqrt np_percentile
           expanding_max drawdown_min format_percent _generate_response reply_dict
           other_holdings g).
  set (st := Workflow._router_node (Workflow.initial_state user_id query (Some context)))
    in *.
  destruct (router_node_keeps (Workflow.initial_state user_id query (Some context)))
    as (Ka & Kc & _).
  fold st in Ka, Kc. cbn [Workflow.initial_state Workflow.analysis Workflow.context default
                          from_option id] in Ka, Kc.
  assert (Hfail : forall reply,
             node_process tutor_process analyst market_process Workflow.NPortfolio
               (Workflow.agent_state_of st) = Ok reply ->
             reply !! "response" = None).
  { intros reply. cbn [node_process]. unfold analyst, portfolio_responder.
    rewrite (process_raises rng np_random_seed np_random_normal1 np_sqrt np_percentile
               expanding_max drawdown_min format_percent _generate_response reply_dict
               other_holdings (Workflow.agent_state_of st) g d rows df);
      [discriminate | | exact Hd | exact Hne | exact Hf].
    cbn [Workflow.agent_state_of Orchestrator.context]. rewrite Kc. exact Hc. }
  destruct (failure_is_absorbed tutor_process analyst market_process repr
              user_id query (Some context) Workflow.NPortfolio Hcur Hfail)
    as (payload & Hp & Hr & Hs & Ha & _ & _).
  exists payload. eexists.
  split; [exact Hp|]. split; [exact Hr|]. split; [exact Hs|]. split; [exact Ha|].
  pose proof (dispatch_by_name _ Workflow.NPortfolio Hcur) as Hdisp.
  destruct (process_query_dispatched tutor_process analyst market_process repr
              user_id query (Some context) Workflow.NPortfolio Hdisp) as [Hp' _].
  fold st in Hp'. rewrite Hp' in Hp. injection Hp as <-.
  pose proof (run_node_failure_analysis tutor_process analyst market_process
                Workflow.NPortfolio st Hcur Hfail) as Han.
  rewrite Ka in Han.
  assert (Hget : Workflow.get
                   (Workflow.analysis
                      (Workflow.run_node tutor_process analyst market_process
                         Workflow.NPortfolio st).1)
                   "response" (VStr "")
                 = VStr (node_apology Workflow.NPortfolio))
    by (rewrite Han; unfold Workflow.get; rewrite lookup_insert_eq; reflexivity).
  pose proof (review_and_format_analysis repr _ _ Hget) as Hout.
  rewrite Han in Hout. cbn [Workflow.run_node] in Hout.
  split.
  { unfold Workflow.payload_of. rewrite !lookup_insert_ne by discriminate.
    rewrite lookup_insert_eq. rewrite Hout. reflexivity. }
  split; rewrite !lookup_insert_ne by discriminate; apply lookup_empty.
Qed.

(** The same for the question "Analyse my portfolio risk" asked with one
    AAPL holding. *)
Lemma X22_witness :
  exists payload analysis,
    Workflow.process_query failing_agent toy_portfolio_responder failing_agent toy_repr
      "user-1" "Analyse my portfolio risk" (Some aapl_context) = Ok payload /\
    payload !! "response"
      = Some (VStr (formatted_reply (node_apology Workflow.NPortfolio) "portfolio")) /\
    payload !! "sources" = Some (VList []) /\
    payload !! "approved" = Some (VBool true) /\
    payload !! "analysis" = Some (VDict analysis) /\
    analysis !! "metrics" = None /\
    analysis !! "recommendations" = None.
Proof.
  apply (X22_portfolio_question_gets_the_apology Z toy_seed toy_normal1 toy_sqrt
           toy_percentile toy_expanding_max toy_min toy_format toy_response toy_reply
           toy_other 0%Z failing_agent failing_agent toy_repr
           "user-1" "Analyse my portfolio risk" aapl_context aapl_holdings
           [holding_row "AAPL" 100 150] [aapl]).
  - vm_compute. reflexivity.
  - apply lookup_insert_eq.
  - apply lookup_insert_eq.
  - discriminate.
  - vm_compute. reflexivity.
Defined.

(** X23.  A question that the router gives to the portfolio analyst, asked
    without portfolio data in the context, is answered with the request to
    upload holdings, followed by the disclaimers and risk warnings; the
    payload is approved and has no sources. *)
Theorem X23_portfolio_question_without_data
    (rng : Type) (np_random_seed : Z -> rng)
    (np_random_normal1 : Q -> Q -> rng -> Portfolio.fnum * rng)
    (np_sqrt : Portfolio.fnum -> Portfolio.fnum)
    (np_percentile : list Portfolio.fnum -> Q -> Portfolio.fnum)
    (expanding_max : list Portfolio.fnum -> list Portfolio.fnum)
    (drawdown_min : list Portfolio.fnum -> Portfolio.fnum)
    (format_percent : Portfolio.fnum -> string)
    (_generate_response :
       string -> option Portfolio.metrics -> PortfolioAgent.analysis ->
       list PortfolioAgent.recommendation -> string)
    (reply_dict :
       string -> list PortfolioAgent.recommendation -> option Portfolio.metrics ->
       PortfolioAgent.analysis -> dict)
    (other_holdings : value -> rng -> result dict * rng)
    (g : rng)
    (tutor_process market_process : Orchestrator.AgentState -> result dict)
    (repr : value -> string) (user_id query : string) (context : option dict) :
  let analyst :=
    portfolio_responder rng np_random_seed np_random_normal1 np_sqrt np_percentile
      expanding_max drawdown_min format_percent _generate_response reply_dict
      other_holdings g in
  Workflow.current_agent
    (Workflow._router_node (Workflow.initial_state user_id query context))
  = Some "portfolio" ->
  default ∅ context !! "portfolio_data" = None ->
  exists payload,
    Workflow.process_query tutor_process analyst market_process repr
      user_id query context = Ok payload /\
    payload !! "response"
      = Some (VStr (formatted_reply PortfolioAgent.no_holdings_text "portfolio")) /\
    payload !! "sources" = Some (VList []) /\
    payload !! "approved" = Some (VBool true).
Proof.
  cbv zeta. intros Hcur Hc.
  set (analyst :=
         portfolio_responder rng np_random_seed np_random_normal1 np_sqrt np_percentile
           expanding_max drawdown_min format_percent _generate_response reply_dict
           other_holdings g).
  set (st := Workflow._router_node (Workflow.initial_state user_id query context)) in *.
  destruct (router_node_keeps (Workflow.initial_state user_id query context))
    as (_ & Kc & _).
  fold st in Kc. cbn [Workflow.initial_state Workflow.context] in Kc.
  assert (Hreply : node_process tutor_process analyst market_process Workflow.NPortfolio
                     (Workflow.agent_state_of st)
                   = Ok PortfolioAgent.no_holdings_reply).
  { cbn [node_process]. unfold analyst, portfolio_responder.
    rewrite process_without_data; [reflexivity|].
    cbn [Workflow.agent_state_of Orchestrator.context]. rewrite Kc. exact Hc. }
  destruct (answer_is_delivered tutor_process analyst market_process repr
              user_id query context Workflow.NPortfolio
              PortfolioAgent.no_holdings_reply PortfolioAgent.no_holdings_text
              Hcur Hreply (lookup_insert_eq _ _ _))
    as (payload & Hp & Hr & Hs & Ha & _ & _).
  exists payload. split; [exact Hp|]. split; [exact Hr|].
  split; [rewrite Hs; reflexivity|].
  rewrite Ha. vm_compute. reflexivity.
Qed.

(** The same for the question "Analyse my portfolio risk" asked without a
    context. *)
Lemma X23_witness :
  exists payload,
    Workflow.process_query failing_agent toy_portfolio_responder failing_agent toy_repr
      "user-1" "Analyse my portfolio risk" None = Ok payload /\
    payload !! "response"
      = Some (VStr (formatted_reply PortfolioAgent.no_holdings_text "portfolio")) /\
    payload !! "sources" = Some (VList []) /\
    payload !! "approved" = Some (VBool true).
Proof.
  apply (X23_portfolio_question_without_data Z toy_seed toy_normal1 toy_sqrt
           toy_percentile toy_expanding_max toy_min toy_format toy_response toy_reply
           toy_other 0%Z failing_agent failing_agent toy_repr
           "user-1" "Analyse my portfolio risk" None).
  - vm_compute. reflexivity.
  - apply lookup_empty.
Defined.

(** ** Analysis and recommendations *)

Section AdviceFacts.

Import Portfolio PortfolioAgent.
Local Open Scope Q_scope.

Lemma ratio_at_least_one (df : DataFrame) :
  df <> [] ->
  (forall h, In h df -> 0 <= holding_value h) ->
  0 < cost_value_sum df ->
  exists r, diversification_ratio_of (_calculate_hhi df) = Fin r /\ 1 <= r.
Proof.
  intros Hne Hnn Hpos.
  assert (Hnz : ~ cost_value_sum df == 0).
  { intros E. rewrite E in Hpos. now apply Qlt_irrefl in Hpos. }
  pose proof (hhi_le_one df Hnn Hpos) as Hle.
  pose proof (hhi_ge_inverse_count df Hne Hnz) as Hge.
  assert (Hnpos : 0 < inject_Z (Z.of_nat (length df))).
  { unfold Qlt. cbn. destruct df; [contradiction | cbn; lia]. }
  assert (Hinv : 0 < 1 / inject_Z (Z.of_nat (length df))).
  { apply Qlt_shift_div_l; [exact Hnpos|]. rewrite Qmult_0_l. reflexivity. }
  assert (Hhpos : 0 < sum_squared_weights df).
  { eapply Qlt_le_trans; [exact Hinv | exact Hge]. }
  exists (1 / sum_squared_weights df).
  rewrite (hhi_eq df Hne Hnz). split; [now apply ratio_of_positive|].
  apply Qle_shift_div_l; [exact Hhpos|]. now rewrite Qmult_1_l.
Qed.

Lemma fltb_fin (a b : Q) : fltb (Fin a) (Fin b) = true <-> a < b.
Proof.
  cbn [fltb]. rewrite negb_true_iff. split.
  - intros E. apply Qnot_le_lt. intros H. apply Qle_bool_iff in H. congruence.
  - intros H. destruct (Qle_bool b a) eqn:E; [|reflexivity].
    apply Qle_bool_iff in E. exfalso. exact (Qlt_not_le _ _ H E).
Qed.

Lemma fltb_fin_false (a b : Q) : fltb (Fin a) (Fin b) = false <-> b <= a.
Proof.
  cbn [fltb]. rewrite negb_false_iff. apply Qle_bool_iff.
Qed.

Lemma fold_max_fin (rest : list Q) (x : Q) :
  exists m,
    fold_left (fun m y => if fltb m y then y else m) (map Fin rest) (Fin x) = Fin m /\
    In m (x :: rest) /\
    forall y, In y (x :: rest) -> y <= m.
Proof.
  revert x. induction rest as [|y rest IH]; intros x.
  - exists x. split; [reflexivity|]. split; [now left|].
    intros y [<-|[]]. apply Qle_refl.
  - cbn [map fold_left]. destruct (fltb (Fin x) (Fin y)) eqn:E.
    + apply fltb_fin in E.
      destruct (IH y) as (m & Hm & Hin & Hall). exists m.
      split; [exact Hm|]. split; [now right|].
      intros z [<-|Hz]; [|now apply Hall].
      apply Qle_trans with y; [now apply Qlt_le_weak | apply Hall; now left].
    + apply fltb_fin_false in E.
      destruct (IH x) as (m & Hm & Hin & Hall). exists m.
      split; [exact Hm|].
      split; [destruct Hin as [<-|Hin]; [now left | right; now right]|].
      intros z [<-|[<-|Hz]].
      * apply Hall. now left.
      * apply Qle_trans with x; [exact E | apply Hall; now left].
      * apply Hall. now right.
Qed.

Lemma series_max_fin (qs : list Q) :
  qs <> [] ->
  exists m, series_max (map Fin qs) = Fin m /\ In m qs /\ forall y, In y qs -> y <= m.
Proof.
  intros Hne. destruct qs as [|x rest]; [contradiction|].
  unfold series_max. rewrite filter_fin. cbn [map]. apply fold_max_fin.
Qed.

Lemma idxmax_go_fin (rest : list Q) (i j : nat) (b : Q) :
  exists k,
    idxmax_go (map Fin rest) i (Some (j, Fin b)) = Some k /\
    ((k = j /\ forall y, In y rest -> y <= b) \/
     (exists n y, k = (i + n)%nat /\ nth_error rest n = Some y /\ b <= y /\
                  forall z, In z rest -> z <= y)).
Proof.
  revert i j b. induction rest as [|y rest IH]; intros i j b.
  - exists j. split; [reflexivity|]. left. split; [reflexivity | intros y []].
  - cbn [map idxmax_go is_nan]. destruct (fltb (Fin b) (Fin y)) eqn:E.
    + apply fltb_fin in E.
      destruct (IH (S i) i y) as (k & Hk & [[-> Hall]|(n & z & -> & Hn & Hz & Hall)]).
      * exists i. split; [exact Hk|]. right. exists 0%nat, y.
        split; [lia|]. split; [reflexivity|]. split; [now apply Qlt_le_weak|].
        intros z [<-|Hz]; [apply Qle_refl | now apply Hall].
      * exists (S i + n)%nat. split; [exact Hk|]. right. exists (S n), z.
        split; [lia|]. split; [exact Hn|].
        split; [apply Qle_trans with y; [now apply Qlt_le_weak | exact Hz]|].
        intros u [<-|Hu]; [exact Hz | now apply Hall].
    + apply fltb_fin_false in E.
      destruct (IH (S i) j b) as (k & Hk & [[-> Hall]|(n & z & -> & Hn & Hz & Hall)]).
      * exists j. split; [exact Hk|]. left. split; [reflexivity|].
        intros u [<-|Hu]; [exact E | now apply Hall].
      * exists (S i + n)%nat. split; [exact Hk|]. right. exists (S n), z.
        split; [lia|]. split; [exact Hn|]. split; [exact Hz|].
        intros u [<-|Hu]; [apply Qle_trans with b; assumption | now apply Hall].
Qed.

Lemma idxmax_fin (qs : list Q) :
  qs <> [] ->
  exists k y, idxmax (map Fin qs) = Ok k /\ nth_error qs k = Some y /\
              forall z, In z qs -> z <= y.
Proof.
  intros Hne. destruct qs as [|x rest]; [contradiction|].
  unfold idxmax. cbn [map idxmax_go is_nan].
  destruct (idxmax_go_fin rest 1 0 x) as (k & -> & [[-> Hall]|(n & y & -> & Hn & Hy & Hall)]).
  - exists 0%nat, x. split; [reflexivity|]. split; [reflexivity|].
    intros z [<-|Hz]; [apply Qle_refl | now apply Hall].
  - exists (1 + n)%nat, y. split; [reflexivity|]. split; [exact Hn|].
    intros z [<-|Hz]; [exact Hy | now apply Hall].
Qed.

(** The largest weight of at most three holdings exceeds 0.3. *)
Lemma max_weight_of_few (df : DataFrame) (m : Q) :
  df <> [] -> (length df <= 3)%nat ->
  ~ cost_value_sum df == 0 ->
  (forall h, In h df -> weight_of df h <= m) ->
  3 # 10 < m.
Proof.
  intros Hne Hlen Hnz Hall.
  pose proof (weights_sum_one df Hnz) as Hsum.
  pose proof (Qsum_map_le (weight_of df) (fun _ => m) df Hall) as Hle.
  pose proof (Qsum_const (fun _ : holding => m) m df ltac:(intros; reflexivity)) as Hc.
  rewrite Hsum, Hc in Hle.
  assert (Hn : (1 <= length df <= 3)%nat) by (destruct df; [contradiction | cbn in *; lia]).
  revert Hle. generalize (length df) Hn. intros n Hn' Hle.
  unfold Qle, Qlt, Qmult, inject_Z in *. cbn in *. nia.
Qed.

(** Holdings of one common positive value, 2^k of them. *)
Lemma equal_values_facts (df : DataFrame) (v : Q) (k : nat) :
  length df = (2 ^ k)%nat -> 0 < v ->
  (forall h, In h df -> holding_value h == v) ->
  df <> [] /\ (forall h, In h df -> 0 <= holding_value h) /\ 0 < cost_value_sum df.
Proof.
  intros Hlen Hv Heq.
  assert (Hne : df <> []).
  { intros ->. cbn [length] in Hlen. symmetry in Hlen.
    now apply Nat.pow_nonzero in Hlen. }
  split; [exact Hne|]. split.
  - intros h Hh. rewrite (Heq h Hh). now apply Qlt_le_weak.
  - unfold cost_value_sum. rewrite (Qsum_const holding_value v df Heq).
    apply Qmult_lt_0_compat; [|exact Hv].
    unfold Qlt. cbn. destruct df; [contradiction | cbn; lia].
Qed.

End AdviceFacts.

(** X25.  The test that [_generate_recommendations] makes for the
    "Improve Diversification" advice reads the diversification ratio
    (the local is named [hhi]) and asks whether it is below 0.5.  For a
    single holding of positive value, and for any 2^k holdings of one
    common positive value (whole numbers in the range in which pandas
    computes exactly), the ratio the agent computes is the number of
    holdings, so this advice is not given, not even for the single
    holding, the most concentrated portfolio there is.  The rebalancing
    advice is given exactly when there is more than one holding, and
    nothing else than the drawdown, performance and rebalancing advice can
    appear. *)
Theorem X25_diversification_advice_is_never_given
    (df : Portfolio.DataFrame) (m : Portfolio.metrics)
    (a : PortfolioAgent.analysis) (v : Q) (k : nat) :
  exact_frame df = true ->
  length df = (2 ^ k)%nat ->
  (0 < v)%Q ->
  (forall h, In h df -> (holding_value h == v)%Q) ->
  Portfolio.m_diversification_ratio m
    = Portfolio.diversification_ratio_of (Portfolio._calculate_hhi df) ->
  let advice := PortfolioAgent._generate_recommendations df (Some m) a in
  ~ In PortfolioAgent.diversification_advice advice /\
  (In PortfolioAgent.rebalancing_advice advice <-> (1 < length df)%nat) /\
  (forall r, In r advice ->
     In r [PortfolioAgent.drawdown_advice; PortfolioAgent.performance_advice;
           PortfolioAgent.rebalancing_advice]).
Proof.
  intros _ Hlen Hv Heq Hm. cbv zeta.
  destruct (equal_values_facts df v k Hlen Hv Heq) as (Hne & Hnn & Hpos).
  destruct (ratio_at_least_one df Hne Hnn Hpos) as (r & Hr & Hr1).
  unfold PortfolioAgent._generate_recommendations.
  cbn [PortfolioAgent.metric]. rewrite Hm, Hr.
  assert (E : PortfolioAgent.fltb (Portfolio.Fin r) (Portfolio.Fin (1 # 2)) = false).
  { apply fltb_fin_false. apply Qle_trans with 1%Q; [discriminate | exact Hr1]. }
  rewrite E.
  destruct (PortfolioAgent.fgtb
              (PortfolioAgent.fabs (Portfolio.m_max_drawdown m)) _);
    destruct (PortfolioAgent.fltb (Portfolio.m_sharpe_ratio m) _);
    destruct (1 <? length df)%nat eqn:L;
    (apply Nat.ltb_lt in L || apply Nat.ltb_ge in L);
    cbn [app In].
  all: split; [intros H; repeat (destruct H as [H|H]; [discriminate H|]); exact H|].
  all: split; [|intros x H; tauto].
  all: split; [intros H | intros H; first [tauto | exfalso; lia]].
  all: first [exact L | repeat (destruct H as [H|H]; [discriminate H|]); destruct H].
Qed.

(** The same for one AAPL holding. *)
Lemma X25_witness :
  let advice :=
    PortfolioAgent._generate_recommendations [aapl]
      (Some (metrics_for [aapl] (Portfolio.Fin (3 # 10)) (Portfolio.Fin (1 # 4))
               (Portfolio.Fin (- (1 # 10)))))
      {| PortfolioAgent.strengths := []; PortfolioAgent.concerns := [] |} in
  ~ In PortfolioAgent.diversification_advice advice /\
  (In PortfolioAgent.rebalancing_advice advice <-> (1 < length [aapl])%nat) /\
  (forall r, In r advice ->
     In r [PortfolioAgent.drawdown_advice; PortfolioAgent.performance_advice;
           PortfolioAgent.rebalancing_advice]).
Proof.
  apply (X25_diversification_advice_is_never_given [aapl]
           (metrics_for [aapl] (Portfolio.Fin (3 # 10)) (Portfolio.Fin (1 # 4))
              (Portfolio.Fin (- (1 # 10))))
           {| PortfolioAgent.strengths := []; PortfolioAgent.concerns := [] |}
           15000%Q 0%nat).
  - vm_compute. reflexivity.
  - reflexivity.
  - reflexivity.
  - intros h [<-|[]]. vm_compute. reflexivity.
  - reflexivity.
Defined.

(** X26.  One holding of positive value, or two holdings of one common
    positive value (whole numbers in the range in which pandas computes
    exactly), analysed with the total value and the number of holdings of
    that very frame, always get a concentration concern from
    [_analyze_portfolio]: the largest weight is 1 or 1/2, which is above
    the 0.3 threshold.  The concerns start with "High concentration in S
    (P)", where S is the symbol of a holding of largest weight and P the
    formatted largest weight, followed by the "fewer than 5 holdings"
    concern; the strengths never hold "Good diversification across
    holdings" nor "Appropriate number of holdings for diversification". *)
Theorem X26_few_holdings_are_always_a_concern
    (format_percent : Portfolio.fnum -> string)
    (df : Portfolio.DataFrame) (m : Portfolio.metrics) (v : Q) (k : nat) :
  exact_frame df = true ->
  length df = (2 ^ k)%nat -> (k <= 1)%nat ->
  (0 < v)%Q ->
  (forall h, In h df -> (holding_value h == v)%Q) ->
  Portfolio.m_total_value m = Portfolio.total_value df ->
  Portfolio.m_num_holdings m = length df ->
  exists a h more,
    PortfolioAgent._analyze_portfolio format_percent df (Some m) = Ok a /\
    In h df /\
    (forall h', In h' df -> (weight_of df h' <= weight_of df h)%Q) /\
    PortfolioAgent.concerns a
      = ("High concentration in " ++ Portfolio.symbol h ++ " ("
           ++ format_percent (PortfolioAgent.series_max (Portfolio.weights df))
           ++ ")")%string
        :: "Portfolio has fewer than 5 holdings - consider diversification"
        :: more /\
    ~ In "Good diversification across holdings" (PortfolioAgent.strengths a) /\
    ~ In "Appropriate number of holdings for diversification"
         (PortfolioAgent.strengths a).
Proof.
  intros _ Hlen2 Hk Hv Heq Htv Hnum.
  destruct (equal_values_facts df v k Hlen2 Hv Heq) as (Hne & _ & Hpos).
  assert (Hlen : (length df <= 3)%nat).
  { rewrite Hlen2. destruct k as [|[|k]]; cbn; lia. }
  assert (Hnz : ~ (cost_value_sum df == 0)%Q).
  { intros E. rewrite E in Hpos. now apply Qlt_irrefl in Hpos. }
  assert (Hws : Portfolio.weights df = map Portfolio.Fin (map (weight_of df) df)).
  { rewrite weights_eq by exact Hnz. now rewrite map_map. }
  assert (Hqne : map (weight_of df) df <> []) by (destruct df; [contradiction | discriminate]).
  destruct (series_max_fin _ Hqne) as (mw & Hmax & Hin & Hall).
  destruct (idxmax_fin _ Hqne) as (i & y & Hidx & Hnth & Hyall).
  rewrite nth_error_map in Hnth.
  destruct (nth_error df i) as [h|] eqn:Hi; [|discriminate Hnth].
  cbn [option_map] in Hnth. injection Hnth as <-.
  assert (Hbig : (PortfolioAgent.double_0_3 < mw)%Q).
  { apply Qlt_trans with (3 # 10)%Q; [reflexivity|].
    apply (max_weight_of_few df mw Hne Hlen Hnz).
    intros h' Hh'. apply Hall. now apply in_map. }
  unfold PortfolioAgent._analyze_portfolio.
  cbn [PortfolioAgent.metric PortfolioAgent.metric_num_holdings].
  rewrite Htv, Hnum.
  assert (Hgt : Portfolio.fgt0 (Portfolio.total_value df) = true).
  { rewrite total_value_eq. cbn [Portfolio.fgt0]. apply Z.ltb_lt.
    unfold Qlt in Hpos. cbn in Hpos. lia. }
  rewrite Hgt.
  change (Portfolio.series_div
            (Portfolio.series_mul (Portfolio.col_quantity df) (Portfolio.col_cost_basis df))
            (Portfolio.total_value df))
    with (Portfolio.weights df).
  assert (Hfg : PortfolioAgent.fgtb (PortfolioAgent.series_max (Portfolio.weights df))
                  (Portfolio.Fin PortfolioAgent.double_0_3) = true).
  { rewrite Hws, Hmax. unfold PortfolioAgent.fgtb. now apply fltb_fin. }
  rewrite Hfg.
  assert (Hix : PortfolioAgent.idxmax (Portfolio.weights df) = Ok i)
    by (rewrite Hws; exact Hidx).
  rewrite Hix. cbn [mbind mret result_bind result_ret bind].
  unfold PortfolioAgent.loc_symbol. rewrite Hi.
  cbn [mbind mret result_bind result_ret bind].
  assert (Hfew : (length df <? 5)%nat = true) by (apply Nat.ltb_lt; lia).
  rewrite Hfew.
  destruct (PortfolioAgent.fgtb (Portfolio.m_sharpe_ratio m) _);
    [|destruct (PortfolioAgent.fltb (Portfolio.m_sharpe_ratio m) _)];
    (destruct (PortfolioAgent.fgtb (Portfolio.m_volatility m) _);
     [|destruct (PortfolioAgent.fltb (Portfolio.m_volatility m) _)]);
    eexists; exists h; eexists;
    (split; [reflexivity|]);
    (split; [eapply nth_error_In; exact Hi|]);
    (split; [intros h' Hh'; apply Hyall; now apply in_map|]);
    cbn [PortfolioAgent.add_concern PortfolioAgent.add_strength
         PortfolioAgent.concerns PortfolioAgent.strengths app];
    (split; [reflexivity|]);
    split; intros H; repeat (destruct H as [H|H]; [discriminate H|]); exact H.
Qed.

(** The same for the two holdings AAPL and MSFT, worth 15000 each. *)
Lemma X26_witness :
  exists a h more,
    PortfolioAgent._analyze_portfolio toy_format [aapl; msft]
      (Some (metrics_for [aapl; msft] (Portfolio.Fin (2 # 10))
               (Portfolio.Fin (3 # 4)) (Portfolio.Fin (- (1 # 10))))) = Ok a /\
    In h [aapl; msft] /\
    (forall h', In h' [aapl; msft] ->
       (weight_of [aapl; msft] h' <= weight_of [aapl; msft] h)%Q) /\
    PortfolioAgent.concerns a
      = ("High concentration in " ++ Portfolio.symbol h ++ " ("
           ++ toy_format (PortfolioAgent.series_max
                            (Portfolio.weights [aapl; msft]))
           ++ ")")%string
        :: "Portfolio has fewer than 5 holdings - consider diversification"
        :: more /\
    ~ In "Good diversification across holdings" (PortfolioAgent.strengths a) /\
    ~ In "Appropriate number of holdings for diversification"
         (PortfolioAgent.strengths a).
Proof.
  apply (X26_few_holdings_are_always_a_concern toy_format [aapl; msft]
           (metrics_for [aapl; msft] (Portfolio.Fin (2 # 10))
              (Portfolio.Fin (3 # 4)) (Portfolio.Fin (- (1 # 10))))
           15000%Q 1%nat).
  - vm_compute. reflexivity.
  - reflexivity.
  - lia.
  - reflexivity.
  - intros h [<-|[<-|[]]]; vm_compute; reflexivity.
  - reflexivity.
  - reflexivity.
Defined.

(** ** The tutor *)

Section TutorFacts.

Variable rnd : Type.
Variable randbelow : nat -> rnd -> nat * rnd.
Variable random_sample : list string -> nat -> rnd -> list string * rnd.

Lemma mapped_level (s : string) :
  In (default "beginner" (Tutor.lookup s Tutor.level_mapping)) tutor_levels.
Proof.
  unfold Tutor.level_mapping, tutor_levels. cbn [Tutor.lookup].
  repeat (destruct (String.eqb _ s); [cbn; auto|]). cbn. auto.
Qed.

Lemma assessed_level (context : dict) (level : string) :
  Tutor._assess_knowledge_level context = Ok level -> In level tutor_levels.
Proof.
  unfold Tutor._assess_knowledge_level.
  destruct (Workflow.get context "user_profile" (VDict ∅)) as [| | | | |d];
    try discriminate.
  destruct (Workflow.get d "experience_level" (VStr "beginner")) as [| | |s| |];
    try discriminate; intros [= <-]; try (cbn; auto).
  apply mapped_level.
Qed.

Lemma content_of_level (query level : string) :
  In level tutor_levels ->
  exists it, Tutor._get_mock_educational_content query level = [it] /\
             Tutor.level it = level.
Proof.
  intros [<-|[<-|[<-|[]]]]; eexists; split; reflexivity.
Qed.

Lemma choice_of_level (level : string) (g : rnd) :
  (forall n g, (0 < n)%nat -> ((randbelow n g).1 < n)%nat) ->
  In level tutor_levels ->
  exists question g1,
    Tutor._generate_engagement_question rnd randbelow "" level g = (Ok question, g1) /\
    In question (Tutor.get_or_beginner Tutor.questions level).
Proof.
  intros Hlt Hin. unfold Tutor._generate_engagement_question.
  assert (Hq : exists a b c, Tutor.get_or_beginner Tutor.questions level = [a; b; c]).
  { destruct Hin as [<-|[<-|[<-|[]]]]; eexists _, _, _; reflexivity. }
  destruct Hq as (a & b & c & ->).
  unfold Tutor.random_choice. cbn [length].
  pose proof (Hlt 3%nat g ltac:(lia)) as Hk.
  destruct (randbelow 3 g) as [k g1]. cbn [fst] in Hk.
  destruct k as [|[|[|k]]]; [| | |lia]; eexists _, g1; (split; [reflexivity|]);
    cbn; auto.
Qed.

Lemma tutor_text_listed (level question : string) (it : Tutor.item) :
  In level tutor_levels ->
  In question (Tutor.get_or_beginner Tutor.questions level) ->
  Tutor._get_mock_educational_content "" level = [it] ->
  In (tutor_text question it) tutor_texts.
Proof.
  intros Hl Hq Hc. unfold tutor_texts.
  apply in_flat_map. exists level. split; [exact Hl|].
  apply in_flat_map. exists it. split.
  - unfold Tutor._get_mock_educational_content in Hc. rewrite Hc. now left.
  - apply (in_map (fun q => tutor_text q it)). exact Hq.
Qed.

Lemma tutor_texts_pass : forallb passes_untouched tutor_texts = true.
Proof. vm_compute. reflexivity. Qed.

Lemma tutor_text_passes (text : string) :
  In text tutor_texts ->
  formatted_reply text "tutor"
  = ((((text ++ disclaimers_heading) ++ bullets [general_disclaimer])
        ++ warnings_heading) ++ bullets Compliance.risk_warnings)%string /\
  Compliance.approved (Compliance._run_compliance_checks text "tutor") = true.
Proof.
  intros Hin.
  pose proof (proj1 (forallb_forall _ _) tutor_texts_pass text Hin) as Hp.
  unfold passes_untouched in Hp.
  apply andb_true_iff in Hp as [Hp Hf]. apply andb_true_iff in Hp as [Hs Ha].
  apply String.eqb_eq in Hs.
  split; [|exact Ha].
  unfold formatted_reply. rewrite Hs.
  unfold Compliance._generate_disclaimers.
  destruct (Compliance.flags (Compliance._run_compliance_checks text "tutor"));
    [reflexivity | discriminate Hf].
Qed.

(** The reply of the tutor without a retrieval system. *)
Lemma tutor_process_spec (state : Orchestrator.AgentState) (g : rnd) (level : string) :
  (forall n g, (0 < n)%nat -> ((randbelow n g).1 < n)%nat) ->
  Tutor._assess_knowledge_level (Orchestrator.context state) = Ok level ->
  exists reply question it,
    (Tutor.process rnd randbelow random_sample None state g).1 = Ok reply /\
    In question (Tutor.get_or_beginner Tutor.questions level) /\
    Tutor._get_mock_educational_content (Orchestrator.query state) level = [it] /\
    Tutor.level it = level /\
    reply !! "response" = Some (VStr (tutor_text question it)) /\
    reply !! "difficulty_level" = Some (VStr level) /\
    reply !! "sources" = Some (VList [Tutor.source_dict it]) /\
    reply !! "concepts_covered"
      = Some (Compliance.VStrs
                (if String.eqb level "intermediate" then ["Portfolio"] else [])) /\
    In (tutor_text question it) tutor_texts.
Proof.
  intros Hlt Hlevel.
  pose proof (assessed_level _ _ Hlevel) as Hin.
  destruct (content_of_level (Orchestrator.query state) level Hin) as (it & Hc & Hl).
  destruct (choice_of_level level g Hlt Hin) as (question & g1 & Hq & Hqin).
  unfold Tutor.process. rewrite Hlevel.
  unfold Tutor._search_educational_content. rewrite Hc.
  unfold Tutor._generate_educational_response.
  unfold Tutor._generate_engagement_question in *. rewrite Hq.
  destruct (Tutor._generate_follow_up_questions rnd random_sample
              (Orchestrator.query state) level g1) as [follow g2].
  cbn [fst mbind mret result_bind result_ret bind
       Tutor.r_content Tutor.r_sources Tutor.r_concepts_covered map].
  eexists _, question, it.
  split; [reflexivity|]. split; [exact Hqin|]. split; [reflexivity|].
  split; [exact Hl|].
  split; [apply lookup_insert_eq|].
  split; [rewrite !lookup_insert_ne by discriminate; apply lookup_insert_eq|].
  split; [rewrite !lookup_insert_ne by discriminate; apply lookup_insert_eq|].
  split.
  - rewrite !lookup_insert_ne by discriminate. rewrite lookup_insert_eq.
    f_equal. f_equal.
    destruct Hin as [<-|[<-|[<-|[]]]]; injection Hc as <-; vm_compute; reflexivity.
  - apply (tutor_text_listed level); [exact Hin | exact Hqin |].
    destruct Hin as [<-|[<-|[<-|[]]]]; exact Hc.
Qed.

End TutorFacts.

(** X27.  [_assess_knowledge_level] returns one of the three levels
    "beginner", "intermediate" and "advanced", and for each of them the
    mock content is exactly one entry of that very level, so the fallback
    to the beginner content is never taken after an assessment.  It raises
    only when the user profile of the context is not a dict, or when the
    experience level in it is a list or a dict. *)
Theorem X27_knowledge_level_is_one_of_three (context : dict) (query : string) :
  match Tutor._assess_knowledge_level context with
  | Ok level =>
      In level tutor_levels /\
      exists it, Tutor._get_mock_educational_content query level = [it] /\
                 Tutor.level it = level
  | Raise _ =>
      (exists v, context !! "user_profile" = Some v /\ forall d, v <> VDict d) \/
      (exists d v, context !! "user_profile" = Some (VDict d) /\
                   d !! "experience_level" = Some v /\
                   ((exists items, v = VList items) \/ (exists m, v = VDict m)))
  end.
Proof.
  destruct (Tutor._assess_knowledge_level context) as [level|e] eqn:E.
  - pose proof (assessed_level _ _ E) as Hin.
    split; [exact Hin | now apply content_of_level].
  - unfold Tutor._assess_knowledge_level, Workflow.get in E.
    destruct (context !! "user_profile") as [v|] eqn:Hv; cbn [default from_option id] in E.
    + destruct v as [| | | | |d];
        try (left; eexists; split; [reflexivity | discriminate]).
      right. exists d.
      destruct (d !! "experience_level") as [w|] eqn:Hw;
        cbn [default from_option id] in E; [|discriminate E].
      exists w. split; [reflexivity|]. split; [reflexivity|].
      destruct w; try discriminate E; [left | right]; eexists; reflexivity.
    + rewrite lookup_empty in E. cbn [default from_option id] in E. discriminate E.
Qed.

(** X28.  Without a retrieval system, and whenever the knowledge level can
    be assessed, [TutorAgent.process] returns a reply whose response is one
    of the three engagement questions of the level, three line breaks, and
    the mock content of the level.  The reply names the
    level as difficulty, lists the one content entry as its source, and
    covers the concept "Portfolio" at the intermediate level and no concept
    at the two others. *)
Theorem X28_tutor_reply
    (rnd : Type) (randbelow : nat -> rnd -> nat * rnd)
    (random_sample : list string -> nat -> rnd -> list string * rnd)
    (state : Orchestrator.AgentState) (g : rnd) (level : string) :
  (forall n g, (0 < n)%nat -> ((randbelow n g).1 < n)%nat) ->
  Tutor._assess_knowledge_level (Orchestrator.context state) = Ok level ->
  exists reply question it,
    (Tutor.process rnd randbelow random_sample None state g).1 = Ok reply /\
    In question (Tutor.get_or_beginner Tutor.questions level) /\
    Tutor._get_mock_educational_content (Orchestrator.query state) level = [it] /\
    Tutor.level it = level /\
    reply !! "response" = Some (VStr (tutor_text question it)) /\
    reply !! "difficulty_level" = Some (VStr level) /\
    reply !! "sources" = Some (VList [Tutor.source_dict it]) /\
    reply !! "concepts_covered"
      = Some (Compliance.VStrs
                (if String.eqb level "intermediate" then ["Portfolio"] else [])).
Proof.
  intros Hlt Hlevel.
  destruct (tutor_process_spec rnd randbelow random_sample state g level Hlt Hlevel)
    as (reply & question & it & H1 & H2 & H3 & H4 & H5 & H6 & H7 & H8 & _).
  exists reply, question, it. auto 10.
Qed.

(** The same for a user whose profile says "expert". *)
Lemma X28_witness :
  exists reply question it,
    (Tutor.process nat toy_randbelow toy_sample None
       (Orchestrator.mkAgentState "user-1" "What is a stock?"
          (profile_context (VStr "expert")) ∅ ∅ ∅ ∅ [] None None 0)
       0%nat).1 = Ok reply /\
    In question (Tutor.get_or_beginner Tutor.questions "advanced") /\
    Tutor._get_mock_educational_content "What is a stock?" "advanced" = [it] /\
    Tutor.level it = "advanced" /\
    reply !! "response" = Some (VStr (tutor_text question it)) /\
    reply !! "difficulty_level" = Some (VStr "advanced") /\
    reply !! "sources" = Some (VList [Tutor.source_dict it]) /\
    reply !! "concepts_covered"
      = Some (Compliance.VStrs
                (if String.eqb "advanced" "intermediate" then ["Portfolio"] else [])).
Proof.
  apply (X28_tutor_reply nat toy_randbelow toy_sample
           (Orchestrator.mkAgentState "user-1" "What is a stock?"
              (profile_context (VStr "expert")) ∅ ∅ ∅ ∅ [] None None 0)
           0%nat "advanced").
  - intros n g Hn. cbn [toy_randbelow fst]. apply Nat.mod_upper_bound. lia.
  - vm_compute. reflexivity.
Defined.

(** X29.  A question that the router gives to the tutor, asked with a
    context whose knowledge level can be assessed, comes back with the
    tutor's own text unaltered: none of the nine texts the tutor can build
    from its content raises a compliance flag or is touched by the
    sanitizer.  The payload's response is that text followed by the
    general disclaimer alone and the four general risk warnings; it is
    approved, and only the tutor ran. *)
Theorem X29_tutor_question_passes_review
    (rnd : Type) (randbelow : nat -> rnd -> nat * rnd)
    (random_sample : list string -> nat -> rnd -> list string * rnd)
    (g : rnd)
    (portfolio_process market_process : Orchestrator.AgentState -> result dict)
    (repr : value -> string) (user_id query : string) (context : option dict)
    (level : string) :
  (forall n g, (0 < n)%nat -> ((randbelow n g).1 < n)%nat) ->
  Workflow.current_agent
    (Workflow._router_node (Workflow.initial_state user_id query context))
  = Some "tutor" ->
  Tutor._assess_knowledge_level (default ∅ context) = Ok level ->
  exists payload text,
    Workflow.process_query (tutor_responder rnd randbelow random_sample g)
      portfolio_process market_process repr user_id query context = Ok payload /\
    In text tutor_texts /\
    payload !! "response"
      = Some (VStr ((((text ++ disclaimers_heading) ++ bullets [general_disclaimer])
                       ++ warnings_heading) ++ bullets Compliance.risk_warnings)) /\
    payload !! "approved" = Some (VBool true) /\
    payload !! "agent" = Some (VStr "tutor") /\
    Workflow.executed_responders (tutor_responder rnd randbelow random_sample g)
      portfolio_process market_process repr user_id query context
    = [Workflow.RTutor].
Proof.
  intros Hlt Hcur Hlevel.
  set (st := Workflow._router_node (Workflow.initial_state user_id query context)) in *.
  destruct (router_node_keeps (Workflow.initial_state user_id query context))
    as (_ & Kc & _).
  fold st in Kc. cbn [Workflow.initial_state Workflow.context] in Kc.
  assert (Hl : Tutor._assess_knowledge_level
                 (Orchestrator.context (Workflow.agent_state_of st)) = Ok level).
  { cbn [Workflow.agent_state_of Orchestrator.context]. rewrite Kc. exact Hlevel. }
  destruct (tutor_process_spec rnd randbelow random_sample
              (Workflow.agent_state_of st) g level Hlt Hl)
    as (reply & question & it & Hp & _ & _ & _ & Hr & _ & _ & _ & Hin).
  destruct (answer_is_delivered (tutor_responder rnd randbelow random_sample g)
              portfolio_process market_process repr user_id query context
              Workflow.NTutor reply (tutor_text question it) Hcur Hp Hr)
    as (payload & Hq & Hresp & _ & Happ & Hag & Hex).
  destruct (tutor_text_passes _ Hin) as [Hf Ha].
  exists payload, (tutor_text question it).
  split; [exact Hq|]. split; [exact Hin|].
  cbn [node_name] in Hresp, Happ. rewrite Hf in Hresp. rewrite Ha in Happ.
  split; [exact Hresp|]. split; [exact Happ|]. split; [exact Hag | exact Hex].
Qed.

(** The same for the question "What is a stock?" asked without a context. *)
Lemma X29_witness :
  exists payload text,
    Workflow.process_query (tutor_responder nat toy_randbelow toy_sample 0%nat)
      failing_agent failing_agent toy_repr "user-1" "What is a stock?" None
    = Ok payload /\
    In text tutor_texts /\
    payload !! "response"
      = Some (VStr ((((text ++ disclaimers_heading) ++ bullets [general_disclaimer])
                       ++ warnings_heading) ++ bullets Compliance.risk_warnings)) /\
    payload !! "approved" = Some (VBool true) /\
    payload !! "agent" = Some (VStr "tutor") /\
    Workflow.executed_responders (tutor_responder nat toy_randbelow toy_sample 0%nat)
      failing_agent failing_agent toy_repr "user-1" "What is a stock?" None
    = [Workflow.RTutor].
Proof.
  apply (X29_tutor_question_passes_review nat toy_randbelow toy_sample 0%nat
           failing_agent failing_agent toy_repr "user-1" "What is a stock?" None
           "beginner").
  - intros n g Hn. cbn [toy_randbelow fst]. apply Nat.mod_upper_bound. lia.
  - vm_compute. reflexivity.
  - vm_compute. reflexivity.
Defined.
